(** * BeeLight: the adaptive-bin brightness model of [model.py]

    A shallow embedding of [AdaptiveBin] and [EnhancedBrightnessModel] and
    the properties of their operations.

    - Python [int] is [Z]; Python [float] is the kernel's binary64 [float],
      so every arithmetic step rounds as CPython's does, and NaN and the
      infinities behave as they do there.
    - The methods mutate [self]; here they take the object and return the
      new one.  A bin belongs to one model and a sample to one bin, so no
      object is reached through two names.
    - An exception that the code does not catch ends the call; such a call
      is a [Raise] of the monad [exc].
    - A message written with [print] changes no state.  The methods of
      [EnhancedBrightnessModel] are modelled without their messages; the
      messages that can raise are kept in [WithMessages], for the
      properties about what a call raises.
    - [time.localtime] is the platform's: the class [Platform]. *)

From Stdlib Require Import ZArith List Lia Bool.
From Stdlib Require Import Floats.
From Stdlib Require Import Sorted Permutation.
Import ListNotations.

Set Warnings "-inexact-float".
Open Scope Z_scope.

(** ** Python primitives *)

Inductive exn : Set :=
| ValueError
| OverflowError
| ZeroDivisionError
| IndexError
| OSError.

Inductive exc (A : Type) : Type :=
| Ret (a : A)
| Raise (e : exn).

Arguments Ret {A} a.
Arguments Raise {A} e.

Definition bind {A B : Type} (c : exc A) (k : A -> exc B) : exc B :=
  match c with
  | Ret a => k a
  | Raise e => Raise e
  end.

Declare Scope exc_scope.
Delimit Scope exc_scope with exc.
Notation "x <- c ;; k" := (bind c (fun x => k))
  (at level 61, c at next level, right associativity) : exc_scope.
Notation "' pat <- c ;; k" := (bind c (fun x => match x with pat => k end))
  (at level 61, pat pattern, c at next level, right associativity) : exc_scope.
Open Scope exc_scope.

(** [float(z)] and the implicit conversion of an [int] operand in mixed
    arithmetic: round to nearest, ties to even; CPython raises
    [OverflowError] ("int too large to convert to float") exactly when the
    rounded value would exceed the largest finite double, that is from
    [2^1024 - 2^970] on. *)
Definition float_max_int : Z := 2 ^ 1024 - 2 ^ 970.

Definition float_of_int (z : Z) : exc float :=
  if Z.abs z <? float_max_int
  then Ret (SF2Prim (binary_normalize prec emax z 0 false))
  else Raise OverflowError.

(** [a / b] on floats raises [ZeroDivisionError] on a zero divisor. *)
Definition float_div (a b : float) : exc float :=
  if PrimFloat.eqb b 0%float then Raise ZeroDivisionError
  else Ret (PrimFloat.div a b).

(** Comparison of an [int] with a [float]: CPython compares the exact
    mathematical values; a NaN compares false with everything. *)
Definition Zcompare_float (z : Z) (f : float) : option comparison :=
  match Prim2SF f with
  | S754_nan => None
  | S754_infinity s => Some (if s then Gt else Lt)
  | S754_zero _ => Some (z ?= 0)
  | S754_finite s m e =>
      let v := if s then Zneg m else Zpos m in
      Some (if 0 <=? e then z ?= v * 2 ^ e else z * 2 ^ (- e) ?= v)
  end.

(** [z <= f] *)
Definition int_le_float (z : Z) (f : float) : bool :=
  match Zcompare_float z f with
  | Some Lt | Some Eq => true
  | _ => false
  end.

(** [f < z] *)
Definition float_lt_int (f : float) (z : Z) : bool :=
  match Zcompare_float z f with
  | Some Gt => true
  | _ => false
  end.

(** [f >= z] *)
Definition float_ge_int (f : float) (z : Z) : bool := int_le_float z f.

(** The builtins [min(a, b)] and [max(a, b)]: the second argument replaces
    the first only when it compares strictly smaller (larger). *)
Definition py_min (a b : float) : float := if PrimFloat.ltb b a then b else a.
Definition py_max (a b : float) : float := if PrimFloat.ltb a b then b else a.

(** [sum(xs)] over floats: accumulation from [0], left to right.  (CPython
    3.12 and later carry a compensation term in [sum], which can change the
    last bits of the result; the accumulation below is the historical
    builtin.) *)
Definition fsum (xs : list float) : float :=
  fold_left PrimFloat.add xs 0%float.

(** [xs[i]] with Python's negative indices; [None] stands for [IndexError]. *)
Definition py_index {A : Type} (xs : list A) (i : Z) : option A :=
  let n := Z.of_nat (length xs) in
  if (0 <=? i) && (i <? n) then nth_error xs (Z.to_nat i)
  else if (- n <=? i) && (i <? 0) then nth_error xs (Z.to_nat (n + i))
  else None.

(** [range(n)] and [range(a, b)] *)
Definition range (n : Z) : list Z := map Z.of_nat (seq 0 (Z.to_nat n)).
Definition range_from (a b : Z) : list Z :=
  map (fun k => a + Z.of_nat k) (seq 0 (Z.to_nat (b - a))).

(** [sorted(xs, key=key)]: a stable sort, as Python's is. *)
Section StableSort.
Context {A : Type} (key : A -> Z).

Fixpoint insert_by (x : A) (l : list A) : list A :=
  match l with
  | [] => [x]
  | y :: l' => if key x <=? key y then x :: y :: l' else y :: insert_by x l'
  end.

Definition sorted_by (l : list A) : list A := fold_right insert_by [] l.

End StableSort.

(** [xs.pop(i)] for an index in range: the element and the remaining list. *)
Definition pop {A : Type} (xs : list A) (i : nat) : option (A * list A) :=
  match nth_error xs i with
  | Some x => Some (x, firstn i xs ++ skipn (S i) xs)
  | None => None
  end.

(** [deque(maxlen=3).append(x)]: the oldest entries fall out on the left. *)
Definition deque_maxlen : nat := 3.

Definition deque_append (d : list float) (x : float) : list float :=
  let d' := d ++ [x] in
  skipn (length d' - deque_maxlen) d'.

(** ** Data *)

Record DataPoint : Set := mkDataPoint {
  timestamp : Z;
  ambient_light : Z;
  screen_brightness : Z;
  is_manual_adjustment : bool
}.

(** [time.localtime(t).tm_hour] belongs to the platform (time zone, range of
    [time_t]); it raises on a timestamp the platform cannot convert. *)
Class Platform : Type := {
  localtime_tm_hour : Z -> exc Z
}.

(** A platform on UTC, used for the concrete runs below. *)
Definition utc : Platform :=
  {| localtime_tm_hour := fun t => Ret ((t / 3600) mod 24) |}.

(** A platform with a 32-bit [time_t]: timestamps outside its range raise. *)
Definition time_t32 : Platform :=
  {| localtime_tm_hour := fun t =>
       if (- 2 ^ 31 <=? t) && (t <? 2 ^ 31) then Ret ((t / 3600) mod 24)
       else Raise OverflowError |}.

Module TimeFeatures.

Record t : Set := mk {
  hour : Z;
  is_day : bool
}.

Definition from_timestamp {P : Platform} (timestamp : Z) : exc t :=
  hour <- localtime_tm_hour timestamp ;;
  let is_day := (6 <=? hour) && (hour <? 18) in
  Ret (mk hour is_day).

End TimeFeatures.

Record WeightedDataPoint : Set := mkWeightedDataPoint {
  brightness : Z;
  weight : float;
  point_timestamp : Z
}.

(** ** AdaptiveBin *)

Module AdaptiveBin.

Record t : Set := mk {
  min_value : Z;
  max_value : Z;
  points : list WeightedDataPoint;
  total_weight : float;
  max_points : Z
}.

Definition init (min_value max_value : Z) : t :=
  mk min_value max_value [] 0%float 50.

(** The scan of [update] for the index of the smallest weight:
    [i] is the position of the head of [l]. *)
Fixpoint scan_min_weight (l : list WeightedDataPoint) (i : nat)
    (min_weight : float) (min_weight_idx : nat) : nat :=
  match l with
  | [] => min_weight_idx
  | point :: rest =>
      if PrimFloat.ltb (weight point) min_weight
      then scan_min_weight rest (S i) (weight point) i
      else scan_min_weight rest (S i) min_weight min_weight_idx
  end.

Definition min_weight_index (pts : list WeightedDataPoint) : nat :=
  match pts with
  | [] => 0%nat
  | p0 :: _ => scan_min_weight pts 0 (weight p0) 0
  end.

Definition update (b : t) (brightness : Z) (weight_ : float) (timestamp : Z) : t :=
  let points1 := points b ++ [mkWeightedDataPoint brightness weight_ timestamp] in
  let total1 := PrimFloat.add (total_weight b) weight_ in
  if Z.of_nat (length points1) >? max_points b then
    match pop points1 (min_weight_index points1) with
    | Some (removed_point, points2) =>
        mk (min_value b) (max_value b) points2
           (PrimFloat.sub total1 (weight removed_point)) (max_points b)
    | None => mk (min_value b) (max_value b) points1 total1 (max_points b)
    end
  else mk (min_value b) (max_value b) points1 total1 (max_points b).

(** [sum(p.brightness * p.weight for p in self.points)] *)
Fixpoint weighted_sum (pts : list WeightedDataPoint) (acc : float) : exc float :=
  match pts with
  | [] => Ret acc
  | p :: rest =>
      fb <- float_of_int (brightness p) ;;
      weighted_sum rest (PrimFloat.add acc (PrimFloat.mul fb (weight p)))
  end.

Definition get_weighted_average (b : t) : exc (option float) :=
  match points b with
  | [] => Ret None
  | _ =>
      if PrimFloat.eqb (total_weight b) 0%float then Ret None
      else
        s <- weighted_sum (points b) 0%float ;;
        q <- float_div s (total_weight b) ;;
        Ret (Some q)
  end.

Fixpoint cleanup_loop (pts : list WeightedDataPoint) (current_timestamp max_age_seconds : Z)
    (new_points : list WeightedDataPoint) (new_total_weight : float)
    : list WeightedDataPoint * float :=
  match pts with
  | [] => (new_points, new_total_weight)
  | point :: rest =>
      let age := current_timestamp - point_timestamp point in
      if age <=? max_age_seconds
      then cleanup_loop rest current_timestamp max_age_seconds
             (new_points ++ [point]) (PrimFloat.add new_total_weight (weight point))
      else cleanup_loop rest current_timestamp max_age_seconds new_points new_total_weight
  end.

Definition cleanup (b : t) (current_timestamp max_age_seconds : Z) : t :=
  let '(new_points, new_total_weight) :=
    cleanup_loop (points b) current_timestamp max_age_seconds [] 0%float in
  mk (min_value b) (max_value b) new_points new_total_weight (max_points b).

End AdaptiveBin.

(** ** EnhancedBrightnessModel *)

Module EnhancedBrightnessModel.

Record t : Set := mk {
  ambient_bins : list AdaptiveBin.t;
  time_weight : float;
  recency_weight : float;
  activity_weight : float;
  last_predictions : list float;
  max_age_seconds : Z
}.

Definition set_bins (m : t) (bins : list AdaptiveBin.t) : t :=
  mk bins (time_weight m) (recency_weight m) (activity_weight m)
     (last_predictions m) (max_age_seconds m).

Definition init (min_ambient max_ambient bin_count : Z)
    (time_weight recency_weight activity_weight : float) : exc t :=
  if bin_count <=? 0 then Raise ValueError
  else if min_ambient >=? max_ambient then Raise ValueError
  else
    let bin_size := (max_ambient - min_ambient) / bin_count in
    let bins :=
      map (fun i =>
             let bin_min := min_ambient + i * bin_size in
             let bin_max := if i =? bin_count - 1 then max_ambient
                            else bin_min + bin_size in
             AdaptiveBin.init bin_min bin_max)
          (range bin_count) in
    Ret (mk bins time_weight recency_weight activity_weight [] (7 * 24 * 3600)).

Definition _is_outlier (new_point : DataPoint) (last_point : option DataPoint) : bool :=
  match last_point with
  | None => false
  | Some last_point =>
      let brightness_diff := Z.abs (screen_brightness new_point - screen_brightness last_point) in
      let ambient_diff := Z.abs (ambient_light new_point - ambient_light last_point) in
      (brightness_diff >? 80) || (ambient_diff >? 1200)
  end.

(** [max(points, key=lambda p: p.timestamp)] on a list with head [p0]:
    the first point among those of the largest timestamp. *)
Fixpoint max_by_timestamp (best : WeightedDataPoint) (rest : list WeightedDataPoint)
    : WeightedDataPoint :=
  match rest with
  | [] => best
  | p :: rest' =>
      if point_timestamp p >? point_timestamp best
      then max_by_timestamp p rest'
      else max_by_timestamp best rest'
  end.

(** The loop of [_find_last_point_in_bins]; the state is
    [latest_timestamp] and [last_point_info]. *)
Fixpoint find_last_loop (bins : list AdaptiveBin.t) (latest_timestamp : Z)
    (last_point_info : option (Z * Z * Z)) : option (Z * Z * Z) :=
  match bins with
  | [] => last_point_info
  | bin_ :: rest =>
      match AdaptiveBin.points bin_ with
      | [] => find_last_loop rest latest_timestamp last_point_info
      | p0 :: ps =>
          let current_last_point := max_by_timestamp p0 ps in
          if point_timestamp current_last_point >? latest_timestamp then
            let latest_timestamp' := point_timestamp current_last_point in
            let approx_ambient :=
              (AdaptiveBin.min_value bin_ + AdaptiveBin.max_value bin_) / 2 in
            find_last_loop rest latest_timestamp'
              (Some (latest_timestamp', approx_ambient, brightness current_last_point))
          else find_last_loop rest latest_timestamp last_point_info
      end
  end.

Definition _find_last_point_in_bins (m : t) : option DataPoint :=
  match find_last_loop (ambient_bins m) (-1) None with
  | Some (ts, amb, bright) => Some (mkDataPoint ts amb bright true)
  | None => None
  end.

(** [bin_.min_value = v] and [bin_.max_value = v] *)
Definition set_min_value (b : AdaptiveBin.t) (v : Z) : AdaptiveBin.t :=
  AdaptiveBin.mk v (AdaptiveBin.max_value b) (AdaptiveBin.points b)
    (AdaptiveBin.total_weight b) (AdaptiveBin.max_points b).

Definition set_max_value (b : AdaptiveBin.t) (v : Z) : AdaptiveBin.t :=
  AdaptiveBin.mk (AdaptiveBin.min_value b) v (AdaptiveBin.points b)
    (AdaptiveBin.total_weight b) (AdaptiveBin.max_points b).

(** One round of the loop of [adapt_bins], for the bin at index [i].  The
    flag is [false] when an element of [ambient_list] is missing: that is
    the [IndexError] which the [try] catches, the loop stops and the bins
    keep what was written so far. *)
Definition adapt_one (ambient_list : list Z) (bin_count i : Z) (bin_ : AdaptiveBin.t)
    : AdaptiveBin.t * bool :=
  let len := Z.of_nat (length ambient_list) in
  let start_idx := (i * len) / bin_count in
  let end_idx := Z.min (((i + 1) * len) / bin_count - 1) (len - 1) in
  if (start_idx >=? len) || (end_idx <? 0) || (start_idx >? end_idx) then (bin_, true)
  else
    match py_index ambient_list start_idx with
    | None => (bin_, false)
    | Some new_min =>
        let b1 := set_min_value bin_ new_min in
        match (if i =? bin_count - 1 then py_index ambient_list (-1)
               else py_index ambient_list end_idx) with
        | None => (b1, false)
        | Some new_max =>
            let b2 := set_max_value b1 new_max in
            if (AdaptiveBin.min_value b2 >=? AdaptiveBin.max_value b2)
               && (i <? bin_count - 1) then
              if end_idx + 1 <? len then
                match py_index ambient_list (end_idx + 1) with
                | None => (b2, false)
                | Some new_max' => (set_max_value b2 new_max', true)
                end
              else (b2, true)
            else (b2, true)
        end
    end.

Fixpoint adapt_loop (ambient_list : list Z) (bin_count i : Z) (bins : list AdaptiveBin.t)
    : list AdaptiveBin.t :=
  match bins with
  | [] => []
  | bin_ :: rest =>
      let '(bin', ok) := adapt_one ambient_list bin_count i bin_ in
      if ok then bin' :: adapt_loop ambient_list bin_count (i + 1) rest
      else bin' :: rest
  end.

Definition adapt_bins (m : t) (historical_data : list DataPoint) : t :=
  if Z.of_nat (length historical_data) <? Z.of_nat (length (ambient_bins m)) * 2 then m
  else
    let ambient_list := sorted_by (fun a => a) (map ambient_light historical_data) in
    let bin_count := Z.of_nat (length (ambient_bins m)) in
    set_bins m (adapt_loop ambient_list bin_count 0 (ambient_bins m)).

(** Line 353: [max(0.0, 1.0 - float(time_diff_seconds) / float(self.max_age_seconds))]. *)
Definition age_factor (m : t) (time_diff_seconds : Z) : exc float :=
  fd <- float_of_int time_diff_seconds ;;
  fa <- float_of_int (max_age_seconds m) ;;
  q <- float_div fd fa ;;
  Ret (py_max 0.0%float (PrimFloat.sub 1.0%float q)).

Definition _calculate_weight (m : t) (current_time_features point_time_features : TimeFeatures.t)
    (time_diff_seconds : Z) (is_active : bool) : exc float :=
  let time_similarity :=
    if Bool.eqb (TimeFeatures.is_day current_time_features)
                (TimeFeatures.is_day point_time_features)
    then 1.0%float else 0.2%float in
  let time_weight_component := PrimFloat.mul (time_weight m) time_similarity in
  age_factor_ <- age_factor m time_diff_seconds ;;
  let recency_weight_component := PrimFloat.mul (recency_weight m) age_factor_ in
  let activity_similarity := if is_active then 1.0%float else 0.5%float in
  let activity_weight_component := PrimFloat.mul (activity_weight m) activity_similarity in
  Ret (PrimFloat.add (PrimFloat.add time_weight_component recency_weight_component)
         activity_weight_component).

(** The bin search of [train]: exact integer comparisons; the last bin is
    the one at the last index (the bins of a model are distinct objects). *)
Fixpoint find_target_bin (bins : list AdaptiveBin.t) (i : nat) (ambient : Z) : option nat :=
  match bins with
  | [] => None
  | bin_ :: rest =>
      let is_last_bin := match rest with [] => true | _ => false end in
      if ((AdaptiveBin.min_value bin_ <=? ambient) && (ambient <? AdaptiveBin.max_value bin_))
         || (is_last_bin && (ambient >=? AdaptiveBin.min_value bin_))
      then Some i
      else find_target_bin rest (S i) ambient
  end.

(** [bins[i] = f(bins[i])]: in-place mutation of the bin at index [i]. *)
Fixpoint update_at (bins : list AdaptiveBin.t) (i : nat)
    (f : AdaptiveBin.t -> AdaptiveBin.t) : list AdaptiveBin.t :=
  match bins, i with
  | [], _ => []
  | b :: rest, O => f b :: rest
  | b :: rest, S i' => b :: update_at rest i' f
  end.

(** The weight [train] gives to a point that passed the two filters. *)
Definition train_weight {P : Platform} (m : t) (data_point : DataPoint)
    (current_timestamp : Z) (is_active : bool) : exc float :=
  current_time_features <- TimeFeatures.from_timestamp current_timestamp ;;
  point_time_features <- TimeFeatures.from_timestamp (timestamp data_point) ;;
  let time_diff := Z.max 0 (current_timestamp - timestamp data_point) in
  _calculate_weight m current_time_features point_time_features time_diff is_active.

Definition train {P : Platform} (m : t) (data_point : DataPoint)
    (current_timestamp : Z) (is_active : bool) : exc t :=
  if negb (is_manual_adjustment data_point) then Ret m
  else
    let last_point := _find_last_point_in_bins m in
    if _is_outlier data_point last_point then Ret m
    else
      weight_ <- train_weight m data_point current_timestamp is_active ;;
      match find_target_bin (ambient_bins m) 0 (ambient_light data_point) with
      | Some i =>
          Ret (set_bins m
                 (update_at (ambient_bins m) i
                    (fun target_bin =>
                       AdaptiveBin.update target_bin (screen_brightness data_point)
                         weight_ (timestamp data_point))))
      | None => Ret m
      end.

(** The bin search of [predict]: the comparisons are between the bounds
    (integers) and [current_ambient] (a float). *)
Fixpoint find_main_bin (bins : list AdaptiveBin.t) (i : nat) (current_ambient : float)
    : option (nat * AdaptiveBin.t) :=
  match bins with
  | [] => None
  | bin_ :: rest =>
      let is_last_bin := match rest with [] => true | _ => false end in
      if (int_le_float (AdaptiveBin.min_value bin_) current_ambient
          && float_lt_int current_ambient (AdaptiveBin.max_value bin_))
         || (is_last_bin && float_ge_int current_ambient (AdaptiveBin.min_value bin_))
      then Some (i, bin_)
      else find_main_bin rest (S i) current_ambient
  end.

(** [self.ambient_bins[idx].get_weighted_average()] *)
Definition average_at (bins : list AdaptiveBin.t) (idx : Z) : exc (option float) :=
  match py_index bins idx with
  | Some b => AdaptiveBin.get_weighted_average b
  | None => Raise IndexError
  end.

(** The search for a neighbour with data, over the offsets still to try. *)
Fixpoint search_neighbours (bins : list AdaptiveBin.t) (main_bin_index : Z)
    (offsets : list Z) : exc (option float) :=
  match offsets with
  | [] => Ret None
  | idx_offset :: rest =>
      let prev_idx := main_bin_index - idx_offset in
      let next_idx := main_bin_index + idx_offset in
      prev_pred <- (if prev_idx >=? 0 then average_at bins prev_idx else Ret None) ;;
      match prev_pred with
      | Some v => Ret (Some v)
      | None =>
          next_pred <- (if next_idx <? Z.of_nat (length bins)
                        then average_at bins next_idx else Ret None) ;;
          match next_pred with
          | Some v => Ret (Some v)
          | None => search_neighbours bins main_bin_index rest
          end
      end
  end.

(** The prediction of the main bin, or of the nearest bin with data. *)
Definition main_prediction (bins : list AdaptiveBin.t) (main_bin : AdaptiveBin.t)
    (main_bin_index : Z) : exc (option float) :=
  p <- AdaptiveBin.get_weighted_average main_bin ;;
  match p with
  | Some v => Ret (Some v)
  | None => search_neighbours bins main_bin_index
              (range_from 1 (Z.of_nat (length bins)))
  end.

Definition interpolation_threshold : float := 0.2.

(** Lines 457-485: the prediction blended with a neighbour's near a bound. *)
Definition interpolate (bins : list AdaptiveBin.t) (main_bin : AdaptiveBin.t)
    (main_bin_index : Z) (current_ambient adjusted_prediction time_factor
     activity_factor : float) : exc float :=
  bin_range <- float_of_int (AdaptiveBin.max_value main_bin - AdaptiveBin.min_value main_bin) ;;
  position_in_bin <-
    (if PrimFloat.ltb 0 bin_range then
       fmin <- float_of_int (AdaptiveBin.min_value main_bin) ;;
       float_div (PrimFloat.sub current_ambient fmin) bin_range
     else Ret 0.5%float) ;;
  '(neighbor_prediction, interpolation_weight) <-
    (if PrimFloat.ltb position_in_bin interpolation_threshold && (main_bin_index >? 0) then
       neighbor_prediction <- average_at bins (main_bin_index - 1) ;;
       match neighbor_prediction with
       | Some np =>
           w <- float_div (PrimFloat.sub interpolation_threshold position_in_bin)
                  interpolation_threshold ;;
           Ret (Some (PrimFloat.mul np (PrimFloat.mul time_factor activity_factor)), w)
       | None => Ret (None, 0.0%float)
       end
     else if PrimFloat.ltb (PrimFloat.sub 1.0 interpolation_threshold) position_in_bin
             && (main_bin_index <? Z.of_nat (length bins) - 1) then
       neighbor_prediction <- average_at bins (main_bin_index + 1) ;;
       match neighbor_prediction with
       | Some np =>
           w <- float_div (PrimFloat.sub position_in_bin
                             (PrimFloat.sub 1.0 interpolation_threshold))
                  interpolation_threshold ;;
           Ret (Some (PrimFloat.mul np (PrimFloat.mul time_factor activity_factor)), w)
       | None => Ret (None, 0.0%float)
       end
     else Ret (None, 0.0%float)) ;;
  match neighbor_prediction with
  | Some np =>
      if PrimFloat.ltb 0 interpolation_weight && PrimFloat.leb interpolation_weight 1.0
      then Ret (PrimFloat.add
                  (PrimFloat.mul adjusted_prediction (PrimFloat.sub 1.0 interpolation_weight))
                  (PrimFloat.mul np interpolation_weight))
      else Ret adjusted_prediction
  | None => Ret adjusted_prediction
  end.

(** Lines 487-499: the sliding mean over the window, clamped. *)
Definition smooth (window : list float) : exc float :=
  n <- float_of_int (Z.of_nat (length window)) ;;
  smoothed_prediction <- float_div (fsum window) n ;;
  Ret (py_max 0.0 (py_min 100.0 smoothed_prediction)).

Definition predict {P : Platform} (m : t) (ambient_light timestamp : Z) (is_active : bool)
    : exc (option float * t) :=
  current_ambient <- float_of_int ambient_light ;;
  match find_main_bin (ambient_bins m) 0 current_ambient with
  | None => Ret (None, m)
  | Some (main_bin_index, main_bin) =>
      let main_bin_index := Z.of_nat main_bin_index in
      mp <- main_prediction (ambient_bins m) main_bin main_bin_index ;;
      match mp with
      | None => Ret (None, m)
      | Some main_prediction =>
          time_features <- TimeFeatures.from_timestamp timestamp ;;
          let time_factor := if TimeFeatures.is_day time_features then 1.0%float else 0.8%float in
          let activity_factor := if is_active then 1.0%float else 0.9%float in
          let adjusted_prediction :=
            PrimFloat.mul (PrimFloat.mul main_prediction time_factor) activity_factor in
          adjusted_prediction <-
            interpolate (ambient_bins m) main_bin main_bin_index current_ambient
              adjusted_prediction time_factor activity_factor ;;
          let window := deque_append (last_predictions m) adjusted_prediction in
          final_prediction <- smooth window ;;
          Ret (Some final_prediction,
               mk (ambient_bins m) (time_weight m) (recency_weight m) (activity_weight m)
                  window (max_age_seconds m))
      end
  end.

Definition cleanup (m : t) (current_timestamp : Z) : t :=
  set_bins m
    (map (fun bin_ => AdaptiveBin.cleanup bin_ current_timestamp (max_age_seconds m))
         (ambient_bins m)).

(** The training loop of [load_historical_data]. *)
Fixpoint train_all {P : Platform} (m : t) (sorted_data : list DataPoint) : exc t :=
  match sorted_data with
  | [] => Ret m
  | point :: rest =>
      m' <- train m point (timestamp point) true ;;
      train_all m' rest
  end.

Definition load_historical_data {P : Platform} (m : t) (data_points : list DataPoint)
    (current_timestamp : Z) (is_active : bool) : exc t :=
  let m1 := adapt_bins m data_points in
  let sorted_data := sorted_by timestamp data_points in
  train_all m1 sorted_data.

End EnhancedBrightnessModel.

(** ** _nonlinear_map

    The sigmoid of the ambient value, a method of the model that reads no
    attribute.  [math.exp] belongs to the C library: it is a parameter
    here, and may raise. *)

Section NonlinearMap.
Variable math_exp : float -> exc float.

(** [max(-700, min(700, -float(ambient) / 300.0))]; where [min] or [max]
    returns the integer bound, [math.exp] converts it, exactly. *)
Definition scaled_ambient (ambient : Z) : exc float :=
  f <- float_of_int ambient ;;
  Ret (py_max (-700)%float (py_min 700%float (PrimFloat.div (PrimFloat.opp f) 300%float))).

Definition _nonlinear_map (ambient : Z) : exc float :=
  match (scaled_ambient_ <- scaled_ambient ambient ;;
         e <- math_exp scaled_ambient_ ;;
         float_div 1%float (PrimFloat.add 1%float e)) with
  | Raise OverflowError => Ret (if ambient <? 0 then 0%float else 1%float)
  | r => r
  end.

End NonlinearMap.

(** ** The messages

    [adapt_bins] and [train] report what they skip with [print].  A
    message changes no attribute, and the functions of
    [EnhancedBrightnessModel] above are the methods without their messages.
    A message can raise all the same: formatting an integer of more than
    4300 decimal digits raises [ValueError] (CPython 3.11 and later, at the
    default [sys.get_int_max_str_digits()]), and neither method catches it.
    [WithMessages] holds the two methods with the messages that format the
    integers of an observation or of a bin, and [load_historical_data],
    which calls both.  The other messages cannot raise it: they format
    text only (lines 297, 332, 511, 524), list lengths and indices only
    (lines 310, 508, 523; a list is shorter than [2^63], and so is the bin
    index of line 327), or an integer that [float] accepted (line 420, in
    [predict]). *)

Definition int_max_str_digits : Z := 4300.

(** [str(z)], [repr(z)] and [f"{z}"] for an integer, as to what they raise. *)
Definition str_int (z : Z) : exc unit :=
  if Z.abs z <? 10 ^ int_max_str_digits then Ret tt else Raise ValueError.

(** [f"{data_point}"]: the representation of the dataclass formats the
    fields in their order; the flag always formats. *)
Definition str_DataPoint (data_point : DataPoint) : exc unit :=
  u1 <- str_int (timestamp data_point) ;;
  u2 <- str_int (ambient_light data_point) ;;
  str_int (screen_brightness data_point).

Module WithMessages.
Import EnhancedBrightnessModel.

(** Lines 326-327: the last test of a round on a bin that was extended, with
    its warning. *)
Definition warn_degenerate (bin_ : AdaptiveBin.t) : exc (AdaptiveBin.t * bool) :=
  if AdaptiveBin.min_value bin_ >=? AdaptiveBin.max_value bin_ then
    u1 <- str_int (AdaptiveBin.min_value bin_) ;;
    u2 <- str_int (AdaptiveBin.max_value bin_) ;;
    Ret (bin_, true)
  else Ret (bin_, true).

(** One round of the loop of [adapt_bins]; the flag is [false] for the
    [IndexError] that the [try] catches, and [Raise] is what it does not
    catch. *)
Definition adapt_one (ambient_list : list Z) (bin_count i : Z) (bin_ : AdaptiveBin.t)
    : exc (AdaptiveBin.t * bool) :=
  let len := Z.of_nat (length ambient_list) in
  let start_idx := (i * len) / bin_count in
  let end_idx := Z.min (((i + 1) * len) / bin_count - 1) (len - 1) in
  if (start_idx >=? len) || (end_idx <? 0) || (start_idx >? end_idx) then Ret (bin_, true)
  else
    match py_index ambient_list start_idx with
    | None => Ret (bin_, false)
    | Some new_min =>
        let b1 := set_min_value bin_ new_min in
        match (if i =? bin_count - 1 then py_index ambient_list (-1)
               else py_index ambient_list end_idx) with
        | None => Ret (b1, false)
        | Some new_max =>
            let b2 := set_max_value b1 new_max in
            if (AdaptiveBin.min_value b2 >=? AdaptiveBin.max_value b2)
               && (i <? bin_count - 1) then
              if end_idx + 1 <? len then
                match py_index ambient_list (end_idx + 1) with
                | None => Ret (b2, false)
                | Some new_max' => warn_degenerate (set_max_value b2 new_max')
                end
              else warn_degenerate b2
            else Ret (b2, true)
        end
    end.

Fixpoint adapt_loop (ambient_list : list Z) (bin_count i : Z) (bins : list AdaptiveBin.t)
    : exc (list AdaptiveBin.t) :=
  match bins with
  | [] => Ret []
  | bin_ :: rest =>
      r <- adapt_one ambient_list bin_count i bin_ ;;
      if snd r then
        rest' <- adapt_loop ambient_list bin_count (i + 1) rest ;;
        Ret (fst r :: rest')
      else Ret (fst r :: rest)
  end.

Definition adapt_bins (m : t) (historical_data : list DataPoint) : exc t :=
  if Z.of_nat (length historical_data) <? Z.of_nat (length (ambient_bins m)) * 2 then Ret m
  else
    let ambient_list := sorted_by (fun a => a) (map ambient_light historical_data) in
    let bin_count := Z.of_nat (length (ambient_bins m)) in
    bins <- adapt_loop ambient_list bin_count 0 (ambient_bins m) ;;
    Ret (set_bins m bins).

Definition train {P : Platform} (m : t) (data_point : DataPoint)
    (current_timestamp : Z) (is_active : bool) : exc t :=
  if negb (is_manual_adjustment data_point) then Ret m
  else
    let last_point := _find_last_point_in_bins m in
    if _is_outlier data_point last_point then
      u <- str_DataPoint data_point ;;
      Ret m
    else
      weight_ <- train_weight m data_point current_timestamp is_active ;;
      match find_target_bin (ambient_bins m) 0 (ambient_light data_point) with
      | Some i =>
          Ret (set_bins m
                 (update_at (ambient_bins m) i
                    (fun target_bin =>
                       AdaptiveBin.update target_bin (screen_brightness data_point)
                         weight_ (timestamp data_point))))
      | None =>
          u <- str_int (ambient_light data_point) ;;
          Ret m
      end.

Fixpoint train_all {P : Platform} (m : t) (sorted_data : list DataPoint) : exc t :=
  match sorted_data with
  | [] => Ret m
  | point :: rest =>
      m' <- train m point (timestamp point) true ;;
      train_all m' rest
  end.

Definition load_historical_data {P : Platform} (m : t) (data_points : list DataPoint)
    (current_timestamp : Z) (is_active : bool) : exc t :=
  m1 <- adapt_bins m data_points ;;
  let sorted_data := sorted_by timestamp data_points in
  train_all m1 sorted_data.

End WithMessages.

(** ** Notions the properties are stated with *)

(** The sum of the weights of the samples a bin holds, accumulated in the
    order of the samples, as [cleanup] accumulates it. *)
Definition weight_sum (pts : list WeightedDataPoint) : float :=
  fsum (map weight pts).

Definition is_nan (x : float) : bool := negb (PrimFloat.eqb x x).

(** The list without its element at index [i]. *)
Definition remove_at {A : Type} (xs : list A) (i : nat) : list A :=
  firstn i xs ++ skipn (S i) xs.

(** A bin that never exceeded its capacity. *)
Definition within_capacity (b : AdaptiveBin.t) : Prop :=
  Z.of_nat (length (AdaptiveBin.points b)) <= AdaptiveBin.max_points b.

(** A bin after a run of updates, each [(brightness, weight, timestamp)]. *)
Definition updates (b : AdaptiveBin.t) (us : list (Z * float * Z)) : AdaptiveBin.t :=
  fold_left (fun b u => AdaptiveBin.update b (fst (fst u)) (snd (fst u)) (snd u)) us b.

(** The samples [cleanup] keeps. *)
Definition fresh_enough (current_timestamp max_age_seconds : Z) (p : WeightedDataPoint) : bool :=
  negb (current_timestamp - point_timestamp p >? max_age_seconds).

(** A bin of capacity one, for short concrete runs of the eviction. *)
Definition tiny_bin : AdaptiveBin.t := AdaptiveBin.mk 0 50 [] 0%float 1.

(** What the scan knows after the samples [pre] of the whole list [all]:
    nothing seen is lighter than the candidate, and nothing before the
    candidate weighs the same. *)
Definition scan_inv (all pre : list WeightedDataPoint) (m : float) (idx : nat) : Prop :=
  (exists e, nth_error all idx = Some e /\ weight e = m) /\
  (forall p, In p pre -> PrimFloat.ltb (weight p) m = false) /\
  (forall j p, (j < idx)%nat -> nth_error all j = Some p ->
               PrimFloat.eqb (weight p) m = false).

(** An integer that [float_of_int] converts. *)
Definition fits_float (z : Z) : Prop := Z.abs z < float_max_int.

(** A bin whose integers all convert: its lower bound, its width and the
    brightness of each sample. *)
Definition bin_fits (b : AdaptiveBin.t) : Prop :=
  fits_float (AdaptiveBin.min_value b) /\
  fits_float (AdaptiveBin.max_value b - AdaptiveBin.min_value b) /\
  Forall (fun p => fits_float (brightness p)) (AdaptiveBin.points b).

(** The result of [predict]: absent, or a value from 0 to 100. *)
Definition in_range_or_absent (r : option float) : Prop :=
  match r with
  | None => True
  | Some v => PrimFloat.leb 0 v = true /\ PrimFloat.leb v 100 = true
  end.

(** *** Concrete models *)

(** The model of [EnhancedBrightnessModel(0, 100, 2, 0.3, 0.4, 0.3)]. *)
Definition demo_model : EnhancedBrightnessModel.t :=
  EnhancedBrightnessModel.mk
    [AdaptiveBin.mk 0 50 [] 0%float 50; AdaptiveBin.mk 50 100 [] 0%float 50]
    0.3 0.4 0.3 [] 604800.

(** A manual adjustment at noon (UTC) of the first day: ambient 10, brightness 20. *)
Definition noon : Z := 43200.
Definition demo_point : DataPoint := mkDataPoint noon 10 20 true.

(** [demo_model] after [train(demo_point, noon, True)]. *)
Definition trained_model : EnhancedBrightnessModel.t :=
  EnhancedBrightnessModel.mk
    [AdaptiveBin.mk 0 50 [mkWeightedDataPoint 20 1 noon] 1%float 50;
     AdaptiveBin.mk 50 100 [] 0%float 50]
    0.3 0.4 0.3 [] 604800.

(** A second manual adjustment at the same ambient value, brightness 80. *)
Definition second_point : DataPoint := mkDataPoint noon 10 80 true.

(** [trained_model] after one [predict(10, noon, True)] and then
    [train(second_point, noon, True)]: the window holds 20, the first bin
    now averages 50. *)
Definition warmed_model : EnhancedBrightnessModel.t :=
  EnhancedBrightnessModel.mk
    [AdaptiveBin.mk 0 50 [mkWeightedDataPoint 20 1 noon; mkWeightedDataPoint 80 1 noon]
       2%float 50;
     AdaptiveBin.mk 50 100 [] 0%float 50]
    0.3 0.4 0.3 [20%float] 604800.

(** A model with another window. *)
Definition with_window (m : EnhancedBrightnessModel.t) (window : list float)
    : EnhancedBrightnessModel.t :=
  EnhancedBrightnessModel.mk (EnhancedBrightnessModel.ambient_bins m)
    (EnhancedBrightnessModel.time_weight m) (EnhancedBrightnessModel.recency_weight m)
    (EnhancedBrightnessModel.activity_weight m) window
    (EnhancedBrightnessModel.max_age_seconds m).

(** The bins run from [lo] to [hi] without gap: each begins where the one
    before ends, none ends before it begins, the first begins at [lo] and
    the last ends at [hi]. *)
Fixpoint chained (lo hi : Z) (bins : list AdaptiveBin.t) : Prop :=
  match bins with
  | [] => False
  | b :: rest =>
      AdaptiveBin.min_value b = lo /\
      lo <= AdaptiveBin.max_value b /\
      match rest with
      | [] => AdaptiveBin.max_value b = hi
      | _ :: _ => chained (AdaptiveBin.max_value b) hi rest
      end
  end.

(** [float(x)] is exact: it does not raise and its value is [x], as for
    every [x] of magnitude below [2^53]. *)
Definition converts_exactly (x : Z) : bool :=
  match float_of_int x with
  | Ret f => match Zcompare_float x f with Some Eq => true | _ => false end
  | Raise _ => false
  end.


(** Ascending order of the keys. *)
Definition key_le {A : Type} (key : A -> Z) (a b : A) : Prop := key a <= key b.

(** The bins are in ascending order and do not overlap: none ends before
    it begins, and each ends no later than the next begins. *)
Fixpoint ascending (bins : list AdaptiveBin.t) : Prop :=
  match bins with
  | [] => True
  | b :: rest =>
      AdaptiveBin.min_value b <= AdaptiveBin.max_value b /\
      match rest with
      | [] => True
      | b' :: _ => AdaptiveBin.max_value b <= AdaptiveBin.min_value b'
      end /\
      ascending rest
  end.

(** Bin [i] holds the ambient value [x]: its range is [min <= x < max],
    and [min <= x <= max] for the last bin. *)
Definition covers (bins : list AdaptiveBin.t) (i : nat) (x : Z) : Prop :=
  exists b,
    nth_error bins i = Some b /\
    AdaptiveBin.min_value b <= x /\
    (x < AdaptiveBin.max_value b \/
     (S i = length bins /\ x = AdaptiveBin.max_value b)).

(** The bins partition the interval from [lo] to [hi]. *)
Definition partitions (lo hi : Z) (bins : list AdaptiveBin.t) : Prop :=
  chained lo hi bins /\
  ascending bins /\
  (forall x, lo <= x <= hi <-> exists i, covers bins i x) /\
  (forall x i j, covers bins i x -> covers bins j x -> i = j).

(** The index at which bin [i] of [n] starts among [len] sorted values. *)
Definition quantile_index (len n i : Z) : Z := (i * len) / n.

(** Four observations with ambient values 40, 10, 30, 20. *)
Definition four_points : list DataPoint :=
  [mkDataPoint 1 40 50 true; mkDataPoint 2 10 50 true;
   mkDataPoint 3 30 50 true; mkDataPoint 4 20 50 true].

(** *** The historical load, as the specification words it *)

Section HistoricalSpec.
Import EnhancedBrightnessModel.
Context {P : Platform}.

(** The weight of an observation trained at its own time by an active
    user: the three coefficients, each at its full value. *)
Definition saturated_weight (m : t) : float :=
  PrimFloat.add (PrimFloat.add (time_weight m) (recency_weight m)) (activity_weight m).

(** One step of the historical load as the specification words it: a
    manual, non-outlier observation is stored in its bin with the saturated
    weight; the platform is still asked for the hour of its timestamp. *)
Definition historical_step (w : float) (m : t) (point : DataPoint) : exc t :=
  if negb (is_manual_adjustment point) then Ret m
  else if _is_outlier point (_find_last_point_in_bins m) then Ret m
  else
    _ <- localtime_tm_hour (timestamp point) ;;
    match find_target_bin (ambient_bins m) 0 (ambient_light point) with
    | Some i =>
        Ret (set_bins m
               (update_at (ambient_bins m) i
                  (fun target_bin =>
                     AdaptiveBin.update target_bin (screen_brightness point) w
                       (timestamp point))))
    | None => Ret m
    end.

Fixpoint historical_steps (w : float) (m : t) (points : list DataPoint) : exc t :=
  match points with
  | [] => Ret m
  | point :: rest =>
      m' <- historical_step w m point ;;
      historical_steps w m' rest
  end.

(** What the steps never touch. *)
Definition same_parameters (m m' : t) : Prop :=
  time_weight m' = time_weight m /\
  recency_weight m' = recency_weight m /\
  activity_weight m' = activity_weight m /\
  max_age_seconds m' = max_age_seconds m /\
  last_predictions m' = last_predictions m.

End HistoricalSpec.

(** *** Notions of the further properties *)

(** The bin the constructor builds at index [i] of [bin_count]. *)
Definition constructed_bin (min_ambient max_ambient bin_count i : Z) : AdaptiveBin.t :=
  let bin_size := (max_ambient - min_ambient) / bin_count in
  AdaptiveBin.mk (min_ambient + i * bin_size)
    (if i =? bin_count - 1 then max_ambient else min_ambient + (i + 1) * bin_size)
    [] 0%float 50.

(** The width of a bin. *)
Definition bin_width (b : AdaptiveBin.t) : Z :=
  AdaptiveBin.max_value b - AdaptiveBin.min_value b.

(** What a rebinning may do to a bin, given the ambient values of the
    history: the samples, the total weight and the capacity stay, and each
    bound either stays or becomes one of the ambient values. *)
Definition rebinned (ambient_values : list Z) (b b' : AdaptiveBin.t) : Prop :=
  AdaptiveBin.points b' = AdaptiveBin.points b /\
  AdaptiveBin.total_weight b' = AdaptiveBin.total_weight b /\
  AdaptiveBin.max_points b' = AdaptiveBin.max_points b /\
  (AdaptiveBin.min_value b' = AdaptiveBin.min_value b \/
   In (AdaptiveBin.min_value b') ambient_values) /\
  (AdaptiveBin.max_value b' = AdaptiveBin.max_value b \/
   In (AdaptiveBin.max_value b') ambient_values).

(** A model whose bins are all within their capacity and whose smoothing
    window holds at most three predictions. *)
Definition bounded_model (m : EnhancedBrightnessModel.t) : Prop :=
  Forall within_capacity (EnhancedBrightnessModel.ambient_bins m) /\
  (length (EnhancedBrightnessModel.last_predictions m) <= 3)%nat.

(** The bounds of the bins of a model, in order. *)
Definition bounds (m : EnhancedBrightnessModel.t) : list (Z * Z) :=
  map (fun b => (AdaptiveBin.min_value b, AdaptiveBin.max_value b))
      (EnhancedBrightnessModel.ambient_bins m).

(** [four_points] in another order. *)
Definition four_points_shuffled : list DataPoint :=
  [mkDataPoint 2 10 50 true; mkDataPoint 1 40 50 true;
   mkDataPoint 3 30 50 true; mkDataPoint 4 20 50 true].

(** A bin that can give no average: it is empty or its total weight is zero. *)
Definition no_average (b : AdaptiveBin.t) : Prop :=
  AdaptiveBin.points b = [] \/ PrimFloat.eqb (AdaptiveBin.total_weight b) 0 = true.

(** At distance [d] below (above) bin [main_bin_index] there is no bin,
    or a bin that gives no average. *)
Definition lower_silent (bins : list AdaptiveBin.t) (main_bin_index d : Z) : Prop :=
  main_bin_index - d < 0 \/
  EnhancedBrightnessModel.average_at bins (main_bin_index - d) = Ret None.

Definition upper_silent (bins : list AdaptiveBin.t) (main_bin_index d : Z) : Prop :=
  Z.of_nat (length bins) <= main_bin_index + d \/
  EnhancedBrightnessModel.average_at bins (main_bin_index + d) = Ret None.

(** Every stored sample is older than the maximum age at time [now]. *)
Definition all_stale (m : EnhancedBrightnessModel.t) (now : Z) : Prop :=
  forall b s,
    In b (EnhancedBrightnessModel.ambient_bins m) -> In s (AdaptiveBin.points b) ->
    now - point_timestamp s > EnhancedBrightnessModel.max_age_seconds m.

(** A manual adjustment whose brightness is 81 above that of [demo_point]. *)
Definition jump_point : DataPoint := mkDataPoint (noon + 60) 10 101 true.



(** An integer that formats: it has at most [int_max_str_digits] digits. *)
Definition printable (z : Z) : Prop := Z.abs z < 10 ^ int_max_str_digits.

(** The least integer that does not format. *)
Definition huge : Z := 10 ^ int_max_str_digits.

(** Four automatic observations of the same ambient value [a]: on two bins
    the first bin comes out of [adapt_bins] with an empty range. *)
Definition degenerate_history (a : Z) : list DataPoint :=
  [mkDataPoint 1 a 50 false; mkDataPoint 2 a 50 false;
   mkDataPoint 3 a 50 false; mkDataPoint 4 a 50 false].

(** * Properties *)

(** ** Order of binary64 values *)

Ltac cmp_cases :=
  repeat match goal with
  | |- context [Z.compare ?x ?y] => destruct (Z.compare_spec x y)
  | |- context [Pos.compare ?x ?y] => destruct (Pos.compare_spec x y)
  end.

Ltac sf_order :=
  unfold SFltb, SFleb, SFeqb, SFcompare;
  repeat match goal with s : bool |- _ => destruct s end;
  change (Pos.compare_cont Eq) with Pos.compare;
  cmp_cases; simpl; intros; subst;
  try discriminate; try reflexivity; try lia.

Lemma SFltb_irrefl a : SFltb a a = false.
Proof. destruct a; sf_order. Qed.

Lemma SFltb_trans a b c : SFltb a b = true -> SFltb b c = true -> SFltb a c = true.
Proof. destruct a, b, c; sf_order. Qed.

Lemma SFeqb_ltb a b c : SFeqb a b = true -> SFltb b c = true -> SFltb a c = true.
Proof. destruct a, b, c; sf_order. Qed.

Lemma SFltb_leb a b : SFltb a b = true -> SFleb a b = true.
Proof. destruct a, b; sf_order. Qed.

Lemma SFltb_neq a b : SFltb a b = true -> SFeqb b a = false.
Proof. destruct a, b; sf_order. Qed.

Lemma SFnltb_leb a b :
  SFeqb a a = true -> SFeqb b b = true -> SFltb a b = false -> SFleb b a = true.
Proof. destruct a, b; sf_order. Qed.

Lemma ltb_irrefl (a : float) : PrimFloat.ltb a a = false.
Proof. rewrite ltb_spec. apply SFltb_irrefl. Qed.

Lemma ltb_trans (a b c : float) :
  PrimFloat.ltb a b = true -> PrimFloat.ltb b c = true -> PrimFloat.ltb a c = true.
Proof. rewrite !ltb_spec. apply SFltb_trans. Qed.

Lemma eqb_ltb (a b c : float) :
  PrimFloat.eqb a b = true -> PrimFloat.ltb b c = true -> PrimFloat.ltb a c = true.
Proof. rewrite eqb_spec, !ltb_spec. apply SFeqb_ltb. Qed.

Lemma ltb_leb (a b : float) : PrimFloat.ltb a b = true -> PrimFloat.leb a b = true.
Proof. rewrite ltb_spec, leb_spec. apply SFltb_leb. Qed.

Lemma ltb_neq (a b : float) : PrimFloat.ltb a b = true -> PrimFloat.eqb b a = false.
Proof. rewrite ltb_spec, eqb_spec. apply SFltb_neq. Qed.

Lemma nltb_leb (a b : float) :
  is_nan a = false -> is_nan b = false ->
  PrimFloat.ltb a b = false -> PrimFloat.leb b a = true.
Proof.
  unfold is_nan. rewrite !negb_false_iff, !eqb_spec, ltb_spec, leb_spec.
  apply SFnltb_leb.
Qed.

(** ** AdaptiveBin.update *)

Section Scan.
Import AdaptiveBin.

Lemma scan_min_weight_spec (l : list WeightedDataPoint) :
  forall all pre m idx,
    all = pre ++ l ->
    (idx <= length pre)%nat ->
    scan_inv all pre m idx ->
    exists e,
      nth_error all (scan_min_weight l (length pre) m idx) = Some e /\
      (forall p, In p all -> PrimFloat.ltb (weight p) (weight e) = false) /\
      (forall j p, (j < scan_min_weight l (length pre) m idx)%nat ->
                   nth_error all j = Some p ->
                   PrimFloat.eqb (weight p) (weight e) = false).
Proof.
  induction l as [|point rest IH]; intros all pre m idx Hall Hidx (He & Hlt & Heq).
  - simpl. destruct He as (e & He & Hw). exists e. subst m.
    rewrite app_nil_r in Hall. subst all. auto.
  - simpl.
    assert (Hall' : all = (pre ++ [point]) ++ rest) by (rewrite <- app_assoc; exact Hall).
    assert (Hlen : length (pre ++ [point]) = S (length pre))
      by (rewrite length_app; simpl; lia).
    destruct (PrimFloat.ltb (weight point) m) eqn:Hcmp.
    + specialize (IH all (pre ++ [point]) (weight point) (length pre) Hall').
      rewrite Hlen in IH. apply IH; [lia|]. repeat split.
      * exists point. split; [|reflexivity].
        subst all. rewrite nth_error_app2 by lia. now rewrite Nat.sub_diag.
      * intros p Hp. apply in_app_or in Hp. destruct Hp as [Hp|[<-|[]]].
        -- destruct (PrimFloat.ltb (weight p) (weight point)) eqn:E; [|reflexivity].
           rewrite <- (Hlt p Hp). symmetry. eapply ltb_trans; eassumption.
        -- apply ltb_irrefl.
      * intros j p Hj Hnth.
        destruct (PrimFloat.eqb (weight p) (weight point)) eqn:E; [|reflexivity].
        assert (Hp : In p pre).
        { subst all. rewrite nth_error_app1 in Hnth by lia.
          eapply nth_error_In; eassumption. }
        rewrite <- (Hlt p Hp). symmetry. eapply eqb_ltb; eassumption.
    + specialize (IH all (pre ++ [point]) m idx Hall').
      rewrite Hlen in IH. apply IH; [lia|]. repeat split; auto.
      intros p Hp. apply in_app_or in Hp. destruct Hp as [Hp|[<-|[]]]; auto.
Qed.

Lemma min_weight_index_spec (pts : list WeightedDataPoint) :
  pts <> [] ->
  exists e,
    nth_error pts (min_weight_index pts) = Some e /\
    (forall p, In p pts -> PrimFloat.ltb (weight p) (weight e) = false) /\
    (forall j p, (j < min_weight_index pts)%nat -> nth_error pts j = Some p ->
                 PrimFloat.eqb (weight p) (weight e) = false).
Proof.
  destruct pts as [|p0 rest]; [congruence|intros _].
  unfold min_weight_index.
  apply (scan_min_weight_spec (p0 :: rest) (p0 :: rest) [] (weight p0) 0%nat);
    [reflexivity|simpl; lia|].
  repeat split.
  - exists p0. auto.
  - intros p [].
  - intros j p Hj. lia.
Qed.

Lemma length_remove_at {A : Type} (xs : list A) (i : nat) (x : A) :
  nth_error xs i = Some x -> S (length (remove_at xs i)) = length xs.
Proof.
  intros H. assert (Hi : (i < length xs)%nat) by (apply nth_error_Some; congruence).
  unfold remove_at. rewrite length_app, length_firstn, length_skipn. lia.
Qed.

End Scan.

Section Update.
Import AdaptiveBin.

Lemma update_no_eviction (b : t) (br : Z) (w : float) (ts : Z) :
  Z.of_nat (length (points b ++ [mkWeightedDataPoint br w ts])) <= max_points b ->
  update b br w ts =
  mk (min_value b) (max_value b) (points b ++ [mkWeightedDataPoint br w ts])
     (PrimFloat.add (total_weight b) w) (max_points b).
Proof.
  intros H. unfold update.
  destruct (Z.gtb_spec (Z.of_nat (length (points b ++ [mkWeightedDataPoint br w ts])))
              (max_points b)); [lia|reflexivity].
Qed.

Lemma update_eviction (b : t) (br : Z) (w : float) (ts : Z) :
  Z.of_nat (length (points b ++ [mkWeightedDataPoint br w ts])) > max_points b ->
  exists removed,
    nth_error (points b ++ [mkWeightedDataPoint br w ts])
      (min_weight_index (points b ++ [mkWeightedDataPoint br w ts])) = Some removed /\
    update b br w ts =
    mk (min_value b) (max_value b)
       (remove_at (points b ++ [mkWeightedDataPoint br w ts])
          (min_weight_index (points b ++ [mkWeightedDataPoint br w ts])))
       (PrimFloat.sub (PrimFloat.add (total_weight b) w) (weight removed)) (max_points b).
Proof.
  intros H. unfold update.
  destruct (Z.gtb_spec (Z.of_nat (length (points b ++ [mkWeightedDataPoint br w ts])))
              (max_points b)); [|lia].
  destruct (min_weight_index_spec (points b ++ [mkWeightedDataPoint br w ts]))
    as (e & He & _).
  { destruct (points b); discriminate. }
  exists e. split; [exact He|]. unfold pop. rewrite He. reflexivity.
Qed.

Lemma update_cases (b : t) (br : Z) (w : float) (ts : Z) :
  (Z.of_nat (length (points b ++ [mkWeightedDataPoint br w ts])) <= max_points b /\
   update b br w ts =
   mk (min_value b) (max_value b) (points b ++ [mkWeightedDataPoint br w ts])
      (PrimFloat.add (total_weight b) w) (max_points b)) \/
  (Z.of_nat (length (points b ++ [mkWeightedDataPoint br w ts])) > max_points b /\
   exists removed,
     nth_error (points b ++ [mkWeightedDataPoint br w ts])
       (min_weight_index (points b ++ [mkWeightedDataPoint br w ts])) = Some removed /\
     update b br w ts =
     mk (min_value b) (max_value b)
        (remove_at (points b ++ [mkWeightedDataPoint br w ts])
           (min_weight_index (points b ++ [mkWeightedDataPoint br w ts])))
        (PrimFloat.sub (PrimFloat.add (total_weight b) w) (weight removed)) (max_points b)).
Proof.
  destruct (Z_le_gt_dec (Z.of_nat (length (points b ++ [mkWeightedDataPoint br w ts])))
              (max_points b)) as [Hle|Hgt].
  - left. split; [exact Hle|]. now apply update_no_eviction.
  - right. split; [exact Hgt|]. now apply update_eviction.
Qed.

Lemma update_within_capacity (b : t) (br : Z) (w : float) (ts : Z) :
  within_capacity b -> within_capacity (update b br w ts).
Proof.
  unfold within_capacity. intros Hcap.
  destruct (update_cases b br w ts) as [(Hle & ->)|(Hgt & removed & Hnth & ->)]; simpl.
  - exact Hle.
  - pose proof (length_remove_at _ _ _ Hnth) as Hlen.
    rewrite length_app in Hlen. simpl in Hlen. lia.
Qed.

Lemma updates_within_capacity (us : list (Z * float * Z)) :
  forall b, within_capacity b -> within_capacity (updates b us).
Proof.
  induction us as [|u us IH]; intros b Hb; simpl; [exact Hb|].
  apply IH, update_within_capacity, Hb.
Qed.

(** C4. A bin filled by updates alone never holds more samples than its
    capacity, and an update keeps within capacity a bin that was.  When the
    update evicts, the evicted sample is one of the samples present at that
    instant (the new one included), no sample present is lighter (so, NaN
    weights apart, its weight is at most every weight present), no earlier
    sample has an equal weight, and [total_weight] is the accumulated total
    less exactly the evicted weight. *)
Theorem update_capacity_and_eviction (b : t) (br : Z) (w : float) (ts : Z) :
  let present := points b ++ [mkWeightedDataPoint br w ts] in
  let b' := update b br w ts in
  (forall lo hi us, within_capacity (updates (AdaptiveBin.init lo hi) us)) /\
  (within_capacity b -> within_capacity b') /\
  max_points b' = max_points b /\
  (Z.of_nat (length present) > max_points b ->
   exists i removed,
     nth_error present i = Some removed /\
     points b' = remove_at present i /\
     (forall p, In p present -> PrimFloat.ltb (weight p) (weight removed) = false) /\
     ((forall p, In p present -> is_nan (weight p) = false) ->
      forall p, In p present -> PrimFloat.leb (weight removed) (weight p) = true) /\
     (forall j p, (j < i)%nat -> nth_error present j = Some p ->
                  PrimFloat.eqb (weight p) (weight removed) = false) /\
     total_weight b' = PrimFloat.sub (PrimFloat.add (total_weight b) w) (weight removed)).
Proof.
  intros present b'. subst b'.
  split; [intros lo hi us; apply updates_within_capacity; unfold within_capacity; simpl; lia|].
  split; [apply (update_within_capacity b br w ts)|].
  destruct (update_cases b br w ts) as [(Hle & E)|(Hgt & removed & Hnth & E)];
    rewrite E; clear E.
  - split; [reflexivity|]. subst present. intros; lia.
  - fold present in Hnth |- *.
    destruct (min_weight_index_spec present) as (e & He & Hmin & Hfirst).
    { subst present. destruct (points b); discriminate. }
    assert (e = removed) by congruence. subst e.
    split; [reflexivity|]. intros _.
    exists (min_weight_index present), removed.
    repeat split; auto.
    intros Hnan p Hp. apply nltb_leb; auto.
    apply Hnan. eapply nth_error_In; eassumption.
Qed.

(** A run of the eviction: a bin of capacity one that holds a sample of
    weight 2 receives one of weight 1 and evicts the new sample. *)
Lemma update_capacity_and_eviction_witness :
  exists i removed,
    nth_error [mkWeightedDataPoint 10 2 0; mkWeightedDataPoint 20 1 1] i = Some removed /\
    points (update (update tiny_bin 10 2 0) 20 1 1) =
      remove_at [mkWeightedDataPoint 10 2 0; mkWeightedDataPoint 20 1 1] i /\
    weight removed = 1%float /\ within_capacity (update (update tiny_bin 10 2 0) 20 1 1).
Proof.
  destruct (update_capacity_and_eviction (update tiny_bin 10 2 0) 20 1 1)
    as (_ & Hcap & _ & Hev).
  destruct Hev as (i & removed & Hnth & Hpts & _ & _ & _ & _).
  { vm_compute. reflexivity. }
  exists i, removed. split; [exact Hnth|]. split; [exact Hpts|]. split.
  - destruct i as [|[|i]]; simpl in Hnth.
    + exfalso. injection Hnth as <-. vm_compute in Hpts. discriminate.
    + injection Hnth as <-. reflexivity.
    + destruct i; discriminate.
  - apply Hcap. vm_compute. discriminate.
Defined.

End Update.

(** ** total_weight against the sum of the weights *)

Section TotalWeight.
Import AdaptiveBin.

Lemma fsum_snoc (xs : list float) (x : float) :
  fsum (xs ++ [x]) = PrimFloat.add (fsum xs) x.
Proof. unfold fsum. rewrite fold_left_app. reflexivity. Qed.

Lemma weight_sum_snoc (pts : list WeightedDataPoint) (p : WeightedDataPoint) :
  weight_sum (pts ++ [p]) = PrimFloat.add (weight_sum pts) (weight p).
Proof. unfold weight_sum. rewrite map_app. apply fsum_snoc. Qed.

Lemma cleanup_loop_spec (now max_age : Z) (pts : list WeightedDataPoint) :
  forall new_points new_total_weight,
    cleanup_loop pts now max_age new_points new_total_weight =
    (new_points ++ filter (fresh_enough now max_age) pts,
     fold_left PrimFloat.add (map weight (filter (fresh_enough now max_age) pts))
       new_total_weight).
Proof.
  induction pts as [|p rest IH]; intros new_points new_total_weight; simpl.
  - now rewrite app_nil_r.
  - destruct (fresh_enough now max_age p) eqn:E; unfold fresh_enough in E;
      destruct (Z.leb_spec (now - point_timestamp p) max_age);
      destruct (Z.gtb_spec (now - point_timestamp p) max_age);
      try lia; try discriminate; simpl.
    + rewrite IH, <- app_assoc. reflexivity.
    + apply IH.
Qed.

Lemma AdaptiveBin_cleanup_spec (b : t) (now max_age : Z) :
  cleanup b now max_age =
  mk (min_value b) (max_value b)
     (filter (fresh_enough now max_age) (points b))
     (weight_sum (filter (fresh_enough now max_age) (points b)))
     (max_points b).
Proof.
  unfold cleanup. rewrite cleanup_loop_spec. reflexivity.
Qed.

(** C5 as stated fails: a bin of capacity one takes a sample of weight 0.1,
    then one of weight 0.2 and evicts the first.  The sum of the weights
    held is 0.2, and [total_weight] is (0.1 + 0.2) - 0.1, one unit in the
    last place above. *)
Lemma total_weight_drifts_on_eviction :
  let b1 := update tiny_bin 10 0.1 0 in
  let b2 := update b1 20 0.2 1 in
  total_weight b1 = weight_sum (points b1) /\
  map weight (points b2) = [0.2%float] /\
  weight_sum (points b2) = 0.2%float /\
  total_weight b2 = 0.20000000000000004%float /\
  PrimFloat.eqb (total_weight b2) (weight_sum (points b2)) = false /\
  total_weight b2 <> weight_sum (points b2).
Proof.
  cbv zeta. repeat split; try (vm_compute; reflexivity).
  intros H. apply (f_equal (fun x => PrimFloat.eqb x 0.2%float)) in H.
  vm_compute in H. discriminate.
Qed.

(** The same drift in a bin of the default capacity 50, reached through
    [train] alone on the model over [0, 100]: one adjustment trained
    100000 seconds after it was made (weight 0.93...), then fifty trained
    at their own time (weight 1 each).  The fifty-first evicts the first;
    the fifty weights held sum to 50, [total_weight] is 49.99999999999999. *)
Example total_weight_drifts_in_a_model :
  exists m1 m2 b,
    @EnhancedBrightnessModel.train utc demo_model demo_point (noon + 100000) true = Ret m1 /\
    @EnhancedBrightnessModel.train_all utc m1 (repeat demo_point 50) = Ret m2 /\
    hd_error (EnhancedBrightnessModel.ambient_bins m2) = Some b /\
    map weight (points b) = repeat 1%float 50 /\
    weight_sum (points b) = 50%float /\
    total_weight b = 49.99999999999999%float.
Proof.
  destruct (@EnhancedBrightnessModel.train utc demo_model demo_point (noon + 100000) true)
    as [m1|] eqn:E1; [|vm_compute in E1; discriminate].
  destruct (@EnhancedBrightnessModel.train_all utc m1 (repeat demo_point 50))
    as [m2|] eqn:E2;
    [|vm_compute in E1; injection E1 as <-; vm_compute in E2; discriminate].
  destruct (hd_error (EnhancedBrightnessModel.ambient_bins m2)) as [b|] eqn:E3;
    [|vm_compute in E1; injection E1 as <-; vm_compute in E2; injection E2 as <-;
      discriminate].
  exists m1, m2, b. split; [reflexivity|]. split; [exact E2|]. split; [exact E3|].
  vm_compute in E1. injection E1 as <-. vm_compute in E2. injection E2 as <-.
  vm_compute in E3. injection E3 as <-.
  repeat split; vm_compute; reflexivity.
Qed.

(** C5, amended.  [cleanup] sets [total_weight] to the sum of the weights
    it keeps; an update that does not evict keeps [total_weight] equal to
    that sum when it was; an update that evicts leaves the accumulated
    total less the evicted weight, in floating-point arithmetic. *)
Theorem total_weight_tracks_weights (b : t) :
  (forall now max_age,
     total_weight (cleanup b now max_age) = weight_sum (points (cleanup b now max_age))) /\
  (forall br w ts,
     Z.of_nat (length (points b)) < max_points b ->
     total_weight b = weight_sum (points b) ->
     total_weight (update b br w ts) = weight_sum (points (update b br w ts))) /\
  (forall br w ts,
     Z.of_nat (length (points b)) >= max_points b ->
     exists i removed,
       nth_error (points b ++ [mkWeightedDataPoint br w ts]) i = Some removed /\
       points (update b br w ts) = remove_at (points b ++ [mkWeightedDataPoint br w ts]) i /\
       total_weight (update b br w ts) =
         PrimFloat.sub (PrimFloat.add (total_weight b) w) (weight removed)).
Proof.
  repeat split.
  - intros now max_age. rewrite AdaptiveBin_cleanup_spec. reflexivity.
  - intros br w ts Hlen Hsum. rewrite update_no_eviction.
    + simpl. rewrite weight_sum_snoc, Hsum. reflexivity.
    + rewrite length_app. simpl. lia.
  - intros br w ts Hlen.
    destruct (update_eviction b br w ts) as (removed & Hnth & ->).
    + rewrite length_app. simpl. lia.
    + exists (min_weight_index (points b ++ [mkWeightedDataPoint br w ts])), removed.
      auto.
Qed.

(** The three cases on short runs from the bin of capacity one. *)
Lemma total_weight_tracks_weights_witness :
  total_weight (cleanup (update tiny_bin 10 0.1 0) 700000 604800) = 0%float /\
  (total_weight (update (AdaptiveBin.init 0 50) 10 0.1 0) =
   weight_sum (points (update (AdaptiveBin.init 0 50) 10 0.1 0))) /\
  (exists i removed,
     nth_error [mkWeightedDataPoint 10 0.1 0; mkWeightedDataPoint 20 0.2 1] i = Some removed /\
     total_weight (update (update tiny_bin 10 0.1 0) 20 0.2 1) =
       PrimFloat.sub (PrimFloat.add 0.1 0.2) (weight removed)).
Proof.
  split; [|split].
  - destruct (total_weight_tracks_weights (update tiny_bin 10 0.1 0)) as (H & _ & _).
    rewrite H. vm_compute. reflexivity.
  - destruct (total_weight_tracks_weights (AdaptiveBin.init 0 50)) as (_ & H & _).
    apply H; vm_compute; reflexivity.
  - destruct (total_weight_tracks_weights (update tiny_bin 10 0.1 0)) as (_ & _ & H).
    destruct (H 20 0.2%float 1) as (i & removed & Hnth & _ & Htot).
    + vm_compute. discriminate.
    + exists i, removed. split; [exact Hnth|exact Htot].
Defined.

End TotalWeight.

(** ** cleanup and the training gate *)

Section CleanupAndGate.
Import EnhancedBrightnessModel.

(** C7. [cleanup now] keeps, in every bin and in their order, exactly the
    samples with [now - timestamp <= max_age_seconds], drops exactly those
    with [now - timestamp > max_age_seconds], sets [total_weight] to the sum
    of the weights kept, and changes nothing else. *)
Theorem cleanup_removes_exactly_the_stale (m : t) (now : Z) :
  let keep := fresh_enough now (max_age_seconds m) in
  let m' := cleanup m now in
  length (ambient_bins m') = length (ambient_bins m) /\
  (forall i b,
     nth_error (ambient_bins m) i = Some b ->
     exists b',
       nth_error (ambient_bins m') i = Some b' /\
       AdaptiveBin.points b' = filter keep (AdaptiveBin.points b) /\
       (forall p, In p (AdaptiveBin.points b') <->
                  In p (AdaptiveBin.points b) /\
                  ~ now - point_timestamp p > max_age_seconds m) /\
       AdaptiveBin.total_weight b' = weight_sum (AdaptiveBin.points b') /\
       AdaptiveBin.min_value b' = AdaptiveBin.min_value b /\
       AdaptiveBin.max_value b' = AdaptiveBin.max_value b /\
       AdaptiveBin.max_points b' = AdaptiveBin.max_points b) /\
  last_predictions m' = last_predictions m /\
  max_age_seconds m' = max_age_seconds m /\
  (time_weight m', recency_weight m', activity_weight m') =
  (time_weight m, recency_weight m, activity_weight m).
Proof.
  intros keep m'. subst m'. unfold cleanup. simpl.
  split; [apply length_map|]. split; [|auto].
  intros i b Hb.
  exists (AdaptiveBin.cleanup b now (max_age_seconds m)).
  split; [rewrite nth_error_map, Hb; reflexivity|].
  rewrite AdaptiveBin_cleanup_spec. simpl. fold keep.
  split; [reflexivity|]. split; [|auto].
  intros p. rewrite filter_In. unfold keep, fresh_enough.
  destruct (Z.gtb_spec (now - point_timestamp p) (max_age_seconds m)); simpl;
    intuition (try discriminate; try lia).
Qed.

(** C6. [train] on an observation that is not a manual adjustment returns
    the model as it was: bins, samples, totals and window. *)
Theorem train_ignores_automatic {P : Platform} (m : t) (data_point : DataPoint)
    (now : Z) (is_active : bool) :
  is_manual_adjustment data_point = false ->
  train m data_point now is_active = Ret m.
Proof.
  intros H. unfold train. rewrite H. reflexivity.
Qed.

End CleanupAndGate.

(** ** predict: what an absent result leaves behind *)

Lemma bind_Ret {A B : Type} (c : exc A) (k : A -> exc B) (b : B) :
  bind c k = Ret b -> exists a, c = Ret a /\ k a = Ret b.
Proof. destruct c; simpl; [eauto|discriminate]. Qed.

Ltac bind_inv H :=
  let a := fresh "a" in
  let Ha := fresh "Ha" in
  apply bind_Ret in H; destruct H as (a & Ha & H).

Section PredictState.
Import EnhancedBrightnessModel.
Context {P : Platform}.

Lemma range_from_nonneg (a b : Z) : 0 <= a -> Forall (fun d => 0 <= d) (range_from a b).
Proof.
  intros Ha. unfold range_from. apply Forall_forall. intros d Hd.
  apply in_map_iff in Hd. destruct Hd as (k & <- & _). lia.
Qed.

Lemma find_main_bin_spec (bins : list AdaptiveBin.t) (f : float) :
  forall k i b,
    find_main_bin bins k f = Some (i, b) ->
    (k <= i < k + length bins)%nat /\ nth_error bins (i - k) = Some b.
Proof.
  induction bins as [|b0 rest IH]; intros k i b; simpl; [discriminate|].
  match goal with |- (if ?c then _ else _) = _ -> _ => destruct c end.
  - intros [= <- <-]. rewrite Nat.sub_diag. split; [lia|reflexivity].
  - intros H. apply IH in H. destruct H as [Hi Hnth]. split; [lia|].
    replace (i - k)%nat with (S (i - S k)) by lia. exact Hnth.
Qed.

(** Every way through [predict]: either nothing is returned and the model
    is the same, or a value is returned and only the window moved. *)
Lemma predict_cases (m : t) (ambient ts : Z) (is_active : bool)
    (r : option float) (m' : t) :
  predict m ambient ts is_active = Ret (r, m') ->
  (r = None /\ m' = m) \/
  (exists v x,
     r = Some v /\
     smooth (deque_append (last_predictions m) x) = Ret v /\
     m' = mk (ambient_bins m) (time_weight m) (recency_weight m) (activity_weight m)
             (deque_append (last_predictions m) x) (max_age_seconds m)).
Proof.
  unfold predict. intros H. bind_inv H.
  destruct (find_main_bin (ambient_bins m) 0 a) as [[i b]|].
  - bind_inv H. destruct a0 as [mp|].
    + bind_inv H. bind_inv H. bind_inv H. injection H as <- <-.
      right. eauto.
    + injection H as <- <-. auto.
  - injection H as <- <-. auto.
Qed.

Lemma average_at_empty (bins : list AdaptiveBin.t) (idx : Z) :
  Forall (fun b => AdaptiveBin.points b = []) bins ->
  0 <= idx < Z.of_nat (length bins) ->
  average_at bins idx = Ret None.
Proof.
  intros Hempty Hidx. unfold average_at, py_index.
  destruct (Z.leb_spec 0 idx); [|lia].
  destruct (Z.ltb_spec idx (Z.of_nat (length bins))); [|lia]. simpl.
  destruct (nth_error bins (Z.to_nat idx)) as [b|] eqn:E.
  - rewrite Forall_forall in Hempty. apply nth_error_In in E.
    unfold AdaptiveBin.get_weighted_average. now rewrite (Hempty b E).
  - apply nth_error_None in E. lia.
Qed.

Lemma search_neighbours_empty (bins : list AdaptiveBin.t) (main_bin_index : Z)
    (offsets : list Z) :
  Forall (fun b => AdaptiveBin.points b = []) bins ->
  0 <= main_bin_index < Z.of_nat (length bins) ->
  Forall (fun d => 0 <= d) offsets ->
  search_neighbours bins main_bin_index offsets = Ret None.
Proof.
  intros Hempty Hmain. induction 1 as [|d rest Hd _ IH]; simpl; [reflexivity|].
  destruct (Z.geb_spec (main_bin_index - d) 0);
    [rewrite average_at_empty by (auto; lia)|]; simpl;
    (destruct (Z.ltb_spec (main_bin_index + d) (Z.of_nat (length bins)));
     [rewrite average_at_empty by (auto; lia)|]; simpl; exact IH).
Qed.

(** C10. When [predict] returns the absent result the model is unchanged,
    window included; the bins never change; and the window differs after a
    call only if that call returned a value.  The absent result is what
    [predict] returns when no bin matches the ambient value and when every
    bin is empty. *)
Theorem predict_absent_leaves_state (m : t) (ambient ts : Z) (is_active : bool) :
  (forall r m',
     predict m ambient ts is_active = Ret (r, m') ->
     (r = None -> m' = m) /\
     ambient_bins m' = ambient_bins m /\
     (last_predictions m' <> last_predictions m -> exists v, r = Some v)) /\
  (forall current_ambient,
     float_of_int ambient = Ret current_ambient ->
     find_main_bin (ambient_bins m) 0 current_ambient = None \/
     Forall (fun b => AdaptiveBin.points b = []) (ambient_bins m) ->
     predict m ambient ts is_active = Ret (None, m)).
Proof.
  split.
  - intros r m' H.
    destruct (predict_cases _ _ _ _ _ _ H) as [[-> ->]|(v & x & -> & _ & ->)].
    + repeat split; auto. intros Hn. now elim Hn.
    + repeat split; eauto. discriminate.
  - intros ca Hca Hnone. unfold predict. rewrite Hca. simpl.
    destruct (find_main_bin (ambient_bins m) 0 ca) as [[i b]|] eqn:Hfind; [|reflexivity].
    destruct Hnone as [Hnone|Hempty]; [discriminate|].
    apply find_main_bin_spec in Hfind. destruct Hfind as [Hi Hnth].
    rewrite Nat.sub_0_r in Hnth. unfold main_prediction.
    assert (Hb : AdaptiveBin.points b = []).
    { rewrite Forall_forall in Hempty. eapply Hempty, nth_error_In, Hnth. }
    unfold AdaptiveBin.get_weighted_average. rewrite Hb. simpl.
    rewrite search_neighbours_empty; auto; [lia|].
    apply range_from_nonneg. lia.
Qed.

End PredictState.

(** ** predict: range of the result, and when it cannot raise *)

Lemma float_of_int_fits (z : Z) : fits_float z -> exists f, float_of_int z = Ret f.
Proof.
  unfold fits_float, float_of_int. intros H.
  destruct (Z.ltb_spec (Z.abs z) float_max_int); [eauto|lia].
Qed.

Lemma float_div_nonzero (a b : float) :
  PrimFloat.eqb b 0 = false -> float_div a b = Ret (PrimFloat.div a b).
Proof. unfold float_div. now intros ->. Qed.

Lemma clamp_in_range (s : float) :
  PrimFloat.leb 0 (py_max 0 (py_min 100 s)) = true /\
  PrimFloat.leb (py_max 0 (py_min 100 s)) 100 = true.
Proof.
  unfold py_min. destruct (PrimFloat.ltb s 100) eqn:Hhi.
  - unfold py_max. destruct (PrimFloat.ltb 0 s) eqn:Hlo.
    + split; apply ltb_leb; assumption.
    + split; reflexivity.
  - split; reflexivity.
Qed.

Lemma length_deque_append (d : list float) (x : float) :
  (1 <= length (deque_append d x) <= 3)%nat.
Proof.
  unfold deque_append, deque_maxlen. rewrite length_skipn, length_app. simpl. lia.
Qed.

Section PredictTotal.
Import EnhancedBrightnessModel.
Context {P : Platform}.

Lemma smooth_deque_append (d : list float) (x : float) :
  exists v, smooth (deque_append d x) = Ret v /\ in_range_or_absent (Some v).
Proof.
  unfold smooth. pose proof (length_deque_append d x) as Hlen.
  set (w := deque_append d x) in *.
  assert (Hn : exists n, float_of_int (Z.of_nat (length w)) = Ret n /\
                         PrimFloat.eqb n 0 = false).
  { destruct (length w) as [|[|[|[|k]]]]; try lia.
    - exists 1%float. split; reflexivity.
    - exists 2%float. split; reflexivity.
    - exists 3%float. split; reflexivity. }
  destruct Hn as (n & -> & Hnz). simpl. rewrite (float_div_nonzero _ _ Hnz). simpl.
  eexists. split; [reflexivity|]. apply clamp_in_range.
Qed.

Lemma weighted_sum_fits (pts : list WeightedDataPoint) :
  Forall (fun p => fits_float (brightness p)) pts ->
  forall acc, exists s, AdaptiveBin.weighted_sum pts acc = Ret s.
Proof.
  induction 1 as [|p rest Hp _ IH]; intros acc; simpl; [eauto|].
  destruct (float_of_int_fits _ Hp) as (f & ->). simpl. apply IH.
Qed.

Lemma get_weighted_average_fits (b : AdaptiveBin.t) :
  bin_fits b -> exists r, AdaptiveBin.get_weighted_average b = Ret r.
Proof.
  intros (_ & _ & Hpts). unfold AdaptiveBin.get_weighted_average.
  destruct (AdaptiveBin.points b) as [|p0 rest] eqn:E; [eauto|].
  destruct (PrimFloat.eqb (AdaptiveBin.total_weight b) 0) eqn:Hz; [eauto|].
  destruct (weighted_sum_fits _ Hpts 0%float) as (s & ->). simpl.
  rewrite (float_div_nonzero _ _ Hz). simpl. eauto.
Qed.

Lemma py_index_in_range {A : Type} (xs : list A) (i : Z) :
  0 <= i < Z.of_nat (length xs) -> exists x, py_index xs i = Some x /\ In x xs.
Proof.
  intros H. unfold py_index.
  destruct (Z.leb_spec 0 i); [|lia]. destruct (Z.ltb_spec i (Z.of_nat (length xs))); [|lia].
  simpl. destruct (nth_error xs (Z.to_nat i)) as [x|] eqn:E.
  - exists x. split; [reflexivity|]. eapply nth_error_In; eassumption.
  - apply nth_error_None in E. lia.
Qed.

Lemma average_at_fits (bins : list AdaptiveBin.t) (idx : Z) :
  Forall bin_fits bins -> 0 <= idx < Z.of_nat (length bins) ->
  exists r, average_at bins idx = Ret r.
Proof.
  intros Hfits Hidx. unfold average_at.
  destruct (py_index_in_range bins idx Hidx) as (b & -> & Hin).
  apply get_weighted_average_fits. rewrite Forall_forall in Hfits. auto.
Qed.

Lemma search_neighbours_fits (bins : list AdaptiveBin.t) (main_bin_index : Z)
    (offsets : list Z) :
  Forall bin_fits bins ->
  0 <= main_bin_index < Z.of_nat (length bins) ->
  Forall (fun d => 0 <= d) offsets ->
  exists r, search_neighbours bins main_bin_index offsets = Ret r.
Proof.
  intros Hfits Hmain. induction 1 as [|d rest Hd _ IH]; simpl; [eauto|].
  assert (Hprev : exists r,
            (if main_bin_index - d >=? 0 then average_at bins (main_bin_index - d)
             else Ret None) = Ret r).
  { destruct (Z.geb_spec (main_bin_index - d) 0); [|eauto].
    apply average_at_fits; [assumption|lia]. }
  destruct Hprev as ([v|] & ->); simpl; [eauto|].
  assert (Hnext : exists r,
            (if main_bin_index + d <? Z.of_nat (length bins)
             then average_at bins (main_bin_index + d) else Ret None) = Ret r).
  { destruct (Z.ltb_spec (main_bin_index + d) (Z.of_nat (length bins))); [|eauto].
    apply average_at_fits; [assumption|lia]. }
  destruct Hnext as ([v|] & ->); simpl; eauto.
Qed.

Lemma main_prediction_fits (bins : list AdaptiveBin.t) (b : AdaptiveBin.t) (i : Z) :
  Forall bin_fits bins -> bin_fits b -> 0 <= i < Z.of_nat (length bins) ->
  exists r, main_prediction bins b i = Ret r.
Proof.
  intros Hfits Hb Hi. unfold main_prediction.
  destruct (get_weighted_average_fits b Hb) as ([v|] & ->); simpl; [eauto|].
  apply search_neighbours_fits; auto. apply range_from_nonneg. lia.
Qed.

Lemma interpolate_fits (bins : list AdaptiveBin.t) (b : AdaptiveBin.t) (i : Z)
    (ca adj tf af : float) :
  Forall bin_fits bins -> bin_fits b -> 0 <= i < Z.of_nat (length bins) ->
  exists r, interpolate bins b i ca adj tf af = Ret r.
Proof.
  intros Hfits (Hmin & Hwidth & _) Hi. unfold interpolate.
  destruct (float_of_int_fits _ Hwidth) as (bin_range & ->). simpl.
  assert (Hpos : exists pos,
            (if PrimFloat.ltb 0 bin_range
             then fmin <- float_of_int (AdaptiveBin.min_value b) ;;
                  float_div (PrimFloat.sub ca fmin) bin_range
             else Ret 0.5%float) = Ret pos).
  { destruct (PrimFloat.ltb 0 bin_range) eqn:Hr; [|eauto].
    destruct (float_of_int_fits _ Hmin) as (fmin & ->). simpl.
    rewrite float_div_nonzero; [eauto|]. now apply ltb_neq. }
  destruct Hpos as (pos & ->). simpl.
  assert (Hthr : forall a, float_div a interpolation_threshold =
                           Ret (PrimFloat.div a interpolation_threshold)).
  { intros a. apply float_div_nonzero. reflexivity. }
  match goal with
  | |- exists r, bind ?c _ = Ret r =>
      assert (Hn : exists np w, c = Ret (np, w))
  end.
  { destruct (PrimFloat.ltb pos interpolation_threshold && (i >? 0)) eqn:Hlow.
    - apply andb_true_iff in Hlow. destruct Hlow as [_ Hlow].
      assert (Hidx : 0 <= i - 1 < Z.of_nat (length bins)) by lia.
      destruct (average_at_fits bins (i - 1) Hfits Hidx) as ([np|] & ->);
        simpl; try rewrite Hthr; simpl; eauto.
    - match goal with
      | |- exists _ _, (if ?c then _ else _) = _ => destruct c eqn:Hhigh; [|eauto]
      end.
      apply andb_true_iff in Hhigh. destruct Hhigh as [_ Hhigh].
      assert (Hidx : 0 <= i + 1 < Z.of_nat (length bins)) by lia.
      destruct (average_at_fits bins (i + 1) Hfits Hidx) as ([np|] & ->);
        simpl; try rewrite Hthr; simpl; eauto. }
  destruct Hn as (np & w & ->). simpl.
  destruct np as [np|]; [|eauto].
  destruct (PrimFloat.ltb 0 w && PrimFloat.leb w 1); eauto.
Qed.

End PredictTotal.

(** ** Concrete runs *)

Example demo_model_constructed :
  EnhancedBrightnessModel.init 0 100 2 0.3 0.4 0.3 = Ret demo_model.
Proof. reflexivity. Qed.

Example trained_model_trained :
  @EnhancedBrightnessModel.train utc demo_model demo_point noon true = Ret trained_model.
Proof. vm_compute. reflexivity. Qed.

Example float_of_int_largest :
  float_of_int (float_max_int - 1) = Ret 0x1.fffffffffffffp+1023%float /\
  binary_normalize prec emax float_max_int 0 false = S754_infinity false /\
  float_of_int float_max_int = Raise OverflowError.
Proof. repeat split; vm_compute; reflexivity. Qed.

Section PredictRange.
Import EnhancedBrightnessModel.

(** C3 as stated fails: an ambient value beyond the range of a double makes
    [float(ambient_light)] raise, and [predict] does not catch it; neither
    does it catch what [time.localtime] raises on a timestamp the platform
    cannot convert. *)
Lemma predict_raises_on_huge_ambient :
  @predict utc demo_model (2 ^ 1024) noon true = Raise OverflowError /\
  @predict utc trained_model (- 2 ^ 1024) noon true = Raise OverflowError /\
  @predict time_t32 trained_model 10 (2 ^ 31) true = Raise OverflowError.
Proof. repeat split; vm_compute; reflexivity. Qed.

(** C3, amended.  Whatever [predict] returns is the absent result or a
    value from 0 to 100; and it does return, without raising, when the
    integers it converts to floats are in the range of a double (the
    ambient value, and in every bin the lower bound, the width and the
    sample brightness) and the platform yields the hour of the timestamp. *)
Theorem predict_in_range_or_absent {P : Platform} (m : t) (ambient ts : Z)
    (is_active : bool) :
  (forall r m', predict m ambient ts is_active = Ret (r, m') -> in_range_or_absent r) /\
  (fits_float ambient ->
   Forall bin_fits (ambient_bins m) ->
   (exists h, localtime_tm_hour ts = Ret h) ->
   exists r m', predict m ambient ts is_active = Ret (r, m')).
Proof.
  split.
  - intros r m' H.
    destruct (predict_cases _ _ _ _ _ _ H) as [[-> _]|(v & x & -> & Hs & _)];
      [exact I|].
    destruct (smooth_deque_append (last_predictions m) x) as (v' & Hs' & Hv').
    rewrite Hs in Hs'. injection Hs' as <-. exact Hv'.
  - intros Ha Hbins (h & Hh). unfold predict.
    destruct (float_of_int_fits _ Ha) as (ca & ->). simpl.
    destruct (find_main_bin (ambient_bins m) 0 ca) as [[i b]|] eqn:Hfind; [|eauto].
    apply find_main_bin_spec in Hfind. destruct Hfind as [Hi Hnth].
    rewrite Nat.sub_0_r in Hnth.
    assert (Hb : bin_fits b).
    { rewrite Forall_forall in Hbins. apply Hbins.
      eapply nth_error_In; eassumption. }
    assert (Hidx : 0 <= Z.of_nat i < Z.of_nat (length (ambient_bins m))) by lia.
    destruct (main_prediction_fits _ b _ Hbins Hb Hidx) as ([mp|] & ->); simpl; [|eauto].
    unfold TimeFeatures.from_timestamp. rewrite Hh. simpl.
    match goal with
    | |- context [interpolate ?bs ?b ?i ?ca ?adj ?tf ?af] =>
        destruct (interpolate_fits bs b i ca adj tf af Hbins Hb Hidx) as (adj' & ->)
    end.
    simpl.
    destruct (smooth_deque_append (last_predictions m) adj') as (v & -> & _).
    simpl. eauto.
Qed.

(** On the trained model at noon the prediction is 20. *)
Lemma predict_in_range_or_absent_witness :
  in_range_or_absent (Some 20%float) /\
  exists r m', @predict utc trained_model 10 noon true = Ret (r, m').
Proof.
  destruct (@predict_in_range_or_absent utc trained_model 10 noon true) as [Hr Ht].
  split.
  - apply (Hr (Some 20%float)
             (mk (ambient_bins trained_model) 0.3 0.4 0.3 [20%float] 604800)).
    vm_compute. reflexivity.
  - apply Ht.
    + vm_compute. reflexivity.
    + repeat constructor; vm_compute; reflexivity.
    + exists 12. reflexivity.
Defined.

End PredictRange.

(** ** predict: the smoothing window *)

Example warmed_model_reached :
  @EnhancedBrightnessModel.predict utc trained_model 10 noon true =
    Ret (Some 20%float, with_window trained_model [20%float]) /\
  @EnhancedBrightnessModel.train utc (with_window trained_model [20%float])
    second_point noon true = Ret warmed_model.
Proof. split; vm_compute; reflexivity. Qed.

Section PredictWindow.
Import EnhancedBrightnessModel.

(** C8 as stated fails: on the model trained with one sample two calls of
    [predict] with the same arguments both return 20, although the window
    grew in between; on the untrained model both return the absent result. *)
Lemma predict_twice_same_output :
  @predict utc trained_model 10 noon true =
    Ret (Some 20%float, with_window trained_model [20%float]) /\
  @predict utc (with_window trained_model [20%float]) 10 noon true =
    Ret (Some 20%float, with_window trained_model [20%float; 20%float]) /\
  @predict utc demo_model 10 noon true = Ret (None, demo_model) /\
  @predict utc demo_model 10 noon true = Ret (None, demo_model).
Proof. repeat split; vm_compute; reflexivity. Qed.

(** Every way through a call of [predict] that returns a value: the
    conversion, the lookup, the main prediction, the time features and the
    interpolation all returned, and the value appended to the window is the
    interpolated prediction. *)
Lemma predict_value_cases {P : Platform} (m : t) (ambient ts : Z) (is_active : bool)
    (v : float) (m' : t) :
  predict m ambient ts is_active = Ret (Some v, m') ->
  exists current_ambient main_bin_index main_bin main_prediction_ time_features x,
    float_of_int ambient = Ret current_ambient /\
    find_main_bin (ambient_bins m) 0 current_ambient = Some (main_bin_index, main_bin) /\
    main_prediction (ambient_bins m) main_bin (Z.of_nat main_bin_index) =
      Ret (Some main_prediction_) /\
    TimeFeatures.from_timestamp ts = Ret time_features /\
    interpolate (ambient_bins m) main_bin (Z.of_nat main_bin_index) current_ambient
      (PrimFloat.mul
         (PrimFloat.mul main_prediction_
            (if TimeFeatures.is_day time_features then 1.0%float else 0.8%float))
         (if is_active then 1.0%float else 0.9%float))
      (if TimeFeatures.is_day time_features then 1.0%float else 0.8%float)
      (if is_active then 1.0%float else 0.9%float) = Ret x /\
    smooth (deque_append (last_predictions m) x) = Ret v /\
    m' = mk (ambient_bins m) (time_weight m) (recency_weight m) (activity_weight m)
            (deque_append (last_predictions m) x) (max_age_seconds m).
Proof.
  unfold predict. intros H. bind_inv H.
  destruct (find_main_bin (ambient_bins m) 0 a) as [[i b]|] eqn:Hfind; [|discriminate].
  bind_inv H. destruct a0 as [mp|]; [|discriminate].
  bind_inv H. bind_inv H. bind_inv H. injection H as <- <-.
  exists a, i, b, mp, a0, a1. auto 8.
Qed.

(** C8, amended.  A call of [predict] that returns a value appends its
    interpolated prediction (the main prediction, scaled by the time and
    activity factors and blended with a neighbour's near a bound) to the
    window, which keeps its last three entries; it changes nothing else:
    the bins, the three coefficients and the maximum age are those of the
    model before; and it returns the clamped mean of the window.  So two
    calls with the same arguments can return different values (35 then 40
    on [warmed_model]), and need not. *)
Theorem predict_shifts_window {P : Platform} (m : t) (ambient ts : Z) (is_active : bool) :
  (forall v m',
     predict m ambient ts is_active = Ret (Some v, m') ->
     exists current_ambient main_bin_index main_bin main_prediction_ time_features x,
       float_of_int ambient = Ret current_ambient /\
       find_main_bin (ambient_bins m) 0 current_ambient = Some (main_bin_index, main_bin) /\
       main_prediction (ambient_bins m) main_bin (Z.of_nat main_bin_index) =
         Ret (Some main_prediction_) /\
       TimeFeatures.from_timestamp ts = Ret time_features /\
       interpolate (ambient_bins m) main_bin (Z.of_nat main_bin_index) current_ambient
         (PrimFloat.mul
            (PrimFloat.mul main_prediction_
               (if TimeFeatures.is_day time_features then 1.0%float else 0.8%float))
            (if is_active then 1.0%float else 0.9%float))
         (if TimeFeatures.is_day time_features then 1.0%float else 0.8%float)
         (if is_active then 1.0%float else 0.9%float) = Ret x /\
       m' = mk (ambient_bins m) (time_weight m) (recency_weight m) (activity_weight m)
               (deque_append (last_predictions m) x) (max_age_seconds m) /\
       last_predictions m' = deque_append (last_predictions m) x /\
       (length (last_predictions m') <= 3)%nat /\
       smooth (last_predictions m') = Ret v /\
       ambient_bins m' = ambient_bins m /\
       time_weight m' = time_weight m /\
       recency_weight m' = recency_weight m /\
       activity_weight m' = activity_weight m /\
       max_age_seconds m' = max_age_seconds m) /\
  (@predict utc warmed_model 10 noon true =
     Ret (Some 35%float, with_window warmed_model [20%float; 50%float]) /\
   @predict utc (with_window warmed_model [20%float; 50%float]) 10 noon true =
     Ret (Some 40%float, with_window warmed_model [20%float; 50%float; 50%float])).
Proof.
  split.
  - intros v m' H.
    destruct (predict_value_cases _ _ _ _ _ _ H)
      as (f & i & b & mp & tf & x & Hf & Hfind & Hmp & Htf & Hx & Hs & ->).
    exists f, i, b, mp, tf, x. cbn [last_predictions ambient_bins time_weight
      recency_weight activity_weight max_age_seconds].
    split; [exact Hf|]. split; [exact Hfind|]. split; [exact Hmp|].
    split; [exact Htf|]. split; [exact Hx|]. split; [reflexivity|].
    split; [reflexivity|]. split; [apply length_deque_append|].
    split; [exact Hs|]. auto 6.
  - split; vm_compute; reflexivity.
Qed.

(** The first call on the trained model: the window goes from empty to
    [20], the value that the interpolation returns, and the rest of the
    model stays. *)
Lemma predict_shifts_window_witness :
  exists x,
    interpolate (ambient_bins trained_model) (AdaptiveBin.mk 0 50 [mkWeightedDataPoint 20 1 noon] 1%float 50)
      0 10%float 20%float 1.0%float 1.0%float = Ret x /\
    with_window trained_model [20%float] =
      mk (ambient_bins trained_model) (time_weight trained_model)
         (recency_weight trained_model) (activity_weight trained_model)
         (deque_append (last_predictions trained_model) x)
         (max_age_seconds trained_model) /\
    smooth [20%float] = Ret 20%float.
Proof.
  destruct (@predict_shifts_window utc trained_model 10 noon true) as [H _].
  destruct (H 20%float (with_window trained_model [20%float]))
    as (f & i & b & mp & tf & x & Hf & Hfind & Hmp & Htf & Hx & Hm & _ & _ & Hs & _).
  - vm_compute. reflexivity.
  - exists x.
    vm_compute in Hf. injection Hf as <-.
    vm_compute in Hfind. injection Hfind as <- <-.
    vm_compute in Hmp. injection Hmp as <-.
    vm_compute in Htf. injection Htf as <-.
    split; [exact Hx|]. split; [exact Hm|exact Hs].
Defined.

(** On the untrained model [predict] returns the absent result and the
    model itself. *)
Lemma predict_absent_leaves_state_witness :
  (@None float = None -> demo_model = demo_model) /\
  ambient_bins demo_model = ambient_bins demo_model /\
  (last_predictions demo_model <> last_predictions demo_model ->
   exists v : float, None = Some v).
Proof.
  destruct (@predict_absent_leaves_state utc demo_model 10 noon true) as [H _].
  apply (H None demo_model). vm_compute. reflexivity.
Defined.

(** An automatic adjustment offered to the trained model. *)
Lemma train_ignores_automatic_witness :
  @train utc trained_model (mkDataPoint noon 10 90 false) noon true = Ret trained_model.
Proof.
  apply (@train_ignores_automatic utc trained_model (mkDataPoint noon 10 90 false) noon true).
  reflexivity.
Defined.

End PredictWindow.

(** ** Bin lookup *)

Example converts_exactly_small :
  converts_exactly 10 = true /\ converts_exactly (-1) = true /\
  converts_exactly 150 = true /\ converts_exactly (2 ^ 53) = true /\
  converts_exactly (2 ^ 53 + 1) = false.
Proof. repeat split; vm_compute; reflexivity. Qed.








Section Lookup.
Import EnhancedBrightnessModel.




Lemma chained_upper (bins : list AdaptiveBin.t) :
  forall lo hi, chained lo hi bins ->
                lo <= hi /\ Forall (fun b => AdaptiveBin.max_value b <= hi) bins.
Proof.
  induction bins as [|b rest IH]; intros lo hi; simpl; [contradiction|].
  intros (Hmin & Hle & Hrest). destruct rest as [|b' rest'].
  - subst hi. split; [lia|]. repeat constructor. lia.
  - apply IH in Hrest. destruct Hrest as [Hhi Hall]. split; [lia|].
    constructor; [lia|exact Hall].
Qed.


End Lookup.

Section LookupClaim.
Import EnhancedBrightnessModel.





End LookupClaim.

(** ** sorted *)

Section StableSortFacts.
Context {A : Type} (key : A -> Z).

Lemma insert_by_perm (x : A) (l : list A) : Permutation (insert_by key x l) (x :: l).
Proof.
  induction l as [|y l IH]; simpl; [reflexivity|].
  destruct (key x <=? key y); [reflexivity|].
  rewrite IH. apply perm_swap.
Qed.

Lemma sorted_by_perm (l : list A) : Permutation (sorted_by key l) l.
Proof.
  induction l as [|x l IH]; simpl; [reflexivity|].
  rewrite insert_by_perm. now constructor.
Qed.

Lemma insert_by_sorted (x : A) (l : list A) :
  StronglySorted (key_le key) l -> StronglySorted (key_le key) (insert_by key x l).
Proof.
  induction 1 as [|y l Hs IH Hall]; simpl.
  - repeat constructor.
  - destruct (Z.leb_spec (key x) (key y)).
    + constructor; [constructor; assumption|].
      constructor; [assumption|].
      eapply Forall_impl; [|exact Hall]. unfold key_le. intros; lia.
    + constructor; [exact IH|].
      rewrite insert_by_perm. constructor; [unfold key_le; lia|exact Hall].
Qed.

Lemma sorted_by_sorted (l : list A) : StronglySorted (key_le key) (sorted_by key l).
Proof.
  induction l as [|x l IH]; simpl; [constructor|now apply insert_by_sorted].
Qed.

Lemma sorted_by_length (l : list A) : length (sorted_by key l) = length l.
Proof. apply Permutation_length, sorted_by_perm. Qed.

Lemma StronglySorted_nth (l : list A) (d : A) :
  StronglySorted (key_le key) l ->
  forall i j, (i <= j < length l)%nat -> key (nth i l d) <= key (nth j l d).
Proof.
  induction 1 as [|x l Hs IH Hall]; intros i j Hij; simpl in *; [lia|].
  destruct i as [|i], j as [|j]; try lia.
  - rewrite Forall_forall in Hall. apply Hall, nth_In. lia.
  - apply IH. lia.
Qed.

End StableSortFacts.

(** ** The bins as a partition *)

Section Partition.

Lemma covers_cons (b : AdaptiveBin.t) (rest : list AdaptiveBin.t) (i : nat) (x : Z) :
  covers (b :: rest) (S i) x <-> covers rest i x.
Proof.
  unfold covers. simpl. split; intros (c & Hn & Hmin & Hmax); exists c;
    repeat split; auto; destruct Hmax as [|[Hl He]]; auto; right; split; auto; lia.
Qed.

Lemma covers_in_range (bins : list AdaptiveBin.t) (i : nat) (x : Z) :
  covers bins i x -> (i < length bins)%nat.
Proof.
  intros (b & Hn & _). apply nth_error_Some. congruence.
Qed.

Lemma chained_ascending (bins : list AdaptiveBin.t) :
  forall lo hi, chained lo hi bins -> ascending bins.
Proof.
  induction bins as [|b rest IH]; intros lo hi; simpl; [auto|].
  intros (Hmin & Hle & Hrest). split; [lia|].
  destruct rest as [|b' rest']; [simpl; auto|].
  split; [|eapply IH; exact Hrest].
  simpl in Hrest. destruct Hrest as (E & _). lia.
Qed.

Lemma ascending_after_head (b : AdaptiveBin.t) (rest : list AdaptiveBin.t) :
  ascending (b :: rest) ->
  Forall (fun c => AdaptiveBin.max_value b <= AdaptiveBin.min_value c) rest.
Proof.
  revert b. induction rest as [|b' rest' IH]; intros b; [constructor|].
  intros (Hb & Hnext & Hrest). constructor; [exact Hnext|].
  pose proof (IH b' Hrest) as Hall. destruct Hrest as (Hb' & _).
  eapply Forall_impl; [|exact Hall]. simpl. intros; lia.
Qed.

Lemma ascending_disjoint (bins : list AdaptiveBin.t) :
  ascending bins ->
  forall x i j, covers bins i x -> covers bins j x -> i = j.
Proof.
  induction bins as [|b rest IH]; intros Hasc x i j Hi Hj.
  - apply covers_in_range in Hi. simpl in Hi. lia.
  - assert (Hhead : forall k, covers (b :: rest) 0 x -> covers (b :: rest) (S k) x -> False).
    { intros k (b0 & Hn0 & Hmin0 & Hmax0) Hk. simpl in Hn0. injection Hn0 as <-.
      apply covers_cons in Hk. pose proof (covers_in_range _ _ _ Hk) as Hlen.
      destruct Hk as (c & Hnc & Hminc & _).
      pose proof (ascending_after_head _ _ Hasc) as Hall.
      rewrite Forall_forall in Hall. apply nth_error_In in Hnc.
      specialize (Hall c Hnc). simpl in Hmax0.
      destruct Hmax0 as [|[Hl _]]; lia. }
    destruct i as [|i], j as [|j]; auto.
    + exfalso. eauto.
    + exfalso. eauto.
    + f_equal. apply covers_cons in Hi, Hj. destruct Hasc as (_ & _ & Hrest). eauto.
Qed.

Lemma chained_covers (bins : list AdaptiveBin.t) :
  forall lo hi, chained lo hi bins ->
                forall x, lo <= x <= hi <-> exists i, covers bins i x.
Proof.
  induction bins as [|b rest IH]; intros lo hi Hch x; [contradiction|].
  pose proof (chained_upper _ _ _ Hch) as [Hlohi Hup].
  inversion Hup as [|? ? Hbhi _]; subst.
  destruct Hch as (Hmin & Hle & Hrest). split.
  - intros Hx. destruct (Z_lt_ge_dec x (AdaptiveBin.max_value b)) as [Hlt|Hge].
    + exists 0%nat, b. simpl. repeat split; auto; lia.
    + destruct rest as [|b' rest'].
      * simpl in Hrest. exists 0%nat, b. simpl. split; [reflexivity|].
        split; [lia|]. right. split; [reflexivity|lia].
      * destruct (proj1 (IH _ _ Hrest x)) as (i & Hi); [lia|].
        exists (S i). now apply covers_cons.
  - intros ([|i] & Hi).
    + destruct Hi as (b0 & Hn & Hm & Hmax). simpl in Hn. injection Hn as <-.
      destruct Hmax as [|[_ ->]]; lia.
    + apply covers_cons in Hi. destruct rest as [|b' rest'].
      * apply covers_in_range in Hi. simpl in Hi. lia.
      * assert (Hx : AdaptiveBin.max_value b <= x <= hi) by (apply (IH _ _ Hrest x); eauto).
        lia.
Qed.

Lemma chained_partitions (lo hi : Z) (bins : list AdaptiveBin.t) :
  chained lo hi bins -> partitions lo hi bins.
Proof.
  intros Hch. pose proof (chained_ascending _ _ _ Hch) as Hasc.
  split; [exact Hch|]. split; [exact Hasc|].
  split; [apply (chained_covers _ _ _ Hch)|now apply ascending_disjoint].
Qed.

(** The bins of the constructor, from the one at index [j] on. *)
Lemma init_bins_chained (lo hi n size : Z) :
  0 <= size -> lo + n * size <= hi ->
  forall cnt j,
    (0 < cnt)%nat -> Z.of_nat j + Z.of_nat cnt = n ->
    chained (lo + Z.of_nat j * size) hi
      (map (fun i =>
              let bin_min := lo + i * size in
              let bin_max := if i =? n - 1 then hi else bin_min + size in
              AdaptiveBin.init bin_min bin_max)
           (map Z.of_nat (seq j cnt))).
Proof.
  intros Hsize Hfit. induction cnt as [|cnt IH]; intros j Hcnt Hn; [lia|].
  simpl. split; [reflexivity|].
  destruct (Z.eqb_spec (Z.of_nat j) (n - 1)) as [Hlast|Hmid].
  - split; [nia|]. destruct cnt; [reflexivity|lia].
  - split; [lia|]. destruct cnt as [|cnt']; [lia|].
    specialize (IH (S j)). remember (S cnt') as c.
    replace (lo + Z.of_nat j * size + size) with (lo + Z.of_nat (S j) * size) by lia.
    subst c. apply IH; lia.
Qed.

End Partition.

(** ** adapt_bins on enough history *)

Section Rebin.
Import EnhancedBrightnessModel.

Lemma quantile_index_step (len n i : Z) :
  0 < n -> 2 * n <= len -> 0 <= i ->
  quantile_index len n i + 2 <= quantile_index len n (i + 1).
Proof.
  intros Hn Hlen Hi. unfold quantile_index.
  apply Z.div_le_lower_bound; [lia|].
  pose proof (Z.mul_div_le (i * len) n Hn). nia.
Qed.

Lemma quantile_index_upper (len n i : Z) :
  0 < n -> 0 <= len -> i <= n -> quantile_index len n i <= len.
Proof.
  intros Hn Hlen Hi. unfold quantile_index.
  apply Z.div_le_upper_bound; [lia|]. nia.
Qed.

Lemma quantile_index_nonneg (len n i : Z) :
  0 < n -> 0 <= len -> 0 <= i -> 0 <= quantile_index len n i.
Proof.
  intros Hn Hlen Hi. unfold quantile_index. apply Z.div_pos; [nia|lia].
Qed.

Variable ambient_list : list Z.
Hypothesis ambient_list_sorted : StronglySorted (key_le (fun a : Z => a)) ambient_list.

Let len : Z := Z.of_nat (length ambient_list).
Let value_at (k : Z) : Z := nth (Z.to_nat k) ambient_list 0.

Lemma py_index_value_at (k : Z) :
  0 <= k < len -> py_index ambient_list k = Some (value_at k).
Proof.
  intros Hk. unfold py_index. fold len.
  destruct (Z.leb_spec 0 k); [|lia]. destruct (Z.ltb_spec k len); [|lia]. simpl.
  apply nth_error_nth'. subst len. lia.
Qed.

Lemma py_index_last :
  0 < len -> py_index ambient_list (-1) = Some (value_at (len - 1)).
Proof.
  intros Hlen. unfold py_index. fold len. simpl.
  destruct (Z.leb_spec (- len) (-1)); [|lia]. simpl.
  replace (len + -1) with (len - 1) by lia.
  apply nth_error_nth'. subst len. lia.
Qed.

Lemma value_at_mono (j k : Z) : 0 <= j <= k -> k < len -> value_at j <= value_at k.
Proof.
  intros Hjk Hk. unfold value_at.
  apply (StronglySorted_nth (fun a : Z => a) ambient_list 0 ambient_list_sorted).
  subst len. lia.
Qed.

(** One round of the loop on enough history: the bin starts at a
    quantile, ends no earlier, and ends no later than the next starts (at
    the largest value for the last bin); the samples stay. *)
Lemma adapt_one_enough (n i : Z) (b : AdaptiveBin.t) :
  0 < n -> 2 * n <= len -> 0 <= i < n ->
  exists mx,
    adapt_one ambient_list n i b =
      (AdaptiveBin.mk (value_at (quantile_index len n i)) mx (AdaptiveBin.points b)
         (AdaptiveBin.total_weight b) (AdaptiveBin.max_points b), true) /\
    value_at (quantile_index len n i) <= mx /\
    (i < n - 1 -> mx <= value_at (quantile_index len n (i + 1))) /\
    (i = n - 1 -> mx = value_at (len - 1)).
Proof.
  intros Hn Hlen Hi.
  pose proof (quantile_index_step len n i Hn Hlen ltac:(lia)) as Hstep.
  pose proof (quantile_index_nonneg len n i Hn ltac:(lia) ltac:(lia)) as Hnn.
  pose proof (quantile_index_upper len n (i + 1) Hn ltac:(lia) ltac:(lia)) as Hup.
  unfold adapt_one. fold len. fold (quantile_index len n i).
  fold (quantile_index len n (i + 1)).
  set (s := quantile_index len n i) in *.
  set (s' := quantile_index len n (i + 1)) in *.
  rewrite Z.min_l by lia.
  destruct (Z.geb_spec s len); [lia|].
  destruct (Z.ltb_spec (s' - 1) 0); [lia|].
  destruct (Z.gtb_spec s (s' - 1)); [lia|]. simpl orb. cbv iota.
  rewrite (py_index_value_at s) by lia.
  destruct (Z.eqb_spec i (n - 1)) as [Hlast|Hmid].
  - rewrite py_index_last by lia.
    destruct (Z.ltb_spec i (n - 1)); [lia|]. rewrite andb_false_r.
    eexists. split; [reflexivity|]. repeat split; try lia.
    apply value_at_mono; lia.
  - rewrite (py_index_value_at (s' - 1)) by lia.
    assert (Hnext : s' + 2 <= len).
    { pose proof (quantile_index_step len n (i + 1) Hn Hlen ltac:(lia)).
      pose proof (quantile_index_upper len n (i + 1 + 1) Hn ltac:(lia) ltac:(lia)).
      subst s'. lia. }
    destruct (Z.ltb_spec i (n - 1)); [|lia]. rewrite andb_true_r.
    unfold set_max_value, set_min_value. simpl.
    destruct (Z.geb_spec (value_at s) (value_at (s' - 1))).
    + destruct (Z.ltb_spec (s' - 1 + 1) len); [|lia].
      rewrite (py_index_value_at (s' - 1 + 1)) by lia.
      replace (s' - 1 + 1) with s' by lia.
      eexists. split; [reflexivity|]. repeat split; try lia.
      apply value_at_mono; lia.
    + eexists. split; [reflexivity|]. repeat split; try lia.
      intros _. apply value_at_mono; lia.
Qed.

Lemma adapt_loop_enough (n : Z) (bins : list AdaptiveBin.t) :
  0 < n -> 2 * n <= len ->
  forall i,
    0 <= i -> i + Z.of_nat (length bins) = n ->
    length (adapt_loop ambient_list n i bins) = length bins /\
    map AdaptiveBin.points (adapt_loop ambient_list n i bins) = map AdaptiveBin.points bins /\
    map AdaptiveBin.total_weight (adapt_loop ambient_list n i bins) =
      map AdaptiveBin.total_weight bins /\
    ascending (adapt_loop ambient_list n i bins) /\
    (forall b0, hd_error (adapt_loop ambient_list n i bins) = Some b0 ->
                AdaptiveBin.min_value b0 = value_at (quantile_index len n i)) /\
    (forall bl, nth_error (adapt_loop ambient_list n i bins) (length bins - 1) = Some bl ->
                AdaptiveBin.max_value bl = value_at (len - 1)).
Proof.
  intros Hn Hlen. induction bins as [|b rest IH]; intros i Hi Hsum.
  - simpl. repeat split; auto; discriminate.
  - simpl length in Hsum. cbn [adapt_loop].
    destruct (adapt_one_enough n i b Hn Hlen ltac:(lia)) as (mx & -> & Hmin & Hmid & Hlast).
    specialize (IH (i + 1) ltac:(lia) ltac:(lia)).
    destruct IH as (IHlen & IHpts & IHtot & IHasc & IHhd & IHlast).
    cbn [length map hd_error ascending AdaptiveBin.min_value AdaptiveBin.max_value
         AdaptiveBin.points AdaptiveBin.total_weight].
    rewrite IHlen, IHpts, IHtot.
    split; [reflexivity|]. split; [reflexivity|]. split; [reflexivity|].
    split; [|split].
    + split; [exact Hmin|]. split; [|exact IHasc].
      destruct (adapt_loop ambient_list n (i + 1) rest) as [|b' rest'] eqn:E; [exact I|].
      rewrite (IHhd b' eq_refl). apply Hmid.
      destruct rest; [discriminate|]. simpl length in Hsum. lia.
    + intros b0 [= <-]. reflexivity.
    + intros bl. destruct rest as [|b1 rest1].
      * simpl. intros [= <-]. simpl. apply Hlast. simpl length in Hsum. lia.
      * simpl length. replace (S (S (length rest1)) - 1)%nat with (S (length rest1)) by lia.
        simpl nth_error. intros Hbl. apply IHlast.
        simpl length. replace (S (length rest1) - 1)%nat with (length rest1) by lia.
        exact Hbl.
Qed.

End Rebin.

Section PartitionClaim.
Import EnhancedBrightnessModel.

(** A rebin on fewer observations than twice the bin count changes nothing. *)
Lemma adapt_bins_insufficient (m : t) (historical_data : list DataPoint) :
  Z.of_nat (length historical_data) < 2 * Z.of_nat (length (ambient_bins m)) ->
  adapt_bins m historical_data = m.
Proof.
  intros H. unfold adapt_bins.
  destruct (Z.ltb_spec (Z.of_nat (length historical_data))
              (Z.of_nat (length (ambient_bins m)) * 2)); [reflexivity|lia].
Qed.

(** C1 as stated fails after a rebin: the model built on [0, 100] with two
    bins, rebinned on four observations (twice the bin count), has the
    bins 10..20 and 30..40; they leave a gap, 25 is in no bin, and they do
    not reach 0 or 100. *)
Lemma rebin_leaves_gaps :
  init 0 100 2 0.3 0.4 0.3 = Ret demo_model /\
  ambient_bins (adapt_bins demo_model four_points) =
    [AdaptiveBin.mk 10 20 [] 0%float 50; AdaptiveBin.mk 30 40 [] 0%float 50] /\
  ~ chained 0 100 (ambient_bins (adapt_bins demo_model four_points)) /\
  ~ (exists i, covers (ambient_bins (adapt_bins demo_model four_points)) i 25) /\
  ~ partitions 0 100 (ambient_bins (adapt_bins demo_model four_points)).
Proof.
  assert (E : ambient_bins (adapt_bins demo_model four_points) =
              [AdaptiveBin.mk 10 20 [] 0%float 50; AdaptiveBin.mk 30 40 [] 0%float 50])
    by (vm_compute; reflexivity).
  rewrite E. split; [reflexivity|]. split; [reflexivity|].
  assert (Hch : ~ chained 0 100
                  [AdaptiveBin.mk 10 20 [] 0%float 50; AdaptiveBin.mk 30 40 [] 0%float 50]).
  { simpl. lia. }
  split; [exact Hch|]. split.
  - intros (i & b & Hn & Hmin & Hmax).
    destruct i as [|[|i]]; simpl in Hn.
    + injection Hn as <-. simpl in *. destruct Hmax as [|[? ?]]; lia.
    + injection Hn as <-. simpl in *. lia.
    + destruct i; discriminate.
  - intros (H & _). exact (Hch H).
Qed.

(** C1, amended.  A valid construction yields bins that partition
    [min_ambient, max_ambient]: sorted, contiguous, non-overlapping,
    covering exactly that interval.  A rebin on at least twice as many
    observations as bins keeps the bins sorted and non-overlapping, and
    keeps their samples, but makes them run from the smallest to the
    largest ambient value of the history; gaps between them are possible. *)
Theorem bins_partition_the_domain :
  (forall min_ambient max_ambient bin_count tw rw aw,
     min_ambient < max_ambient -> 0 < bin_count ->
     exists m,
       init min_ambient max_ambient bin_count tw rw aw = Ret m /\
       Z.of_nat (length (ambient_bins m)) = bin_count /\
       partitions min_ambient max_ambient (ambient_bins m)) /\
  (forall m historical_data,
     ambient_bins m <> [] ->
     2 * Z.of_nat (length (ambient_bins m)) <= Z.of_nat (length historical_data) ->
     let bins' := ambient_bins (adapt_bins m historical_data) in
     let ambients := map ambient_light historical_data in
     length bins' = length (ambient_bins m) /\
     map AdaptiveBin.points bins' = map AdaptiveBin.points (ambient_bins m) /\
     map AdaptiveBin.total_weight bins' = map AdaptiveBin.total_weight (ambient_bins m) /\
     ascending bins' /\
     (forall x i j, covers bins' i x -> covers bins' j x -> i = j) /\
     (exists first_bin,
        hd_error bins' = Some first_bin /\
        In (AdaptiveBin.min_value first_bin) ambients /\
        Forall (fun a => AdaptiveBin.min_value first_bin <= a) ambients) /\
     (exists last_bin,
        nth_error bins' (length bins' - 1) = Some last_bin /\
        In (AdaptiveBin.max_value last_bin) ambients /\
        Forall (fun a => a <= AdaptiveBin.max_value last_bin) ambients)).
Proof.
  split.
  - intros lo hi n tw rw aw Hlohi Hn. unfold init.
    destruct (Z.leb_spec n 0); [lia|]. destruct (Z.geb_spec lo hi); [lia|].
    eexists. split; [reflexivity|]. simpl ambient_bins. split.
    + unfold range. rewrite !length_map, length_seq. lia.
    + apply chained_partitions. unfold range.
      pose proof (init_bins_chained lo hi n ((hi - lo) / n)) as Hc.
      specialize (Hc ltac:(apply Z.div_pos; lia)).
      specialize (Hc ltac:(pose proof (Z.mul_div_le (hi - lo) n ltac:(lia)); lia)).
      specialize (Hc (Z.to_nat n) 0%nat ltac:(lia) ltac:(lia)).
      simpl in Hc. rewrite Z.add_0_r in Hc. exact Hc.
  - intros m h Hne Hlen bins' ambients. subst bins'. unfold adapt_bins.
    destruct (Z.ltb_spec (Z.of_nat (length h)) (Z.of_nat (length (ambient_bins m)) * 2));
      [lia|].
    simpl ambient_bins.
    set (S := sorted_by (fun a : Z => a) (map ambient_light h)).
    set (n := Z.of_nat (length (ambient_bins m))).
    assert (HS : StronglySorted (key_le (fun a : Z => a)) S) by apply sorted_by_sorted.
    assert (HP : Permutation S ambients) by apply sorted_by_perm.
    assert (HL : Z.of_nat (length S) = Z.of_nat (length h)).
    { subst S. rewrite sorted_by_length, length_map. reflexivity. }
    assert (Hn : 0 < n).
    { subst n. destruct (ambient_bins m); [congruence|]. simpl length. lia. }
    destruct (adapt_loop_enough S HS n (ambient_bins m) Hn ltac:(lia) 0 ltac:(lia) ltac:(lia))
      as (Hl & Hpts & Htot & Hasc & Hhd & Hlast).
    set (bins' := adapt_loop S n 0 (ambient_bins m)) in *.
    assert (Hin : forall k, 0 <= k < Z.of_nat (length S) -> In (nth (Z.to_nat k) S 0) ambients).
    { intros k Hk. apply (Permutation_in _ HP). apply nth_In. lia. }
    assert (Hnth : forall a, In a ambients ->
                             exists k, (k < length S)%nat /\ nth k S 0 = a).
    { intros a Ha. apply (Permutation_in _ (Permutation_sym HP)) in Ha.
      apply In_nth with (d := 0) in Ha. exact Ha. }
    split; [exact Hl|]. split; [exact Hpts|]. split; [exact Htot|].
    split; [exact Hasc|]. split; [now apply ascending_disjoint|]. split.
    + destruct bins' as [|b0 rest] eqn:E.
      { destruct (ambient_bins m); [congruence|discriminate]. }
      exists b0. split; [reflexivity|]. rewrite (Hhd b0 eq_refl).
      unfold quantile_index. rewrite Z.mul_0_l, Z.div_0_l by lia.
      split; [apply Hin; lia|].
      apply Forall_forall. intros a Ha. destruct (Hnth a Ha) as (k & Hk & <-).
      apply (StronglySorted_nth (fun a : Z => a) S 0 HS). simpl. lia.
    + rewrite Hl.
      destruct (nth_error bins' (length (ambient_bins m) - 1)) as [bl|] eqn:E.
      * exists bl. split; [reflexivity|]. rewrite (Hlast bl eq_refl).
        split; [apply Hin; lia|].
        apply Forall_forall. intros a Ha. destruct (Hnth a Ha) as (k & Hk & <-).
        apply (StronglySorted_nth (fun a : Z => a) S 0 HS). lia.
      * apply nth_error_None in E. destruct (ambient_bins m); [congruence|].
        simpl length in *. lia.
Qed.

(** The construction [0, 100] in two bins, and a rebin of it on the four
    observations. *)
Lemma bins_partition_the_domain_witness :
  (exists m, init 0 100 2 0.3 0.4 0.3 = Ret m /\
             Z.of_nat (length (ambient_bins m)) = 2 /\
             partitions 0 100 (ambient_bins m)) /\
  ascending (ambient_bins (adapt_bins demo_model four_points)).
Proof.
  destruct bins_partition_the_domain as [Hinit Hrebin]. split.
  - apply Hinit; lia.
  - apply (Hrebin demo_model four_points).
    + discriminate.
    + simpl. lia.
Defined.

End PartitionClaim.

(** ** load_historical_data *)

(** Multiplication by one is exact on binary64. *)
Lemma digits2_pos_shift52 (m : positive) :
  Zpos (digits2_pos (m * 4503599627370496)) = Zpos (digits2_pos m) + 52.
Proof.
  rewrite Pos.mul_comm. cbn [Pos.mul digits2_pos]. lia.
Qed.

Lemma shr_52 (m : positive) (e : Z) :
  shr {| shr_m := Zpos (m * 4503599627370496); shr_r := false; shr_s := false |} e 52 =
  ({| shr_m := Zpos m; shr_r := false; shr_s := false |}, e + 52).
Proof.
  rewrite Pos.mul_comm. reflexivity.
Qed.

Lemma SF64mul_1_r (x : spec_float) :
  valid_binary x = true -> SF64mul x (Prim2SF 1) = x.
Proof.
  replace (Prim2SF 1) with (S754_finite false 4503599627370496 (-52)) by reflexivity.
  destruct x as [s|s| |s m e]; intros Hv; try (destruct s; reflexivity); try reflexivity.
  unfold SF64mul, SFmul. rewrite xorb_false_r.
  simpl in Hv. unfold bounded, canonical_mantissa in Hv.
  apply andb_true_iff in Hv. destruct Hv as [Hc Hb].
  apply Z.eqb_eq in Hc.
  unfold binary_round_aux, shr_fexp. unfold Zdigits2.
  rewrite digits2_pos_shift52.
  replace (Z.pos (digits2_pos m) + 52 + (e + -52)) with (Z.pos (digits2_pos m) + e) by lia.
  rewrite Hc. replace (e - (e + -52)) with 52 by lia.
  unfold shr_record_of_loc. rewrite shr_52.
  replace (e + -52 + 52) with e by lia.
  cbn [shr_m loc_of_shr_record round_nearest_even shr_r shr_s].
  rewrite Hc, Z.sub_diag. cbn [shr shr_m]. rewrite Hb. reflexivity.
Qed.

Lemma mul_1_r (x : float) : PrimFloat.mul x 1 = x.
Proof.
  apply Prim2SF_inj. rewrite mul_spec. apply SF64mul_1_r, Prim2SF_valid.
Qed.

Section LoadHistorical.
Import EnhancedBrightnessModel.
Context {P : Platform}.

Lemma age_factor_zero (m : t) :
  max_age_seconds m = 7 * 24 * 3600 -> age_factor m 0 = Ret 1%float.
Proof. intros H. unfold age_factor. rewrite H. reflexivity. Qed.

Lemma train_weight_own_time (m : t) (point : DataPoint) (h : Z) :
  max_age_seconds m = 7 * 24 * 3600 ->
  localtime_tm_hour (timestamp point) = Ret h ->
  train_weight m point (timestamp point) true = Ret (saturated_weight m).
Proof.
  intros Hmax Hh. unfold train_weight, TimeFeatures.from_timestamp.
  rewrite Hh. cbn [bind]. rewrite Z.sub_diag. change (Z.max 0 0) with 0.
  unfold _calculate_weight. rewrite (age_factor_zero m Hmax).
  cbn [bind TimeFeatures.is_day]. rewrite Bool.eqb_reflx, !mul_1_r. reflexivity.
Qed.

Lemma train_own_time (m : t) (point : DataPoint) :
  max_age_seconds m = 7 * 24 * 3600 ->
  train m point (timestamp point) true = historical_step (saturated_weight m) m point.
Proof.
  intros Hmax. unfold train, historical_step.
  destruct (negb (is_manual_adjustment point)); [reflexivity|].
  destruct (_is_outlier point (_find_last_point_in_bins m)); [reflexivity|].
  destruct (localtime_tm_hour (timestamp point)) as [h|e] eqn:Hh.
  - rewrite (train_weight_own_time m point h Hmax Hh). reflexivity.
  - unfold train_weight, TimeFeatures.from_timestamp. rewrite Hh. reflexivity.
Qed.

Lemma historical_step_parameters (w : float) (m m' : t) (point : DataPoint) :
  historical_step w m point = Ret m' -> same_parameters m m'.
Proof.
  unfold historical_step, same_parameters.
  destruct (negb (is_manual_adjustment point)); [intros [= <-]; auto 6|].
  destruct (_is_outlier point (_find_last_point_in_bins m)); [intros [= <-]; auto 6|].
  intros H. bind_inv H.
  destruct (find_target_bin (ambient_bins m) 0 (ambient_light point));
    injection H as <-; simpl; auto 6.
Qed.

Lemma train_all_own_time (points : list DataPoint) :
  forall m,
    max_age_seconds m = 7 * 24 * 3600 ->
    train_all m points = historical_steps (saturated_weight m) m points.
Proof.
  induction points as [|point rest IH]; intros m Hmax; simpl; [reflexivity|].
  rewrite (train_own_time m point Hmax).
  destruct (historical_step (saturated_weight m) m point) as [m'|e] eqn:Hstep;
    simpl; [|reflexivity].
  apply historical_step_parameters in Hstep.
  destruct Hstep as (Htw & Hrw & Haw & Hage & _).
  rewrite IH by congruence. unfold saturated_weight. now rewrite Htw, Hrw, Haw.
Qed.

Lemma adapt_bins_parameters (m : t) (historical_data : list DataPoint) :
  same_parameters m (adapt_bins m historical_data).
Proof.
  unfold adapt_bins, same_parameters.
  destruct (Z.of_nat (length historical_data) <? Z.of_nat (length (ambient_bins m)) * 2);
    simpl; auto 6.
Qed.

(** C9. [load_historical_data] rebins on the history first, then trains on
    the observations in ascending order of timestamp, each at its own
    timestamp and as active, whatever [current_timestamp] and [is_active]
    are.  The elapsed age of each is 0, the age factor is exactly 1, the
    recency component [recency_weight * 1] is [recency_weight] itself, and
    every observation that is stored is stored with the weight
    [time_weight + recency_weight + activity_weight]. *)
Theorem load_historical_data_saturates_recency (m : t) (data_points : list DataPoint)
    (current_timestamp : Z) (is_active : bool) :
  max_age_seconds m = 7 * 24 * 3600 ->
  let sorted_data := sorted_by timestamp data_points in
  load_historical_data m data_points current_timestamp is_active =
    train_all (adapt_bins m data_points) sorted_data /\
  (forall m0 point rest,
     train_all m0 (point :: rest) =
     (m' <- train m0 point (timestamp point) true ;; train_all m' rest)) /\
  Permutation sorted_data data_points /\
  StronglySorted (fun p q => timestamp p <= timestamp q) sorted_data /\
  (forall now' is_active',
     load_historical_data m data_points now' is_active' =
     load_historical_data m data_points current_timestamp is_active) /\
  (forall point, Z.max 0 (timestamp point - timestamp point) = 0) /\
  age_factor m 0 = Ret 1%float /\
  PrimFloat.mul (recency_weight m) 1 = recency_weight m /\
  load_historical_data m data_points current_timestamp is_active =
    historical_steps (saturated_weight m) (adapt_bins m data_points) sorted_data.
Proof.
  intros Hmax sorted_data.
  destruct (adapt_bins_parameters m data_points) as (Htw & Hrw & Haw & Hage & _).
  repeat split; auto.
  - apply sorted_by_perm.
  - apply (sorted_by_sorted timestamp).
  - intros point. rewrite Z.sub_diag. reflexivity.
  - now apply age_factor_zero.
  - apply mul_1_r.
  - unfold load_historical_data. fold sorted_data.
    rewrite train_all_own_time by congruence.
    unfold saturated_weight. now rewrite Htw, Hrw, Haw.
Qed.

End LoadHistorical.

Section LoadHistoricalRun.
Import EnhancedBrightnessModel.

(** The four observations loaded into the model on [0, 100]: the bins are
    moved to 10..20 and 30..40 and each observation is stored with weight
    0.3 + 0.4 + 0.3. *)
Lemma load_historical_data_saturates_recency_witness :
  @load_historical_data utc demo_model four_points 0 false =
    @historical_steps utc (saturated_weight demo_model) (adapt_bins demo_model four_points)
      (sorted_by timestamp four_points) /\
  age_factor demo_model 0 = Ret 1%float.
Proof.
  destruct (@load_historical_data_saturates_recency utc demo_model four_points 0 false)
    as (_ & _ & _ & _ & _ & _ & Hage & _ & Hload).
  - reflexivity.
  - split; [exact Hload|exact Hage].
Defined.

End LoadHistoricalRun.

(** * Further properties *)

(** ** The constructor *)

Section Constructor.
Import EnhancedBrightnessModel.

Lemma nth_error_range (n i : Z) :
  0 <= i < n -> nth_error (range n) (Z.to_nat i) = Some i.
Proof.
  intros Hi. unfold range.
  rewrite nth_error_map, nth_error_nth' with (d := 0%nat) by (rewrite length_seq; lia).
  rewrite seq_nth by lia. simpl. f_equal. lia.
Qed.

Lemma init_succeeds (lo hi n : Z) (tw rw aw : float) :
  0 < n -> lo < hi ->
  init lo hi n tw rw aw =
  Ret (mk (map (constructed_bin lo hi n) (range n)) tw rw aw [] (7 * 24 * 3600)).
Proof.
  intros Hn Hlohi. unfold init.
  destruct (Z.leb_spec n 0); [lia|]. destruct (Z.geb_spec lo hi); [lia|].
  do 2 f_equal. apply map_ext. intros i. unfold constructed_bin, AdaptiveBin.init.
  destruct (i =? n - 1); f_equal; lia.
Qed.

(** X1. The constructor raises [ValueError] exactly when [bin_count <= 0]
    or [min_ambient >= max_ambient], and raises nothing else.  Otherwise
    the model has [bin_count] bins, all without samples, with total weight
    0 and capacity 50, an empty window and a maximal age of seven days;
    every bin but the last has the width [(max - min) // bin_count] and
    the last one takes the remainder of the division as well. *)
Theorem init_raises_or_builds (min_ambient max_ambient bin_count : Z) (tw rw aw : float) :
  (init min_ambient max_ambient bin_count tw rw aw = Raise ValueError <->
   bin_count <= 0 \/ min_ambient >= max_ambient) /\
  (forall e, init min_ambient max_ambient bin_count tw rw aw = Raise e -> e = ValueError) /\
  (forall m,
     init min_ambient max_ambient bin_count tw rw aw = Ret m ->
     Z.of_nat (length (ambient_bins m)) = bin_count /\
     Forall (fun b => AdaptiveBin.points b = [] /\
                      AdaptiveBin.total_weight b = 0%float /\
                      AdaptiveBin.max_points b = 50) (ambient_bins m) /\
     last_predictions m = [] /\
     max_age_seconds m = 604800 /\
     (time_weight m, recency_weight m, activity_weight m) = (tw, rw, aw) /\
     (forall i b,
        0 <= i < bin_count - 1 ->
        nth_error (ambient_bins m) (Z.to_nat i) = Some b ->
        bin_width b = (max_ambient - min_ambient) / bin_count) /\
     (forall b,
        nth_error (ambient_bins m) (Z.to_nat (bin_count - 1)) = Some b ->
        bin_width b = (max_ambient - min_ambient) / bin_count
                      + (max_ambient - min_ambient) mod bin_count)).
Proof.
  destruct (Z_le_gt_dec bin_count 0) as [Hn|Hn];
    [|destruct (Z_ge_lt_dec min_ambient max_ambient) as [Hr|Hr]].
  - assert (E : init min_ambient max_ambient bin_count tw rw aw = Raise ValueError).
    { unfold init. destruct (Z.leb_spec bin_count 0); [reflexivity|lia]. }
    rewrite E. repeat split; auto; try discriminate. now intros e [= <-].
  - assert (E : init min_ambient max_ambient bin_count tw rw aw = Raise ValueError).
    { unfold init. destruct (Z.leb_spec bin_count 0); [lia|].
      destruct (Z.geb_spec min_ambient max_ambient); [reflexivity|lia]. }
    rewrite E. repeat split; auto; try discriminate. now intros e [= <-].
  - rewrite init_succeeds by lia. split; [|split].
    + split; [discriminate|lia].
    + discriminate.
    + intros m [= <-]. simpl.
      split; [unfold range; rewrite !length_map, length_seq; lia|].
      split; [apply Forall_forall; intros b Hb; apply in_map_iff in Hb;
              destruct Hb as (i & <- & _); auto|].
      split; [reflexivity|]. split; [reflexivity|]. split; [reflexivity|].
      split.
      * intros i b Hi. rewrite nth_error_map, nth_error_range by lia.
        intros [= <-]. unfold bin_width, constructed_bin. simpl.
        destruct (Z.eqb_spec i (bin_count - 1)); lia.
      * intros b. rewrite nth_error_map, nth_error_range by lia.
        intros [= <-]. unfold bin_width, constructed_bin. simpl.
        rewrite Z.eqb_refl.
        pose proof (Z.div_mod (max_ambient - min_ambient) bin_count ltac:(lia)). lia.
Qed.

Lemma find_target_bin_degenerate (lo hi n x : Z) :
  (hi - lo) / n = 0 -> lo <= x ->
  forall cnt j k,
    (0 < cnt)%nat -> Z.of_nat j + Z.of_nat cnt = n ->
    find_target_bin (map (constructed_bin lo hi n) (map Z.of_nat (seq j cnt))) k x =
    Some (k + cnt - 1)%nat.
Proof.
  intros Hsize Hx. induction cnt as [|cnt IH]; intros j k Hcnt Hn; [lia|].
  cbn [seq map]. specialize (IH (S j) (S k)).
  set (tail := map (constructed_bin lo hi n) (map Z.of_nat (seq (S j) cnt))) in *.
  assert (Htail : tail = [] <-> cnt = 0%nat).
  { subst tail. destruct cnt; simpl; split; congruence. }
  cbn [find_target_bin]. unfold constructed_bin. rewrite Hsize.
  cbn [AdaptiveBin.min_value AdaptiveBin.max_value].
  replace (lo + Z.of_nat j * 0) with lo by lia.
  replace (lo + (Z.of_nat j + 1) * 0) with lo by lia.
  destruct (Z.leb_spec lo x); [|lia]. destruct (Z.geb_spec x lo); [|lia].
  destruct (Z.eqb_spec (Z.of_nat j) (n - 1)) as [Hlast|Hmid].
  - assert (cnt = 0%nat) by lia. destruct tail; [|apply Htail in H1; discriminate].
    rewrite orb_true_r. f_equal. lia.
  - destruct (Z.ltb_spec x lo); [lia|]. cbn [andb orb].
    destruct tail as [|b tail'] eqn:Et;
      [destruct Htail as [Ht _]; specialize (Ht eq_refl); lia|].
    cbn [andb orb]. rewrite IH by lia. f_equal. lia.
Qed.

(** X2. With more bins than the width of the domain ([bin_count > max -
    min]) the bin size is 0: every bin but the last is the empty range at
    [min_ambient], the last bin is the whole domain, and the lookup of
    [train] sends every ambient value from [min_ambient] on to the last
    bin. *)
Theorem init_more_bins_than_values (min_ambient max_ambient bin_count : Z)
    (tw rw aw : float) (m : t) :
  min_ambient < max_ambient ->
  max_ambient - min_ambient < bin_count ->
  init min_ambient max_ambient bin_count tw rw aw = Ret m ->
  (forall i b,
     0 <= i < bin_count - 1 ->
     nth_error (ambient_bins m) (Z.to_nat i) = Some b ->
     AdaptiveBin.min_value b = min_ambient /\ AdaptiveBin.max_value b = min_ambient) /\
  (exists b,
     nth_error (ambient_bins m) (Z.to_nat (bin_count - 1)) = Some b /\
     AdaptiveBin.min_value b = min_ambient /\ AdaptiveBin.max_value b = max_ambient) /\
  (forall x, min_ambient <= x ->
             find_target_bin (ambient_bins m) 0 x = Some (Z.to_nat (bin_count - 1))).
Proof.
  intros Hlohi Hn. rewrite init_succeeds by lia. intros [= <-]. simpl.
  assert (Hsize : (max_ambient - min_ambient) / bin_count = 0)
    by (apply Z.div_small; lia).
  split; [|split].
  - intros i b Hi. rewrite nth_error_map, nth_error_range by lia.
    intros [= <-]. unfold constructed_bin. rewrite Hsize. simpl.
    destruct (Z.eqb_spec i (bin_count - 1)); lia.
  - exists (constructed_bin min_ambient max_ambient bin_count (bin_count - 1)).
    rewrite nth_error_map, nth_error_range by lia. split; [reflexivity|].
    unfold constructed_bin. rewrite Hsize, Z.eqb_refl. simpl. lia.
  - intros x Hx. unfold range.
    rewrite (find_target_bin_degenerate _ _ _ x Hsize Hx (Z.to_nat bin_count) 0 0) by lia.
    f_equal. lia.
Qed.

(** Seven bins over the domain [0, 3]. *)
Lemma init_more_bins_than_values_witness :
  exists m,
    init 0 3 7 0.3 0.4 0.3 = Ret m /\
    find_target_bin (ambient_bins m) 0 1 = Some 6%nat.
Proof.
  destruct (init 0 3 7 0.3 0.4 0.3) as [m|] eqn:E; [|discriminate].
  exists m. split; [reflexivity|].
  destruct (init_more_bins_than_values 0 3 7 0.3 0.4 0.3 m) as (_ & _ & H);
    [lia|lia|exact E|].
  apply (H 1). lia.
Defined.

End Constructor.

(** ** AdaptiveBin: the average and the newcomer *)

Section BinFurther.
Import AdaptiveBin.

Lemma float_of_int_raise (z : Z) (e : exn) :
  float_of_int z = Raise e -> e = OverflowError /\ ~ fits_float z.
Proof.
  unfold float_of_int, fits_float.
  destruct (Z.ltb_spec (Z.abs z) float_max_int); [discriminate|].
  intros [= <-]. split; [reflexivity|lia].
Qed.

Lemma weighted_sum_raise (pts : list WeightedDataPoint) (e : exn) :
  forall acc,
    weighted_sum pts acc = Raise e ->
    e = OverflowError /\ exists p, In p pts /\ ~ fits_float (brightness p).
Proof.
  induction pts as [|p rest IH]; intros acc; simpl; [discriminate|].
  destruct (float_of_int (brightness p)) as [f|e'] eqn:E; simpl.
  - intros H. destruct (IH _ H) as (He & q & Hq & Hfit). eauto.
  - intros [= <-]. destruct (float_of_int_raise _ _ E). eauto.
Qed.

(** X3. [get_weighted_average] returns the absent result exactly when the
    bin has no sample or its total weight compares equal to 0 (samples of
    weight 0 make an average as absent as no sample does).  The division is
    guarded: it never raises [ZeroDivisionError]; the only exception is the
    [OverflowError] of a sample brightness beyond the range of a double.
    A value it returns is the weighted sum divided by [total_weight]. *)
Theorem get_weighted_average_absent_or_quotient (b : t) :
  (get_weighted_average b = Ret None <->
   points b = [] \/ PrimFloat.eqb (total_weight b) 0 = true) /\
  (forall e, get_weighted_average b = Raise e ->
             e = OverflowError /\
             exists p, In p (points b) /\ ~ fits_float (brightness p)) /\
  (forall v, get_weighted_average b = Ret (Some v) ->
             exists s, weighted_sum (points b) 0 = Ret s /\
                       v = PrimFloat.div s (total_weight b)).
Proof.
  unfold get_weighted_average.
  destruct (points b) as [|p0 rest] eqn:Epts.
  - repeat split; auto; discriminate.
  - destruct (PrimFloat.eqb (total_weight b) 0) eqn:Hz.
    + repeat split; auto; discriminate.
    + destruct (weighted_sum (p0 :: rest) 0) as [s|e'] eqn:Es; simpl.
      * rewrite (float_div_nonzero _ _ Hz). simpl. split; [|split].
        -- split; [discriminate|]. intros [H|H]; discriminate.
        -- discriminate.
        -- intros v [= <-]. eauto.
      * split; [|split].
        -- split; [discriminate|]. intros [H|H]; discriminate.
        -- intros e [= <-]. exact (weighted_sum_raise _ _ _ Es).
        -- discriminate.
Qed.

(** X4. An update of a bin that is full (it holds at least [max_points]
    samples) keeps the number of samples; below capacity it adds one.  A
    newcomer that is strictly lighter than every sample of a full bin is
    itself the one evicted: the samples are exactly those held before. *)
Theorem update_size_and_lightest_newcomer (b : t) (br : Z) (w : float) (ts : Z) :
  (Z.of_nat (length (points b)) < max_points b ->
   length (points (update b br w ts)) = S (length (points b))) /\
  (Z.of_nat (length (points b)) >= max_points b ->
   length (points (update b br w ts)) = length (points b)) /\
  (Z.of_nat (length (points b)) >= max_points b ->
   (forall p, In p (points b) -> PrimFloat.ltb w (weight p) = true) ->
   points (update b br w ts) = points b).
Proof.
  destruct (update_cases b br w ts) as [(Hle & E)|(Hgt & removed & Hnth & E)];
    rewrite E; clear E; rewrite length_app in *; simpl in *.
  - repeat split; intros; try lia. rewrite length_app. simpl. lia.
  - split; [lia|].
    pose proof (length_remove_at _ _ _ Hnth) as Hlen.
    rewrite length_app in Hlen. simpl in Hlen.
    split; [intros _; lia|]. intros _ Hlight.
    set (present := points b ++ [mkWeightedDataPoint br w ts]) in *.
    destruct (min_weight_index_spec present) as (e & He & Hmin & _).
    { subst present. destruct (points b); discriminate. }
    assert (e = removed) by congruence. subst e.
    assert (Hidx : min_weight_index present = length (points b)).
    { assert (Hlt : (min_weight_index present < length present)%nat)
        by (apply nth_error_Some; congruence).
      subst present. rewrite length_app in Hlt. simpl in Hlt.
      destruct (Nat.eq_dec (min_weight_index (points b ++ [mkWeightedDataPoint br w ts]))
                  (length (points b))) as [|Hne]; [assumption|exfalso].
      rewrite nth_error_app1 in Hnth by lia.
      pose proof (Hlight removed (nth_error_In _ _ Hnth)) as Hw.
      assert (Hn : PrimFloat.ltb (weight (mkWeightedDataPoint br w ts)) (weight removed)
                   = false).
      { apply Hmin. apply in_or_app. right. now left. }
      simpl in Hn. congruence. }
    rewrite Hidx. unfold remove_at, present.
    rewrite firstn_app, firstn_all, Nat.sub_diag, firstn_O.
    rewrite skipn_all2 by (rewrite length_app; simpl; lia).
    now rewrite !app_nil_r.
Qed.

(** A full bin of capacity one holding weight 2 is offered weight 1. *)
Lemma update_size_and_lightest_newcomer_witness :
  points (update (update tiny_bin 10 2 0) 20 1 1) = points (update tiny_bin 10 2 0).
Proof.
  destruct (update_size_and_lightest_newcomer (update tiny_bin 10 2 0) 20 1 1)
    as (_ & _ & H).
  apply H.
  - vm_compute. discriminate.
  - intros p [<-|[]]. reflexivity.
Defined.

End BinFurther.

(** ** The last known point and the outlier filter *)

Section LastPoint.
Import EnhancedBrightnessModel.

Lemma max_by_timestamp_spec (rest : list WeightedDataPoint) :
  forall best,
    In (max_by_timestamp best rest) (best :: rest) /\
    forall s, In s (best :: rest) ->
              point_timestamp s <= point_timestamp (max_by_timestamp best rest).
Proof.
  induction rest as [|p rest IH]; intros best; simpl.
  - split; [auto|]. intros s [<-|[]]. lia.
  - destruct (Z.gtb_spec (point_timestamp p) (point_timestamp best)).
    + destruct (IH p) as [Hin Hmax]. split.
      * destruct Hin as [<-|Hin]; auto.
      * intros s [<-|[<-|Hs]].
        -- specialize (Hmax p (or_introl eq_refl)). lia.
        -- apply Hmax. now left.
        -- apply Hmax. now right.
    + destruct (IH best) as [Hin Hmax]. split.
      * destruct Hin as [<-|Hin]; auto.
      * intros s [<-|[<-|Hs]].
        -- apply Hmax. now left.
        -- specialize (Hmax best (or_introl eq_refl)). lia.
        -- apply Hmax. now right.
Qed.

Lemma find_last_loop_spec (bins : list AdaptiveBin.t) :
  forall latest info,
    (find_last_loop bins latest info = info /\
     forall b s, In b bins -> In s (AdaptiveBin.points b) -> point_timestamp s <= latest) \/
    (exists b s,
       In b bins /\ In s (AdaptiveBin.points b) /\
       find_last_loop bins latest info =
         Some (point_timestamp s,
               (AdaptiveBin.min_value b + AdaptiveBin.max_value b) / 2,
               brightness s) /\
       latest < point_timestamp s /\
       forall b' s', In b' bins -> In s' (AdaptiveBin.points b') ->
                     point_timestamp s' <= point_timestamp s).
Proof.
  induction bins as [|bin_ rest IH]; intros latest info.
  - left. split; [reflexivity|]. intros b s [].
  - cbn [find_last_loop]. destruct (AdaptiveBin.points bin_) as [|p0 ps] eqn:Epts.
    + destruct (IH latest info) as [[E Hall]|(b & s & Hb & Hs & E & Hlt & Hall)].
      * left. split; [exact E|]. intros b s [<-|Hb] Hs; [|eauto].
        rewrite Epts in Hs. contradiction.
      * right. exists b, s.
        split; [now right|]. split; [exact Hs|].
        split; [exact E|]. split; [lia|].
        intros b' s' [<-|Hb'] Hs'; [|eauto].
        rewrite Epts in Hs'. contradiction.
    + destruct (max_by_timestamp_spec ps p0) as [Hin Hmax].
      set (c := max_by_timestamp p0 ps) in *. cbv zeta.
      destruct (Z.gtb_spec (point_timestamp c) latest) as [Hnew|Hold].
      * destruct (IH (point_timestamp c)
                    (Some (point_timestamp c,
                           (AdaptiveBin.min_value bin_ + AdaptiveBin.max_value bin_) / 2,
                           brightness c)))
          as [[E Hall]|(b & s & Hb & Hs & E & Hlt & Hall)].
        -- right. exists bin_, c.
           split; [now left|]. split; [rewrite Epts; exact Hin|].
           split; [exact E|]. split; [lia|].
           intros b' s' [<-|Hb'] Hs'; [|eauto]. rewrite Epts in Hs'. auto.
        -- right. exists b, s.
           split; [now right|]. split; [exact Hs|].
           split; [exact E|]. split; [lia|].
           intros b' s' [<-|Hb'] Hs'; [|eauto]. rewrite Epts in Hs'.
           specialize (Hmax s' Hs'). lia.
      * destruct (IH latest info) as [[E Hall]|(b & s & Hb & Hs & E & Hlt & Hall)].
        -- left. split; [exact E|]. intros b s [<-|Hb] Hs; [|eauto].
           rewrite Epts in Hs. specialize (Hmax s Hs). lia.
        -- right. exists b, s.
           split; [now right|]. split; [exact Hs|].
           split; [exact E|]. split; [lia|].
           intros b' s' [<-|Hb'] Hs'; [|eauto]. rewrite Epts in Hs'.
           specialize (Hmax s' Hs'). lia.
Qed.

(** X5. [_find_last_point_in_bins] finds no point exactly when no sample of
    any bin has a timestamp of 0 or more (in particular when the bins are
    empty): samples with a negative timestamp never count.  A point it
    returns carries the largest timestamp among all samples of all bins and
    the brightness of a sample with that timestamp; its ambient value is
    not that sample's but the midpoint [(min + max) // 2] of the bin that
    holds the sample, and it is marked as a manual adjustment. *)
Theorem find_last_point_is_latest (m : t) :
  (_find_last_point_in_bins m = None <->
   forall b s, In b (ambient_bins m) -> In s (AdaptiveBin.points b) ->
               point_timestamp s < 0) /\
  (forall last_point,
     _find_last_point_in_bins m = Some last_point ->
     0 <= timestamp last_point /\
     is_manual_adjustment last_point = true /\
     (exists b s,
        In b (ambient_bins m) /\ In s (AdaptiveBin.points b) /\
        timestamp last_point = point_timestamp s /\
        screen_brightness last_point = brightness s /\
        ambient_light last_point =
          (AdaptiveBin.min_value b + AdaptiveBin.max_value b) / 2) /\
     (forall b s, In b (ambient_bins m) -> In s (AdaptiveBin.points b) ->
                  point_timestamp s <= timestamp last_point)).
Proof.
  unfold _find_last_point_in_bins.
  destruct (find_last_loop_spec (ambient_bins m) (-1) None)
    as [[E Hall]|(b & s & Hb & Hs & E & Hlt & Hall)]; rewrite E.
  - split; [|discriminate]. split; [|reflexivity].
    intros _ b s Hb Hs. specialize (Hall b s Hb Hs). lia.
  - split.
    + split; [discriminate|]. intros H. specialize (H b s Hb Hs). lia.
    + intros last_point [= <-]. simpl. split; [lia|]. split; [reflexivity|].
      split; [exists b, s; auto|exact Hall].
Qed.

End LastPoint.

(** ** train: what it changes *)

Section TrainFrame.
Import EnhancedBrightnessModel.
Context {P : Platform}.

Lemma update_at_length (bins : list AdaptiveBin.t) (f : AdaptiveBin.t -> AdaptiveBin.t) :
  forall i, length (update_at bins i f) = length bins.
Proof.
  induction bins as [|b rest IH]; intros [|i]; simpl; auto.
Qed.

Lemma update_at_same (bins : list AdaptiveBin.t) (f : AdaptiveBin.t -> AdaptiveBin.t) :
  forall i, nth_error (update_at bins i f) i = option_map f (nth_error bins i).
Proof.
  induction bins as [|b rest IH]; intros [|i]; simpl; auto.
Qed.

Lemma update_at_other (bins : list AdaptiveBin.t) (f : AdaptiveBin.t -> AdaptiveBin.t) :
  forall i j, i <> j -> nth_error (update_at bins i f) j = nth_error bins j.
Proof.
  induction bins as [|b rest IH]; intros [|i] [|j] Hij; simpl; auto; try congruence.
Qed.

Lemma update_bounds (b : AdaptiveBin.t) (br : Z) (w : float) (ts : Z) :
  AdaptiveBin.min_value (AdaptiveBin.update b br w ts) = AdaptiveBin.min_value b /\
  AdaptiveBin.max_value (AdaptiveBin.update b br w ts) = AdaptiveBin.max_value b /\
  AdaptiveBin.max_points (AdaptiveBin.update b br w ts) = AdaptiveBin.max_points b.
Proof.
  destruct (update_cases b br w ts) as [(_ & ->)|(_ & removed & _ & ->)]; simpl; auto.
Qed.

Lemma find_target_bin_spec (bins : list AdaptiveBin.t) (x : Z) :
  forall k i,
    find_target_bin bins k x = Some i ->
    (k <= i)%nat /\
    exists b,
      nth_error bins (i - k) = Some b /\
      AdaptiveBin.min_value b <= x /\
      (x < AdaptiveBin.max_value b \/ S (i - k) = length bins) /\
      forall j b', (j < i - k)%nat -> nth_error bins j = Some b' ->
                   ~ (AdaptiveBin.min_value b' <= x < AdaptiveBin.max_value b').
Proof.
  induction bins as [|b rest IH]; intros k i; simpl; [discriminate|].
  destruct (Z.leb_spec (AdaptiveBin.min_value b) x) as [Hmin|Hmin];
    destruct (Z.ltb_spec x (AdaptiveBin.max_value b)) as [Hmax|Hmax]; simpl.
  - intros [= <-]. rewrite Nat.sub_diag. split; [lia|]. exists b.
    repeat split; auto. intros j b' Hj. lia.
  - destruct rest as [|b1 rest1].
    + destruct (Z.geb_spec x (AdaptiveBin.min_value b)); [|lia]. simpl.
      intros [= <-]. rewrite Nat.sub_diag. split; [lia|]. exists b.
      repeat split; auto. intros j b' Hj. lia.
    + intros H. apply IH in H. destruct H as (Hk & c & Hn & Hc1 & Hc2 & Hc3).
      split; [lia|]. exists c. replace (i - k)%nat with (S (i - S k)) by lia.
      simpl nth_error. simpl length in *. repeat split; auto.
      * destruct Hc2; [auto|right; lia].
      * intros [|j] b'; simpl.
        -- intros _ [= <-]. lia.
        -- intros Hj. apply Hc3. lia.
  - destruct rest as [|b1 rest1].
    + destruct (Z.geb_spec x (AdaptiveBin.min_value b)); [lia|]. simpl. discriminate.
    + intros H. apply IH in H. destruct H as (Hk & c & Hn & Hc1 & Hc2 & Hc3).
      split; [lia|]. exists c. replace (i - k)%nat with (S (i - S k)) by lia.
      simpl nth_error. simpl length in *. repeat split; auto.
      * destruct Hc2; [auto|right; lia].
      * intros [|j] b'; simpl.
        -- intros _ [= <-]. lia.
        -- intros Hj. apply Hc3. lia.
  - destruct rest as [|b1 rest1].
    + destruct (Z.geb_spec x (AdaptiveBin.min_value b)); [lia|]. simpl. discriminate.
    + intros H. apply IH in H. destruct H as (Hk & c & Hn & Hc1 & Hc2 & Hc3).
      split; [lia|]. exists c. replace (i - k)%nat with (S (i - S k)) by lia.
      simpl nth_error. simpl length in *. repeat split; auto.
      * destruct Hc2; [auto|right; lia].
      * intros [|j] b'; simpl.
        -- intros _ [= <-]. lia.
        -- intros Hj. apply Hc3. lia.
Qed.

(** Every way through [train]. *)
Lemma train_cases (m : t) (data_point : DataPoint) (now : Z) (is_active : bool) (m' : t) :
  train m data_point now is_active = Ret m' ->
  m' = m \/
  exists i w,
    is_manual_adjustment data_point = true /\
    _is_outlier data_point (_find_last_point_in_bins m) = false /\
    train_weight m data_point now is_active = Ret w /\
    find_target_bin (ambient_bins m) 0 (ambient_light data_point) = Some i /\
    m' = set_bins m
           (update_at (ambient_bins m) i
              (fun target_bin =>
                 AdaptiveBin.update target_bin (screen_brightness data_point) w
                   (timestamp data_point))).
Proof.
  unfold train.
  destruct (is_manual_adjustment data_point); simpl; [|intros [= <-]; auto].
  destruct (_is_outlier data_point (_find_last_point_in_bins m)); [intros [= <-]; auto|].
  intros H. bind_inv H.
  destruct (find_target_bin (ambient_bins m) 0 (ambient_light data_point)) as [i|];
    injection H as <-; [|auto].
  right. exists i, a. auto.
Qed.

(** X6. A call of [train] that returns either leaves the model as it is
    or changes exactly one bin: the first bin whose range holds the ambient
    value (or the last bin, when the value is at or above its minimum),
    which receives one [update] with the observation's brightness and
    timestamp.  The other bins, the number of bins, all bin boundaries and
    capacities, the smoothing window and the coefficients stay as they are. *)
Theorem train_changes_one_bin (m : t) (data_point : DataPoint) (now : Z)
    (is_active : bool) (m' : t) :
  train m data_point now is_active = Ret m' ->
  length (ambient_bins m') = length (ambient_bins m) /\
  map AdaptiveBin.min_value (ambient_bins m') = map AdaptiveBin.min_value (ambient_bins m) /\
  map AdaptiveBin.max_value (ambient_bins m') = map AdaptiveBin.max_value (ambient_bins m) /\
  map AdaptiveBin.max_points (ambient_bins m') = map AdaptiveBin.max_points (ambient_bins m) /\
  same_parameters m m' /\
  (m' = m \/
   exists i b w,
     train_weight m data_point now is_active = Ret w /\
     nth_error (ambient_bins m) i = Some b /\
     AdaptiveBin.min_value b <= ambient_light data_point /\
     (ambient_light data_point < AdaptiveBin.max_value b \/
      S i = length (ambient_bins m)) /\
     (forall j b', (j < i)%nat -> nth_error (ambient_bins m) j = Some b' ->
                   ~ (AdaptiveBin.min_value b' <= ambient_light data_point
                      < AdaptiveBin.max_value b')) /\
     nth_error (ambient_bins m') i =
       Some (AdaptiveBin.update b (screen_brightness data_point) w (timestamp data_point)) /\
     (forall j, j <> i -> nth_error (ambient_bins m') j = nth_error (ambient_bins m) j)).
Proof.
  intros H. apply train_cases in H.
  destruct H as [->|(i & w & Hman & Hout & Hw & Hfind & ->)].
  - unfold same_parameters. repeat split; auto.
  - simpl ambient_bins. set (f := fun target_bin => AdaptiveBin.update target_bin _ _ _).
    assert (Hmap : forall (A : Type) (g : AdaptiveBin.t -> A),
               (forall b, g (f b) = g b) ->
               map g (update_at (ambient_bins m) i f) = map g (ambient_bins m)).
    { intros A g Hg. clear Hfind. generalize i.
      induction (ambient_bins m) as [|b rest IH]; intros [|j]; cbn [update_at map].
      - reflexivity.
      - reflexivity.
      - now rewrite Hg.
      - now rewrite IH. }
    split; [apply update_at_length|].
    split; [apply Hmap; intros b; apply update_bounds|].
    split; [apply Hmap; intros b; apply update_bounds|].
    split; [apply Hmap; intros b; apply update_bounds|].
    split; [unfold same_parameters; simpl; auto 6|].
    right. apply find_target_bin_spec in Hfind.
    destruct Hfind as (_ & b & Hn & Hmin & Hmax & Hfirst).
    rewrite Nat.sub_0_r in *. exists i, b, w.
    repeat split; auto.
    + rewrite update_at_same, Hn. reflexivity.
    + intros j Hj. apply update_at_other. congruence.
Qed.

End TrainFrame.

Section TrainFrameRun.
Import EnhancedBrightnessModel.

(** The training of [demo_point] into the fresh model. *)
Lemma train_changes_one_bin_witness :
  length (ambient_bins trained_model) = length (ambient_bins demo_model) /\
  map AdaptiveBin.min_value (ambient_bins trained_model) =
    map AdaptiveBin.min_value (ambient_bins demo_model).
Proof.
  destruct (@train_changes_one_bin utc demo_model demo_point noon true trained_model)
    as (Hlen & Hmin & _).
  - vm_compute. reflexivity.
  - split; [exact Hlen|exact Hmin].
Defined.

End TrainFrameRun.

(** ** adapt_bins: what it keeps, for any history *)

Section RebinFrame.
Import EnhancedBrightnessModel.

Lemma py_index_In {A : Type} (xs : list A) (i : Z) (x : A) :
  py_index xs i = Some x -> In x xs.
Proof.
  unfold py_index.
  destruct ((0 <=? i) && (i <? Z.of_nat (length xs))); [apply nth_error_In|].
  destruct ((- Z.of_nat (length xs) <=? i) && (i <? 0)); [apply nth_error_In|discriminate].
Qed.

Lemma py_index_minus_one {A : Type} (xs : list A) :
  xs <> [] -> exists x, py_index xs (-1) = Some x.
Proof.
  intros Hne. unfold py_index. simpl.
  assert (Hlen : 0 < Z.of_nat (length xs)) by (destruct xs; [congruence|simpl; lia]).
  destruct (Z.leb_spec (- Z.of_nat (length xs)) (-1)); [|lia]. simpl.
  destruct (nth_error xs (Z.to_nat (Z.of_nat (length xs) + -1))) as [x|] eqn:E; [eauto|].
  apply nth_error_None in E. lia.
Qed.

Lemma rebinned_refl (al : list Z) (b : AdaptiveBin.t) : rebinned al b b.
Proof. unfold rebinned. auto 6. Qed.

Lemma rebinned_incl (al al' : list Z) (b b' : AdaptiveBin.t) :
  (forall x, In x al -> In x al') -> rebinned al b b' -> rebinned al' b b'.
Proof.
  intros Hin (Hp & Ht & Hc & Hmin & Hmax). unfold rebinned.
  split; [exact Hp|]. split; [exact Ht|]. split; [exact Hc|].
  split; [destruct Hmin; auto|destruct Hmax; auto].
Qed.

Lemma adapt_one_rebinned (al : list Z) (n i : Z) (b : AdaptiveBin.t) :
  rebinned al b (fst (adapt_one al n i b)).
Proof.
  unfold adapt_one, rebinned.
  repeat match goal with
  | |- context [if ?c then _ else _] => destruct c eqn:?
  | |- context [match py_index ?l ?k with _ => _ end] =>
      let E := fresh "E" in destruct (py_index l k) eqn:E; [apply py_index_In in E|]
  end; simpl; auto 8.
Qed.

(** The [IndexError] that [adapt_bins] catches is never raised. *)
Lemma adapt_one_no_index_error (al : list Z) (n i : Z) (b : AdaptiveBin.t) :
  0 < n -> 0 <= i -> snd (adapt_one al n i b) = true.
Proof.
  intros Hn Hi. unfold adapt_one.
  set (len := Z.of_nat (length al)).
  set (start_idx := i * len / n).
  set (end_idx := Z.min ((i + 1) * len / n - 1) (len - 1)).
  destruct ((start_idx >=? len) || (end_idx <? 0) || (start_idx >? end_idx)) eqn:Hc;
    [reflexivity|].
  apply orb_false_iff in Hc. destruct Hc as [Hc Hc3].
  apply orb_false_iff in Hc. destruct Hc as [Hc1 Hc2].
  destruct (Z.geb_spec start_idx len) as [|Hs]; [discriminate|].
  destruct (Z.ltb_spec end_idx 0) as [|He]; [discriminate|].
  destruct (Z.gtb_spec start_idx end_idx) as [|Hse]; [discriminate|].
  assert (Hs0 : 0 <= start_idx).
  { subst start_idx. apply Z.div_pos; [|lia]. subst len. nia. }
  assert (Hel : end_idx <= len - 1) by (subst end_idx; lia).
  assert (Hne : al <> []).
  { intros ->. subst len. simpl in *. lia. }
  destruct (py_index_in_range al start_idx) as (v1 & -> & _); [fold len; lia|].
  assert (H2 : exists v2, (if i =? n - 1 then py_index al (-1) else py_index al end_idx)
                          = Some v2).
  { destruct (i =? n - 1).
    - apply py_index_minus_one; assumption.
    - destruct (py_index_in_range al end_idx) as (v & Hv & _); [fold len; lia|eauto]. }
  destruct H2 as (v2 & ->).
  match goal with |- snd (if ?c then _ else _) = true => destruct c; [|reflexivity] end.
  destruct (Z.ltb_spec (end_idx + 1) len) as [Hlt|]; [|reflexivity].
  destruct (py_index_in_range al (end_idx + 1)) as (v3 & -> & _); [fold len; lia|].
  reflexivity.
Qed.

Lemma adapt_loop_rebinned (al : list Z) (n : Z) (bins : list AdaptiveBin.t) :
  forall i, Forall2 (rebinned al) bins (adapt_loop al n i bins).
Proof.
  induction bins as [|b rest IH]; intros i; simpl; [constructor|].
  pose proof (adapt_one_rebinned al n i b) as Hb.
  destruct (adapt_one al n i b) as [b' ok]. simpl in Hb.
  destruct ok.
  - constructor; [exact Hb|apply IH].
  - constructor; [exact Hb|].
    clear. induction rest; constructor; [apply rebinned_refl|assumption].
Qed.

Lemma adapt_bins_rebinned (m : t) (historical_data : list DataPoint) :
  Forall2 (rebinned (map ambient_light historical_data))
    (ambient_bins m) (ambient_bins (adapt_bins m historical_data)).
Proof.
  unfold adapt_bins.
  destruct (Z.of_nat (length historical_data) <? Z.of_nat (length (ambient_bins m)) * 2).
  - induction (ambient_bins m); constructor; [apply rebinned_refl|assumption].
  - simpl. eapply Forall2_impl; [|apply adapt_loop_rebinned].
    intros b b'. apply rebinned_incl. intros x.
    apply Permutation_in. apply sorted_by_perm.
Qed.

Lemma sorted_perm_eq (l1 : list Z) :
  forall l2,
    StronglySorted (key_le (fun a : Z => a)) l1 ->
    StronglySorted (key_le (fun a : Z => a)) l2 ->
    Permutation l1 l2 -> l1 = l2.
Proof.
  induction l1 as [|x l1 IH]; intros l2 H1 H2 Hp.
  - apply Permutation_nil in Hp. congruence.
  - destruct l2 as [|y l2].
    + apply Permutation_sym, Permutation_nil in Hp. discriminate.
    + inversion H1 as [|? ? Hs1 Hall1]; subst. inversion H2 as [|? ? Hs2 Hall2]; subst.
      assert (Hxy : x = y).
      { assert (Hx : In x (y :: l2)) by (eapply Permutation_in; [exact Hp|now left]).
        assert (Hy : In y (x :: l1))
          by (eapply Permutation_in; [apply Permutation_sym; exact Hp|now left]).
        rewrite Forall_forall in Hall1, Hall2. unfold key_le in *.
        destruct Hx as [Hx|Hx]; [congruence|]. destruct Hy as [Hy|Hy]; [congruence|].
        specialize (Hall1 _ Hy). specialize (Hall2 _ Hx). lia. }
      subst y. f_equal. apply IH; auto.
      eapply Permutation_cons_inv; exact Hp.
Qed.

(** X8. [adapt_bins] does not depend on the order of the history: two
    histories with the same observations give the same bins. *)
Theorem adapt_bins_order_independent (m : t) (h h' : list DataPoint) :
  Permutation h h' -> adapt_bins m h = adapt_bins m h'.
Proof.
  intros Hp. unfold adapt_bins.
  rewrite (Permutation_length Hp).
  replace (sorted_by (fun a => a) (map ambient_light h'))
    with (sorted_by (fun a => a) (map ambient_light h)); [reflexivity|].
  apply sorted_perm_eq; try apply sorted_by_sorted.
  rewrite !sorted_by_perm. now apply Permutation_map.
Qed.

Lemma adapt_bins_order_independent_witness :
  Permutation four_points four_points_shuffled /\
  adapt_bins demo_model four_points = adapt_bins demo_model four_points_shuffled.
Proof.
  assert (Hp : Permutation four_points four_points_shuffled) by apply perm_swap.
  split; [exact Hp|exact (adapt_bins_order_independent demo_model _ _ Hp)].
Defined.

End RebinFrame.

(** ** cleanup, composed *)

Section CleanupFurther.
Import EnhancedBrightnessModel.

Lemma filter_filter_impl {A : Type} (p q : A -> bool) (l : list A) :
  (forall x, q x = true -> p x = true) -> filter q (filter p l) = filter q l.
Proof.
  intros Himp. induction l as [|x l IH]; simpl; [reflexivity|].
  destruct (p x) eqn:Hp; simpl.
  - now rewrite IH.
  - destruct (q x) eqn:Hq; [|exact IH]. apply Himp in Hq. congruence.
Qed.

Lemma filter_filter_same {A : Type} (p q : A -> bool) (l : list A) :
  (forall x, p x = true -> q x = true) -> filter q (filter p l) = filter p l.
Proof.
  intros Himp. induction l as [|x l IH]; simpl; [reflexivity|].
  destruct (p x) eqn:Hp; simpl; [|exact IH].
  rewrite (Himp _ Hp). now rewrite IH.
Qed.

Lemma fresh_enough_later (t1 t2 max_age : Z) (p : WeightedDataPoint) :
  t1 <= t2 -> fresh_enough t2 max_age p = true -> fresh_enough t1 max_age p = true.
Proof.
  unfold fresh_enough. intros Ht.
  destruct (Z.gtb_spec (t2 - point_timestamp p) max_age);
    destruct (Z.gtb_spec (t1 - point_timestamp p) max_age); simpl; auto; lia.
Qed.

Lemma AdaptiveBin_cleanup_twice (b : AdaptiveBin.t) (t1 t2 max_age : Z) :
  AdaptiveBin.cleanup (AdaptiveBin.cleanup b t1 max_age) t2 max_age =
  AdaptiveBin.cleanup b (Z.max t1 t2) max_age.
Proof.
  rewrite !AdaptiveBin_cleanup_spec. cbn [AdaptiveBin.points AdaptiveBin.min_value
    AdaptiveBin.max_value AdaptiveBin.max_points].
  assert (E : filter (fresh_enough t2 max_age)
                (filter (fresh_enough t1 max_age) (AdaptiveBin.points b)) =
              filter (fresh_enough (Z.max t1 t2) max_age) (AdaptiveBin.points b)).
  { destruct (Z.max_spec t1 t2) as [(Hlt & ->)|(Hle & ->)].
    - apply filter_filter_impl. intros x. apply fresh_enough_later. lia.
    - apply filter_filter_same. intros x. apply fresh_enough_later. lia. }
  now rewrite E.
Qed.

(** X9. Two cleanups in a row are one cleanup at the later of the two
    times, whatever their order: the samples kept and the recomputed total
    weights are the same.  So a cleanup repeated at the same time changes
    nothing, and a cleanup at an earlier time after a later one changes
    nothing either. *)
Theorem cleanup_twice (m : t) (t1 t2 : Z) :
  cleanup (cleanup m t1) t2 = cleanup m (Z.max t1 t2) /\
  cleanup (cleanup m t1) t1 = cleanup m t1.
Proof.
  assert (H : forall a b, cleanup (cleanup m a) b = cleanup m (Z.max a b)).
  { intros a b. unfold cleanup, set_bins. simpl. f_equal.
    rewrite map_map. apply map_ext. intros x. apply AdaptiveBin_cleanup_twice. }
  split; [apply H|]. rewrite H. now rewrite Z.max_id.
Qed.

End CleanupFurther.

(** ** What every operation keeps *)

Section Invariants.
Import EnhancedBrightnessModel.
Context {P : Platform}.

Lemma update_at_Forall (Q : AdaptiveBin.t -> Prop) (f : AdaptiveBin.t -> AdaptiveBin.t)
    (bins : list AdaptiveBin.t) :
  (forall b, Q b -> Q (f b)) ->
  forall i, Forall Q bins -> Forall Q (update_at bins i f).
Proof.
  intros Hf. induction bins as [|b rest IH]; intros [|i] H; simpl; auto;
    inversion H; subst; constructor; auto.
Qed.

Lemma update_at_map {A : Type} (g : AdaptiveBin.t -> A) (f : AdaptiveBin.t -> AdaptiveBin.t)
    (bins : list AdaptiveBin.t) :
  (forall b, g (f b) = g b) ->
  forall i, map g (update_at bins i f) = map g bins.
Proof.
  intros Hg. induction bins as [|b rest IH]; intros [|i]; cbn [update_at map].
  - reflexivity.
  - reflexivity.
  - now rewrite Hg.
  - now rewrite IH.
Qed.

Lemma train_bounded (m : t) (data_point : DataPoint) (now : Z) (is_active : bool) (m' : t) :
  bounded_model m -> train m data_point now is_active = Ret m' -> bounded_model m'.
Proof.
  intros [Hcap Hwin] H. apply train_cases in H.
  destruct H as [->|(i & w & _ & _ & _ & _ & ->)]; [split; assumption|].
  split; [|exact Hwin]. simpl.
  apply update_at_Forall; [|exact Hcap].
  intros b. apply update_within_capacity.
Qed.

Lemma train_all_bounded (points : list DataPoint) :
  forall m m', bounded_model m -> train_all m points = Ret m' -> bounded_model m'.
Proof.
  induction points as [|p rest IH]; intros m m' Hm; simpl.
  - intros [= <-]. exact Hm.
  - intros H. bind_inv H. eapply IH; [|exact H].
    eapply train_bounded; eassumption.
Qed.

Lemma cleanup_bounded (m : t) (now : Z) : bounded_model m -> bounded_model (cleanup m now).
Proof.
  intros [Hcap Hwin]. split; [|exact Hwin]. simpl.
  apply Forall_map. eapply Forall_impl; [|exact Hcap].
  intros b Hb. rewrite AdaptiveBin_cleanup_spec. unfold within_capacity in *. simpl.
  pose proof (filter_length_le (fresh_enough now (max_age_seconds m)) (AdaptiveBin.points b)).
  lia.
Qed.

Lemma adapt_bins_bounded (m : t) (historical_data : list DataPoint) :
  bounded_model m -> bounded_model (adapt_bins m historical_data).
Proof.
  intros [Hcap Hwin].
  destruct (adapt_bins_parameters m historical_data) as (_ & _ & _ & _ & Hw).
  split; [|rewrite Hw; exact Hwin].
  pose proof (adapt_bins_rebinned m historical_data) as H.
  induction H as [|b b' bins bins' Hb _ IH]; [constructor|].
  inversion Hcap; subst. constructor; [|apply IH; assumption].
  destruct Hb as (Hp & _ & Hc & _). unfold within_capacity in *. rewrite Hp, Hc. assumption.
Qed.

Lemma predict_bounded (m : t) (ambient ts : Z) (is_active : bool) (r : option float) (m' : t) :
  bounded_model m -> predict m ambient ts is_active = Ret (r, m') -> bounded_model m'.
Proof.
  intros [Hcap Hwin] H. apply predict_cases in H.
  destruct H as [(_ & ->)|(v & x & _ & _ & ->)]; [split; assumption|].
  split; [exact Hcap|]. simpl. apply length_deque_append.
Qed.

(** X10. Capacity and window are invariants of the model: if every bin
    holds at most [max_points] samples and the smoothing window at most
    three predictions, the same is true after [train], [cleanup],
    [adapt_bins], [predict] and [load_historical_data], whatever their
    arguments. *)
Theorem operations_keep_capacity_and_window (m : t) :
  bounded_model m ->
  (forall data_point now is_active m',
     train m data_point now is_active = Ret m' -> bounded_model m') /\
  (forall now, bounded_model (cleanup m now)) /\
  (forall historical_data, bounded_model (adapt_bins m historical_data)) /\
  (forall ambient ts is_active r m',
     predict m ambient ts is_active = Ret (r, m') -> bounded_model m') /\
  (forall data_points now is_active m',
     load_historical_data m data_points now is_active = Ret m' -> bounded_model m').
Proof.
  intros Hm.
  split; [intros p now act m'; apply train_bounded; exact Hm|].
  split; [intros now; apply cleanup_bounded; exact Hm|].
  split; [intros h; apply adapt_bins_bounded; exact Hm|].
  split; [intros a ts act r m'; apply predict_bounded; exact Hm|].
  intros h now act m'. unfold load_historical_data.
  apply train_all_bounded. apply adapt_bins_bounded. exact Hm.
Qed.

Lemma train_bounds (m : t) (data_point : DataPoint) (now : Z) (is_active : bool) (m' : t) :
  train m data_point now is_active = Ret m' -> bounds m' = bounds m.
Proof.
  intros H. apply train_cases in H.
  destruct H as [->|(i & w & _ & _ & _ & _ & ->)]; [reflexivity|].
  unfold bounds. simpl. apply update_at_map. intros b.
  destruct (update_bounds b (screen_brightness data_point) w (timestamp data_point))
    as (-> & -> & _).
  reflexivity.
Qed.

Lemma train_all_bounds (points : list DataPoint) :
  forall m m', train_all m points = Ret m' -> bounds m' = bounds m.
Proof.
  induction points as [|p rest IH]; intros m m'; simpl.
  - intros [= <-]. reflexivity.
  - intros H. bind_inv H. rewrite (IH _ _ H). eapply train_bounds; eassumption.
Qed.

(** X11. Only [adapt_bins] moves the bounds of the bins: [cleanup] and
    [predict] keep every bound, and so does the training loop of
    [load_historical_data], whose result has the bounds that [adapt_bins]
    alone gives on the same history. *)
Theorem only_adapt_bins_moves_bounds (m : t) :
  (forall now, bounds (cleanup m now) = bounds m) /\
  (forall ambient ts is_active r m',
     predict m ambient ts is_active = Ret (r, m') -> bounds m' = bounds m) /\
  (forall data_points now is_active m',
     load_historical_data m data_points now is_active = Ret m' ->
     bounds m' = bounds (adapt_bins m data_points)).
Proof.
  split; [|split].
  - intros now. unfold bounds, cleanup. simpl. rewrite map_map. apply map_ext.
    intros b. now rewrite AdaptiveBin_cleanup_spec.
  - intros a ts act r m' H. apply predict_cases in H.
    destruct H as [(_ & ->)|(v & x & _ & _ & ->)]; reflexivity.
  - intros h now act m'. unfold load_historical_data. apply train_all_bounds.
Qed.

End Invariants.

Section InvariantsRun.
Import EnhancedBrightnessModel.

Lemma operations_keep_capacity_and_window_witness :
  bounded_model trained_model /\ bounded_model (cleanup trained_model (noon + 1)).
Proof.
  assert (H : bounded_model trained_model).
  { split; [|simpl; lia].
    repeat constructor; unfold within_capacity; simpl; lia. }
  split; [exact H|].
  exact (proj1 (proj2 (@operations_keep_capacity_and_window utc trained_model H)) (noon + 1)).
Defined.

End InvariantsRun.

(** ** predict: when it is absent, and which neighbour it asks *)

Section PredictFurther.
Import EnhancedBrightnessModel.
Context {P : Platform}.

Lemma get_weighted_average_None (b : AdaptiveBin.t) :
  AdaptiveBin.get_weighted_average b = Ret None <-> no_average b.
Proof.
  unfold AdaptiveBin.get_weighted_average, no_average.
  destruct (AdaptiveBin.points b) as [|p0 rest] eqn:Epts; [split; auto|].
  destruct (PrimFloat.eqb (AdaptiveBin.total_weight b) 0) eqn:Hz; [split; auto|].
  split.
  - destruct (AdaptiveBin.weighted_sum (p0 :: rest) 0) as [s|e]; simpl; [|discriminate].
    rewrite (float_div_nonzero _ _ Hz). simpl. discriminate.
  - intros [H|H]; discriminate.
Qed.

Lemma average_at_None (bins : list AdaptiveBin.t) (idx : Z) :
  0 <= idx < Z.of_nat (length bins) ->
  average_at bins idx = Ret None ->
  exists b, nth_error bins (Z.to_nat idx) = Some b /\ no_average b.
Proof.
  intros Hidx. unfold average_at, py_index.
  destruct (Z.leb_spec 0 idx); [|lia].
  destruct (Z.ltb_spec idx (Z.of_nat (length bins))); [|lia]. simpl.
  destruct (nth_error bins (Z.to_nat idx)) as [b|]; [|discriminate].
  intros Hnone. exists b. split; [reflexivity|]. now apply get_weighted_average_None.
Qed.

Lemma average_at_no_average (bins : list AdaptiveBin.t) (idx : Z) :
  Forall no_average bins ->
  0 <= idx < Z.of_nat (length bins) ->
  average_at bins idx = Ret None.
Proof.
  intros Hall Hidx. unfold average_at, py_index.
  destruct (Z.leb_spec 0 idx); [|lia].
  destruct (Z.ltb_spec idx (Z.of_nat (length bins))); [|lia]. simpl.
  destruct (nth_error bins (Z.to_nat idx)) as [b|] eqn:E.
  - rewrite Forall_forall in Hall. apply nth_error_In in E.
    apply get_weighted_average_None. auto.
  - apply nth_error_None in E. lia.
Qed.

Lemma search_neighbours_no_average (bins : list AdaptiveBin.t) (main_bin_index : Z)
    (offsets : list Z) :
  Forall no_average bins ->
  0 <= main_bin_index < Z.of_nat (length bins) ->
  Forall (fun d => 0 <= d) offsets ->
  search_neighbours bins main_bin_index offsets = Ret None.
Proof.
  intros Hall Hmain. induction 1 as [|d rest Hd _ IH]; simpl; [reflexivity|].
  destruct (Z.geb_spec (main_bin_index - d) 0);
    [rewrite average_at_no_average by (auto; lia)|]; simpl;
    (destruct (Z.ltb_spec (main_bin_index + d) (Z.of_nat (length bins)));
     [rewrite average_at_no_average by (auto; lia)|]; simpl; exact IH).
Qed.

(** One round of the neighbour search, by what the two sides give. *)
Lemma search_neighbours_step (bins : list AdaptiveBin.t) (main_bin_index d : Z)
    (rest : list Z) (r : option float) :
  search_neighbours bins main_bin_index (d :: rest) = Ret r ->
  (exists v, r = Some v /\ 0 <= main_bin_index - d /\
             average_at bins (main_bin_index - d) = Ret (Some v)) \/
  (exists v, r = Some v /\ lower_silent bins main_bin_index d /\
             main_bin_index + d < Z.of_nat (length bins) /\
             average_at bins (main_bin_index + d) = Ret (Some v)) \/
  (lower_silent bins main_bin_index d /\ upper_silent bins main_bin_index d /\
   search_neighbours bins main_bin_index rest = Ret r).
Proof.
  cbn [search_neighbours]. unfold lower_silent, upper_silent.
  intros H. bind_inv H.
  assert (Hlow : (exists v, a = Some v /\ 0 <= main_bin_index - d /\
                            average_at bins (main_bin_index - d) = Ret (Some v)) \/
                 (a = None /\ (main_bin_index - d < 0 \/
                               average_at bins (main_bin_index - d) = Ret None))).
  { destruct (Z.geb_spec (main_bin_index - d) 0).
    - destruct a as [v|]; [left; exists v; repeat split; auto; lia|right; auto].
    - injection Ha as <-. right. split; [reflexivity|left; lia]. }
  clear Ha. destruct Hlow as [(v & -> & Hge & E)|(-> & Hlow)].
  - injection H as <-. left. eauto.
  - bind_inv H.
    assert (Hup : (exists v, a = Some v /\ main_bin_index + d < Z.of_nat (length bins) /\
                             average_at bins (main_bin_index + d) = Ret (Some v)) \/
                  (a = None /\ (Z.of_nat (length bins) <= main_bin_index + d \/
                                average_at bins (main_bin_index + d) = Ret None))).
    { destruct (Z.ltb_spec (main_bin_index + d) (Z.of_nat (length bins))).
      - destruct a as [v|]; [left; exists v; repeat split; auto|right; auto].
      - injection Ha as <-. right. split; [reflexivity|left; lia]. }
    clear Ha. destruct Hup as [(v & -> & Hlt & E)|(-> & Hup)].
    + injection H as <-. right. left. exists v. auto.
    + right. right. auto.
Qed.

Lemma search_neighbours_None (bins : list AdaptiveBin.t) (main_bin_index : Z) :
  forall offsets,
    search_neighbours bins main_bin_index offsets = Ret None ->
    forall d, In d offsets ->
              lower_silent bins main_bin_index d /\ upper_silent bins main_bin_index d.
Proof.
  induction offsets as [|d0 rest IH]; intros H d Hd; [contradiction|].
  apply search_neighbours_step in H.
  destruct H as [(v & Hv & _)|[(v & Hv & _)|(Hlow & Hup & H)]]; try discriminate.
  destruct Hd as [<-|Hd]; [split; assumption|]. apply IH; assumption.
Qed.

Lemma search_neighbours_Some (bins : list AdaptiveBin.t) (main_bin_index : Z) (v : float) :
  forall offsets,
    search_neighbours bins main_bin_index offsets = Ret (Some v) ->
    exists k d,
      nth_error offsets k = Some d /\
      (forall j d', (j < k)%nat -> nth_error offsets j = Some d' ->
                    lower_silent bins main_bin_index d' /\
                    upper_silent bins main_bin_index d') /\
      ((0 <= main_bin_index - d /\
        average_at bins (main_bin_index - d) = Ret (Some v)) \/
       (lower_silent bins main_bin_index d /\
        main_bin_index + d < Z.of_nat (length bins) /\
        average_at bins (main_bin_index + d) = Ret (Some v))).
Proof.
  induction offsets as [|d0 rest IH]; intros H; [discriminate|].
  apply search_neighbours_step in H.
  destruct H as [(v' & [= <-] & Hge & E)|[(v' & [= <-] & Hlow & Hlt & E)|(Hlow & Hup & H)]].
  - exists 0%nat, d0. split; [reflexivity|]. split; [intros j d' Hj; lia|]. left. auto.
  - exists 0%nat, d0. split; [reflexivity|]. split; [intros j d' Hj; lia|]. right. auto.
  - destruct (IH H) as (k & d & Hk & Hpre & Hfound).
    exists (S k), d. split; [exact Hk|]. split; [|exact Hfound].
    intros [|j] d'; simpl.
    + intros _ [= <-]. split; assumption.
    + intros Hj. apply Hpre. lia.
Qed.

Lemma nth_error_range_from (a b : Z) (k : nat) :
  (k < Z.to_nat (b - a))%nat -> nth_error (range_from a b) k = Some (a + Z.of_nat k).
Proof.
  intros Hk. unfold range_from.
  rewrite nth_error_map, nth_error_nth' with (d := 0%nat) by (rewrite length_seq; lia).
  rewrite seq_nth by lia. reflexivity.
Qed.

Lemma length_range_from (a b : Z) : length (range_from a b) = Z.to_nat (b - a).
Proof. unfold range_from. now rewrite length_map, length_seq. Qed.

(** On bins that give no average, [predict] is absent for every ambient
    value that converts. *)
Lemma predict_no_average (m : t) (ambient ts : Z) (is_active : bool) :
  Forall no_average (ambient_bins m) ->
  fits_float ambient ->
  predict m ambient ts is_active = Ret (None, m).
Proof.
  intros Hall Hfit. destruct (float_of_int_fits _ Hfit) as (f & Hf).
  unfold predict. rewrite Hf. simpl.
  destruct (find_main_bin (ambient_bins m) 0 f) as [[i b]|] eqn:Hfind; [|reflexivity].
  apply find_main_bin_spec in Hfind. destruct Hfind as [Hi Hnth].
  rewrite Nat.sub_0_r in Hnth. simpl in Hi.
  unfold main_prediction.
  assert (Hb : AdaptiveBin.get_weighted_average b = Ret None).
  { apply get_weighted_average_None. rewrite Forall_forall in Hall.
    eapply Hall, nth_error_In, Hnth. }
  rewrite Hb. simpl.
  rewrite search_neighbours_no_average; auto; [lia|].
  apply range_from_nonneg. lia.
Qed.

(** X12. [predict] gives the absent result in two cases only: no bin
    matches the ambient value, or no bin at all can give an average (each
    is empty or has a total weight equal to zero); and in both it does. *)
Theorem predict_absent_iff (m : t) (ambient ts : Z) (is_active : bool)
    (current_ambient : float) :
  float_of_int ambient = Ret current_ambient ->
  (predict m ambient ts is_active = Ret (None, m) <->
   find_main_bin (ambient_bins m) 0 current_ambient = None \/
   Forall no_average (ambient_bins m)).
Proof.
  intros Hf. unfold predict. rewrite Hf. simpl.
  destruct (find_main_bin (ambient_bins m) 0 current_ambient) as [[i b]|] eqn:Hfind;
    [|split; auto].
  apply find_main_bin_spec in Hfind. destruct Hfind as [Hi Hnth].
  rewrite Nat.sub_0_r in Hnth. simpl in Hi.
  split.
  - intros H. right. bind_inv H. destruct a as [mp|].
    { bind_inv H. bind_inv H. bind_inv H. discriminate. }
    clear H. unfold main_prediction in Ha. bind_inv Ha.
    destruct a as [v|]; [discriminate|].
    apply get_weighted_average_None in Ha0.
    pose proof (search_neighbours_None _ _ _ Ha) as Hsil.
    apply Forall_forall. intros x Hx.
    apply In_nth_error in Hx. destruct Hx as (j & Hj).
    assert (Hjl : (j < length (ambient_bins m))%nat) by (apply nth_error_Some; congruence).
    destruct (Nat.eq_dec j i) as [->|Hne]; [congruence|].
    set (d := Z.abs (Z.of_nat j - Z.of_nat i)).
    assert (Hd : In d (range_from 1 (Z.of_nat (length (ambient_bins m))))).
    { replace d with (1 + Z.of_nat (Z.to_nat (d - 1))) by (subst d; lia).
      eapply nth_error_In. apply nth_error_range_from. subst d. lia. }
    destruct (Hsil d Hd) as [Hlow Hup].
    destruct (Z.lt_ge_cases (Z.of_nat j) (Z.of_nat i)) as [Hlt|Hge].
    + destruct Hlow as [Hlow|Hlow]; [subst d; lia|].
      apply average_at_None in Hlow; [|subst d; lia].
      destruct Hlow as (b' & Hb' & Hno).
      replace (Z.to_nat (Z.of_nat i - d)) with j in Hb' by (subst d; lia).
      congruence.
    + destruct Hup as [Hup|Hup]; [subst d; lia|].
      apply average_at_None in Hup; [|subst d; lia].
      destruct Hup as (b' & Hb' & Hno).
      replace (Z.to_nat (Z.of_nat i + d)) with j in Hb' by (subst d; lia).
      congruence.
  - intros [H|Hall]; [discriminate|].
    unfold main_prediction.
    assert (Hb : AdaptiveBin.get_weighted_average b = Ret None).
    { apply get_weighted_average_None. rewrite Forall_forall in Hall.
      eapply Hall, nth_error_In, Hnth. }
    rewrite Hb. simpl.
    rewrite search_neighbours_no_average; auto; [lia|].
    apply range_from_nonneg. lia.
Qed.

(** X13. When the main bin gives no average, [predict] takes the average
    of the nearest bin that gives one: at the smallest distance [d] from
    the main bin at which a bin gives an average, and of the lower bin
    when both bins at that distance do.  Every bin nearer than [d], on
    either side, gives none. *)
Theorem main_prediction_nearest (bins : list AdaptiveBin.t) (main_bin : AdaptiveBin.t)
    (main_bin_index : Z) (v : float) :
  main_prediction bins main_bin main_bin_index = Ret (Some v) ->
  AdaptiveBin.get_weighted_average main_bin = Ret (Some v) \/
  (no_average main_bin /\
   exists d,
     1 <= d < Z.of_nat (length bins) /\
     (forall d', 1 <= d' < d ->
                 lower_silent bins main_bin_index d' /\ upper_silent bins main_bin_index d') /\
     ((0 <= main_bin_index - d /\
       average_at bins (main_bin_index - d) = Ret (Some v)) \/
      (lower_silent bins main_bin_index d /\
       main_bin_index + d < Z.of_nat (length bins) /\
       average_at bins (main_bin_index + d) = Ret (Some v)))).
Proof.
  unfold main_prediction. intros H. bind_inv H.
  destruct a as [v'|]; [injection H as <-; left; exact Ha|].
  right. split; [now apply get_weighted_average_None|].
  apply search_neighbours_Some in H. destruct H as (k & d & Hk & Hpre & Hfound).
  assert (Hkl : (k < Z.to_nat (Z.of_nat (length bins) - 1))%nat).
  { rewrite <- length_range_from. apply nth_error_Some. congruence. }
  rewrite nth_error_range_from in Hk by exact Hkl. injection Hk as <-.
  exists (1 + Z.of_nat k). split; [lia|]. split; [|exact Hfound].
  intros d' Hd'. apply (Hpre (Z.to_nat (d' - 1))); [lia|].
  rewrite nth_error_range_from by lia. f_equal. lia.
Qed.

End PredictFurther.

Section PredictFurtherRun.
Import EnhancedBrightnessModel.

Lemma predict_absent_iff_witness :
  float_of_int 10 = Ret 10%float /\
  @predict utc demo_model 10 noon true = Ret (None, demo_model).
Proof.
  assert (Hf : float_of_int 10 = Ret 10%float) by (vm_compute; reflexivity).
  split; [exact Hf|].
  apply (proj2 (@predict_absent_iff utc demo_model 10 noon true 10%float Hf)).
  right. repeat constructor.
Defined.

Lemma main_prediction_nearest_witness :
  main_prediction (ambient_bins trained_model) (AdaptiveBin.mk 50 100 [] 0%float 50) 1
    = Ret (Some 20%float) /\
  no_average (AdaptiveBin.mk 50 100 [] 0%float 50).
Proof.
  assert (H : main_prediction (ambient_bins trained_model)
                (AdaptiveBin.mk 50 100 [] 0%float 50) 1 = Ret (Some 20%float))
    by (vm_compute; reflexivity).
  split; [exact H|].
  destruct (main_prediction_nearest _ _ _ _ H) as [Hmain|[Hno _]].
  - vm_compute in Hmain. discriminate.
  - exact Hno.
Defined.

End PredictFurtherRun.

(** ** cleanup of a model whose samples are all stale *)

Section CleanupAll.
Import EnhancedBrightnessModel.
Context {P : Platform}.

Lemma filter_none {A : Type} (p : A -> bool) (l : list A) :
  (forall x, In x l -> p x = false) -> filter p l = [].
Proof.
  induction l as [|x l IH]; intros H; simpl; [reflexivity|].
  rewrite (H x (or_introl eq_refl)). apply IH. intros y Hy. apply H. now right.
Qed.

(** X14. A cleanup at a time when every stored sample is older than
    [max_age_seconds] leaves every bin empty with a total weight of exactly
    0, bounds and capacity as before; [predict] then gives the absent
    result for every ambient value that converts to a float, and leaves
    the model as it is. *)
Theorem cleanup_all_stale (m : t) (now : Z) :
  all_stale m now ->
  ambient_bins (cleanup m now) =
    map (fun b => AdaptiveBin.mk (AdaptiveBin.min_value b) (AdaptiveBin.max_value b)
                    [] 0%float (AdaptiveBin.max_points b))
        (ambient_bins m) /\
  (forall ambient ts is_active,
     fits_float ambient ->
     predict (cleanup m now) ambient ts is_active = Ret (None, cleanup m now)).
Proof.
  intros Hstale.
  assert (Hbins : ambient_bins (cleanup m now) =
                  map (fun b => AdaptiveBin.mk (AdaptiveBin.min_value b)
                                  (AdaptiveBin.max_value b) [] 0%float
                                  (AdaptiveBin.max_points b))
                      (ambient_bins m)).
  { unfold cleanup. simpl. apply map_ext_in. intros b Hb.
    rewrite AdaptiveBin_cleanup_spec.
    rewrite filter_none; [reflexivity|].
    intros s Hs. unfold fresh_enough.
    specialize (Hstale b s Hb Hs).
    destruct (Z.gtb_spec (now - point_timestamp s) (max_age_seconds m)); [reflexivity|lia]. }
  split; [exact Hbins|].
  intros ambient ts is_active Hfit.
  apply predict_no_average; [|exact Hfit].
  rewrite Hbins. apply Forall_map. apply Forall_forall.
  intros b _. left. reflexivity.
Qed.

End CleanupAll.

Section CleanupAllRun.
Import EnhancedBrightnessModel.

Lemma cleanup_all_stale_witness :
  all_stale trained_model (noon + 604801) /\
  @predict utc (cleanup trained_model (noon + 604801)) 10 noon true =
    Ret (None, cleanup trained_model (noon + 604801)).
Proof.
  assert (H : all_stale trained_model (noon + 604801)).
  { intros b s Hb Hs. unfold trained_model in Hb. cbn [ambient_bins] in Hb.
    destruct Hb as [<-|[<-|[]]]; cbn [AdaptiveBin.points] in Hs.
    - destruct Hs as [<-|[]].
      cbn [point_timestamp max_age_seconds trained_model]. unfold noon. lia.
    - destruct Hs. }
  split; [exact H|].
  apply (proj2 (@cleanup_all_stale utc trained_model (noon + 604801) H)).
  unfold fits_float, float_max_int. simpl Z.abs. lia.
Defined.

End CleanupAllRun.

(** ** train: the outlier filter, the automatic observations, the exceptions *)

Section TrainFilters.
Import EnhancedBrightnessModel.
Context {P : Platform}.

(** X15. The outlier filter can lock the model.  When the model holds a
    sample with a timestamp of 0 or more, and the brightness of the new
    observation differs by more than 80 from that of every latest sample
    (every sample whose timestamp no other exceeds), [train] leaves the
    model as it is, at every time and activity. *)
Theorem train_rejects_brightness_jump (m : t) (data_point : DataPoint) :
  (exists b s, In b (ambient_bins m) /\ In s (AdaptiveBin.points b) /\
               0 <= point_timestamp s) ->
  (forall b s,
     In b (ambient_bins m) -> In s (AdaptiveBin.points b) ->
     (forall b' s', In b' (ambient_bins m) -> In s' (AdaptiveBin.points b') ->
                    point_timestamp s' <= point_timestamp s) ->
     80 < Z.abs (screen_brightness data_point - brightness s)) ->
  forall now is_active, train m data_point now is_active = Ret m.
Proof.
  intros (b0 & s0 & Hb0 & Hs0 & Hts0) Hjump now is_active.
  unfold train. destruct (is_manual_adjustment data_point); simpl; [|reflexivity].
  unfold _find_last_point_in_bins.
  destruct (find_last_loop_spec (ambient_bins m) (-1) None)
    as [[E Hall]|(b & s & Hb & Hs & E & Hlt & Hall)]; rewrite E.
  - specialize (Hall b0 s0 Hb0 Hs0). lia.
  - specialize (Hjump b s Hb Hs Hall).
    unfold _is_outlier. cbn [screen_brightness].
    destruct (Z.gtb_spec (Z.abs (screen_brightness data_point - brightness s)) 80);
      [reflexivity|lia].
Qed.

Lemma train_all_automatic (points : list DataPoint) :
  Forall (fun p => is_manual_adjustment p = false) points ->
  forall m, train_all m points = Ret m.
Proof.
  induction 1 as [|p rest Hp _ IH]; intros m; simpl; [reflexivity|].
  unfold train. rewrite Hp. simpl. apply IH.
Qed.

Lemma train_weight_raise (m : t) (data_point : DataPoint) (now : Z) (is_active : bool)
    (e : exn) :
  train_weight m data_point now is_active = Raise e ->
  localtime_tm_hour now = Raise e \/
  localtime_tm_hour (timestamp data_point) = Raise e \/
  (e = OverflowError /\
   (~ fits_float (Z.max 0 (now - timestamp data_point)) \/
    ~ fits_float (max_age_seconds m))) \/
  (e = ZeroDivisionError /\
   exists f, float_of_int (max_age_seconds m) = Ret f /\ PrimFloat.eqb f 0 = true).
Proof.
  unfold train_weight, TimeFeatures.from_timestamp.
  destruct (localtime_tm_hour now) as [h1|e1]; simpl; [|intros [= <-]; auto].
  destruct (localtime_tm_hour (timestamp data_point)) as [h2|e2]; simpl;
    [|intros [= <-]; auto].
  unfold _calculate_weight, age_factor.
  destruct (float_of_int (Z.max 0 (now - timestamp data_point))) as [fd|e3] eqn:E3; simpl.
  - destruct (float_of_int (max_age_seconds m)) as [fa|e4] eqn:E4; simpl.
    + unfold float_div. destruct (PrimFloat.eqb fa 0) eqn:Hz; simpl; [|discriminate].
      intros [= <-]. right. right. right. split; [reflexivity|]. exists fa. auto.
    + intros [= <-]. apply float_of_int_raise in E4. destruct E4 as [-> Hn].
      right. right. left. auto.
  - intros [= <-]. apply float_of_int_raise in E3. destruct E3 as [-> Hn].
    right. right. left. auto.
Qed.

End TrainFilters.

Section TrainFiltersRun.
Import EnhancedBrightnessModel.

Lemma train_rejects_brightness_jump_witness :
  @train utc trained_model jump_point (noon + 60) true = Ret trained_model.
Proof.
  apply (@train_rejects_brightness_jump utc trained_model jump_point).
  - exists (AdaptiveBin.mk 0 50 [mkWeightedDataPoint 20 1 noon] 1%float 50),
           (mkWeightedDataPoint 20 1 noon).
    split; [now left|]. split; [now left|]. cbn [point_timestamp]. unfold noon. lia.
  - intros b s Hb Hs _. unfold trained_model in Hb. cbn [ambient_bins] in Hb.
    destruct Hb as [<-|[<-|[]]]; cbn [AdaptiveBin.points] in Hs.
    + destruct Hs as [<-|[]]. cbn [brightness screen_brightness jump_point]. lia.
    + destruct Hs.
Defined.

End TrainFiltersRun.

(** ** _nonlinear_map: the guards *)

Section NonlinearMapFacts.
Variable math_exp : float -> exc float.

Lemma scaled_ambient_clamped (ambient : Z) (v : float) :
  scaled_ambient ambient = Ret v ->
  PrimFloat.leb (-700) v = true /\ PrimFloat.leb v 700 = true.
Proof.
  unfold scaled_ambient. intros H. bind_inv H. injection H as <-.
  set (x := PrimFloat.div (PrimFloat.opp a) 300).
  unfold py_min. destruct (PrimFloat.ltb x 700) eqn:Hx.
  - unfold py_max. destruct (PrimFloat.ltb (-700) x) eqn:Hx'.
    + split; apply ltb_leb; assumption.
    + split; vm_compute; reflexivity.
  - split; vm_compute; reflexivity.
Qed.

(** X18. The guards of [_nonlinear_map], whatever [math.exp] does: the
    argument it passes to [math.exp] lies from -700 to 700; it never
    raises [OverflowError]; for an ambient value too large to convert to a
    float it returns 0.0 when the value is negative and 1.0 otherwise,
    without a call of [math.exp]; and when [math.exp] returns [e] with
    [1.0 + e] not zero, the result is [1.0 / (1.0 + e)]. *)
Theorem nonlinear_map_guards (ambient : Z) :
  (forall v, scaled_ambient ambient = Ret v ->
             PrimFloat.leb (-700) v = true /\ PrimFloat.leb v 700 = true) /\
  _nonlinear_map math_exp ambient <> Raise OverflowError /\
  (~ fits_float ambient ->
   scaled_ambient ambient = Raise OverflowError /\
   _nonlinear_map math_exp ambient = Ret (if ambient <? 0 then 0%float else 1%float)) /\
  (forall v e,
     scaled_ambient ambient = Ret v -> math_exp v = Ret e ->
     PrimFloat.eqb (PrimFloat.add 1 e) 0 = false ->
     _nonlinear_map math_exp ambient = Ret (PrimFloat.div 1 (PrimFloat.add 1 e))).
Proof.
  split; [intros v; apply scaled_ambient_clamped|].
  split; [|split].
  - unfold _nonlinear_map.
    destruct (scaled_ambient_ <- scaled_ambient ambient ;;
              e <- math_exp scaled_ambient_ ;;
              float_div 1 (PrimFloat.add 1 e)) as [r|[]]; discriminate.
  - intros Hfit.
    assert (E : scaled_ambient ambient = Raise OverflowError).
    { unfold scaled_ambient, float_of_int, fits_float in *.
      destruct (Z.ltb_spec (Z.abs ambient) float_max_int); [lia|reflexivity]. }
    split; [exact E|]. unfold _nonlinear_map. rewrite E. reflexivity.
  - intros v e Hv He Hz. unfold _nonlinear_map. rewrite Hv. cbn [bind]. rewrite He.
    cbn [bind]. rewrite (float_div_nonzero _ _ Hz). reflexivity.
Qed.

End NonlinearMapFacts.

(** ** The messages: what they raise, and that they change no result *)

Section MessagesFacts.
Import EnhancedBrightnessModel.

Lemma str_int_cases (z : Z) :
  (printable z /\ str_int z = Ret tt) \/ (~ printable z /\ str_int z = Raise ValueError).
Proof.
  unfold printable, str_int.
  destruct (Z.ltb_spec (Z.abs z) (10 ^ int_max_str_digits)); [left|right]; split; auto; lia.
Qed.

(** An integer that [float] accepts formats: the message of [predict]
    cannot raise. *)
Lemma fits_float_printable (z : Z) : fits_float z -> printable z.
Proof.
  unfold fits_float, printable, float_max_int, int_max_str_digits. intros H.
  assert (H1 : 2 ^ 1024 - 2 ^ 970 < 2 ^ 1024).
  { assert (0 < 2 ^ 970) by (apply Z.pow_pos_nonneg; [reflexivity|discriminate]).
    apply Z.lt_sub_pos. assumption. }
  assert (H2 : 2 ^ 1024 < 2 ^ 4300)
    by (apply Z.pow_lt_mono_r; [reflexivity|discriminate|reflexivity]).
  assert (H3 : 2 ^ 4300 <= 10 ^ 4300)
    by (apply Z.pow_le_mono_l; split; discriminate).
  eapply Z.lt_le_trans; [|exact H3].
  eapply Z.lt_trans; [|exact H2].
  eapply Z.lt_trans; [exact H|exact H1].
Qed.

Lemma str_DataPoint_cases (data_point : DataPoint) :
  (printable (timestamp data_point) /\ printable (ambient_light data_point) /\
   printable (screen_brightness data_point) /\ str_DataPoint data_point = Ret tt) \/
  ((~ printable (timestamp data_point) \/ ~ printable (ambient_light data_point) \/
    ~ printable (screen_brightness data_point)) /\
   str_DataPoint data_point = Raise ValueError).
Proof.
  unfold str_DataPoint.
  destruct (str_int_cases (timestamp data_point)) as [[H1 ->]|[H1 ->]];
    [|right; split; auto].
  destruct (str_int_cases (ambient_light data_point)) as [[H2 ->]|[H2 ->]];
    [|right; split; auto].
  destruct (str_int_cases (screen_brightness data_point)) as [[H3 E]|[H3 E]].
  - left. auto.
  - right. split; auto.
Qed.

Lemma warn_degenerate_cases (b : AdaptiveBin.t) :
  WithMessages.warn_degenerate b = Ret (b, true) \/
  (WithMessages.warn_degenerate b = Raise ValueError /\
   AdaptiveBin.max_value b <= AdaptiveBin.min_value b /\
   (~ printable (AdaptiveBin.min_value b) \/ ~ printable (AdaptiveBin.max_value b))).
Proof.
  unfold WithMessages.warn_degenerate.
  destruct (Z.geb_spec (AdaptiveBin.min_value b) (AdaptiveBin.max_value b)); [|auto].
  destruct (str_int_cases (AdaptiveBin.min_value b)) as [[H1 ->]|[H1 ->]];
    [|right; split; [reflexivity|split; [lia|auto]]].
  destruct (str_int_cases (AdaptiveBin.max_value b)) as [[H2 ->]|[H2 ->]];
    [left; reflexivity|right; split; [reflexivity|split; [lia|auto]]].
Qed.

(** A round with its message returns what the round without it gives, or
    raises the [ValueError] of the warning: the bin is not the last, its
    range after the round is empty and one of its bounds, both values of
    the history, does not format. *)
Lemma adapt_one_messages (al : list Z) (n i : Z) (b : AdaptiveBin.t) :
  WithMessages.adapt_one al n i b = Ret (adapt_one al n i b) \/
  (WithMessages.adapt_one al n i b = Raise ValueError /\
   i < n - 1 /\
   AdaptiveBin.max_value (fst (adapt_one al n i b))
     <= AdaptiveBin.min_value (fst (adapt_one al n i b)) /\
   exists x, In x al /\ ~ printable x).
Proof.
  unfold WithMessages.adapt_one, adapt_one.
  destruct ((i * Z.of_nat (length al) / n >=? Z.of_nat (length al))
            || (Z.min ((i + 1) * Z.of_nat (length al) / n - 1) (Z.of_nat (length al) - 1) <? 0)
            || (i * Z.of_nat (length al) / n
                >? Z.min ((i + 1) * Z.of_nat (length al) / n - 1) (Z.of_nat (length al) - 1)));
    [left; reflexivity|].
  destruct (py_index al (i * Z.of_nat (length al) / n)) as [new_min|] eqn:E1;
    [|left; reflexivity].
  apply py_index_In in E1.
  destruct (if i =? n - 1 then py_index al (-1)
            else py_index al (Z.min ((i + 1) * Z.of_nat (length al) / n - 1)
                                (Z.of_nat (length al) - 1))) as [new_max|] eqn:E2;
    [|left; reflexivity].
  assert (Hmax : In new_max al).
  { destruct (i =? n - 1); eapply py_index_In; exact E2. }
  clear E2. cbv zeta.
  destruct (AdaptiveBin.min_value (set_max_value (set_min_value b new_min) new_max)
            >=? AdaptiveBin.max_value (set_max_value (set_min_value b new_min) new_max));
    cbn [andb]; [|left; reflexivity].
  destruct (Z.ltb_spec i (n - 1)) as [Hi|Hi]; [|left; reflexivity].
  destruct (Z.min ((i + 1) * Z.of_nat (length al) / n - 1) (Z.of_nat (length al) - 1) + 1
            <? Z.of_nat (length al)).
  - destruct (py_index al (Z.min ((i + 1) * Z.of_nat (length al) / n - 1)
                             (Z.of_nat (length al) - 1) + 1)) as [new_max'|] eqn:E3;
      [|left; reflexivity].
    apply py_index_In in E3.
    destruct (warn_degenerate_cases
                (set_max_value (set_max_value (set_min_value b new_min) new_max) new_max'))
      as [->|(-> & Hdeg & Hnp)]; [left; reflexivity|].
    right. split; [reflexivity|]. split; [exact Hi|]. split; [exact Hdeg|].
    simpl in Hnp. destruct Hnp; eauto.
  - destruct (warn_degenerate_cases (set_max_value (set_min_value b new_min) new_max))
      as [->|(-> & Hdeg & Hnp)]; [left; reflexivity|].
    right. split; [reflexivity|]. split; [exact Hi|]. split; [exact Hdeg|].
    simpl in Hnp. destruct Hnp; eauto.
Qed.

Lemma adapt_loop_messages (al : list Z) (n : Z) (bins : list AdaptiveBin.t) :
  forall i,
    WithMessages.adapt_loop al n i bins = Ret (adapt_loop al n i bins) \/
    (WithMessages.adapt_loop al n i bins = Raise ValueError /\
     exists x, In x al /\ ~ printable x).
Proof.
  induction bins as [|b rest IH]; intros i; cbn [WithMessages.adapt_loop adapt_loop];
    [left; reflexivity|].
  destruct (adapt_one_messages al n i b) as [->|(-> & _ & _ & Hx)];
    [|right; split; [reflexivity|exact Hx]].
  cbn [bind]. destruct (adapt_one al n i b) as [b' ok]. cbn [fst snd].
  destruct ok; [|left; reflexivity].
  destruct (IH (i + 1)) as [->|(-> & Hx)]; [left; reflexivity|].
  right. split; [reflexivity|exact Hx].
Qed.

Lemma adapt_bins_messages (m : t) (historical_data : list DataPoint) :
  WithMessages.adapt_bins m historical_data = Ret (adapt_bins m historical_data) \/
  (WithMessages.adapt_bins m historical_data = Raise ValueError /\
   exists p, In p historical_data /\ ~ printable (ambient_light p)).
Proof.
  unfold WithMessages.adapt_bins, adapt_bins.
  destruct (Z.of_nat (length historical_data) <? Z.of_nat (length (ambient_bins m)) * 2);
    [left; reflexivity|].
  cbv zeta.
  destruct (adapt_loop_messages
              (sorted_by (fun a => a) (map ambient_light historical_data))
              (Z.of_nat (length (ambient_bins m))) (ambient_bins m) 0)
    as [->|(-> & x & Hx & Hnp)]; [left; reflexivity|].
  right. split; [reflexivity|].
  apply (Permutation_in x (sorted_by_perm (fun a => a) _)) in Hx.
  apply in_map_iff in Hx. destruct Hx as (p & <- & Hp). eauto.
Qed.

Lemma adapt_bins_printable (m : t) (historical_data : list DataPoint) :
  (forall p, In p historical_data -> printable (ambient_light p)) ->
  WithMessages.adapt_bins m historical_data = Ret (adapt_bins m historical_data).
Proof.
  intros Hall.
  destruct (adapt_bins_messages m historical_data) as [E|(_ & p & Hp & Hnp)]; [exact E|].
  elim Hnp. auto.
Qed.

(** X7. Whatever the history, [adapt_bins] raises nothing but the
    [ValueError] of its warning about a bin whose range stays empty, and
    that only when an ambient value of the history has more than 4300
    digits; when every ambient value formats it returns.  The model it
    returns has the same number of bins and, bin by bin, the samples, the
    total weight and the capacity of before; a bound it changed is the
    ambient value of some observation of the history; the smoothing window
    and the coefficients are as before.  No list lookup of its loop is out
    of range: a round that returns never took the [IndexError] path, so
    the handler is never entered. *)
Theorem adapt_bins_keeps_samples (m : t) (historical_data : list DataPoint) :
  (WithMessages.adapt_bins m historical_data = Ret (adapt_bins m historical_data) \/
   (WithMessages.adapt_bins m historical_data = Raise ValueError /\
    exists p, In p historical_data /\ ~ printable (ambient_light p))) /\
  ((forall p, In p historical_data -> printable (ambient_light p)) ->
   WithMessages.adapt_bins m historical_data = Ret (adapt_bins m historical_data)) /\
  (forall m',
     WithMessages.adapt_bins m historical_data = Ret m' ->
     Forall2 (rebinned (map ambient_light historical_data))
       (ambient_bins m) (ambient_bins m') /\
     length (ambient_bins m') = length (ambient_bins m) /\
     same_parameters m m') /\
  (forall i b r,
     nth_error (ambient_bins m) i = Some b ->
     WithMessages.adapt_one (sorted_by (fun a => a) (map ambient_light historical_data))
       (Z.of_nat (length (ambient_bins m))) (Z.of_nat i) b = Ret r ->
     snd r = true).
Proof.
  split; [apply adapt_bins_messages|].
  split; [apply adapt_bins_printable|].
  split.
  - intros m' Hm'.
    assert (E : m' = adapt_bins m historical_data).
    { destruct (adapt_bins_messages m historical_data) as [E|(E & _)];
        rewrite E in Hm'; [congruence|discriminate]. }
    subst m'. pose proof (adapt_bins_rebinned m historical_data) as H.
    split; [exact H|].
    split; [symmetry; eapply Forall2_length; exact H|].
    apply adapt_bins_parameters.
  - intros i b r Hb Hr.
    assert (E : r = adapt_one (sorted_by (fun a => a) (map ambient_light historical_data))
                      (Z.of_nat (length (ambient_bins m))) (Z.of_nat i) b).
    { destruct (adapt_one_messages
                  (sorted_by (fun a => a) (map ambient_light historical_data))
                  (Z.of_nat (length (ambient_bins m))) (Z.of_nat i) b) as [E|(E & _)];
        rewrite E in Hr; [congruence|discriminate]. }
    subst r. apply adapt_one_no_index_error; [|lia].
    assert (i < length (ambient_bins m))%nat; [|lia].
    apply nth_error_Some. congruence.
Qed.

End MessagesFacts.

Section MessagesTrain.
Import EnhancedBrightnessModel.
Context {P : Platform}.

(** Every way through [train] with its messages. *)
Lemma train_messages (m : t) (data_point : DataPoint) (now : Z) (is_active : bool) :
  (is_manual_adjustment data_point = false /\
   WithMessages.train m data_point now is_active = Ret m) \/
  (is_manual_adjustment data_point = true /\
   _is_outlier data_point (_find_last_point_in_bins m) = true /\
   WithMessages.train m data_point now is_active =
     (u <- str_DataPoint data_point ;; Ret m)) \/
  (is_manual_adjustment data_point = true /\
   _is_outlier data_point (_find_last_point_in_bins m) = false /\
   exists e, train_weight m data_point now is_active = Raise e /\
             WithMessages.train m data_point now is_active = Raise e) \/
  (is_manual_adjustment data_point = true /\
   _is_outlier data_point (_find_last_point_in_bins m) = false /\
   exists w, train_weight m data_point now is_active = Ret w /\
             find_target_bin (ambient_bins m) 0 (ambient_light data_point) = None /\
             WithMessages.train m data_point now is_active =
               (u <- str_int (ambient_light data_point) ;; Ret m)) \/
  (is_manual_adjustment data_point = true /\
   _is_outlier data_point (_find_last_point_in_bins m) = false /\
   exists w i, train_weight m data_point now is_active = Ret w /\
               find_target_bin (ambient_bins m) 0 (ambient_light data_point) = Some i /\
               WithMessages.train m data_point now is_active =
                 train m data_point now is_active).
Proof.
  unfold WithMessages.train, train.
  destruct (is_manual_adjustment data_point); cbn [negb]; [|left; auto].
  right.
  destruct (_is_outlier data_point (_find_last_point_in_bins m)); [left; auto|].
  right.
  destruct (train_weight m data_point now is_active) as [w|e]; cbn [bind];
    [|left; split; [reflexivity|split; [reflexivity|eauto]]].
  right.
  destruct (find_target_bin (ambient_bins m) 0 (ambient_light data_point)) as [i|].
  - right. split; [reflexivity|]. split; [reflexivity|]. exists w, i. auto.
  - left. split; [reflexivity|]. split; [reflexivity|]. exists w. auto.
Qed.

End MessagesTrain.

Section MessagesClaims.
Import EnhancedBrightnessModel.
Context {P : Platform}.



(** X17. The exceptions of [train].  It raises only for a manual
    observation, in three places: the message about an outlier, when one
    of the three integers of the observation has more than 4300 digits;
    the weight of an observation that passed the filter; and, the weight
    computed, the message about an ambient value that no bin takes, when
    that value has more than 4300 digits.  The weight raises the
    platform's refusal to convert one of the two timestamps, the
    [OverflowError] of an age or a maximum age beyond the range of a
    double, or the [ZeroDivisionError] of a maximum age that converts to
    zero.  The lookup comes after the weight, so an observation that no bin
    would take raises what the weight raises.  The messages change no
    result: a call that returns gives the model that [train] without
    messages gives, and where that returns the call returns the same or
    raises the [ValueError] of a message. *)
Theorem train_exceptions (m : t) (data_point : DataPoint) (now : Z) (is_active : bool) :
  (forall e,
     WithMessages.train m data_point now is_active = Raise e <->
     is_manual_adjustment data_point = true /\
     ((_is_outlier data_point (_find_last_point_in_bins m) = true /\
       e = ValueError /\
       (~ printable (timestamp data_point) \/ ~ printable (ambient_light data_point) \/
        ~ printable (screen_brightness data_point))) \/
      (_is_outlier data_point (_find_last_point_in_bins m) = false /\
       train_weight m data_point now is_active = Raise e) \/
      (_is_outlier data_point (_find_last_point_in_bins m) = false /\
       (exists w, train_weight m data_point now is_active = Ret w) /\
       find_target_bin (ambient_bins m) 0 (ambient_light data_point) = None /\
       e = ValueError /\
       ~ printable (ambient_light data_point)))) /\
  (forall e,
     train_weight m data_point now is_active = Raise e ->
     localtime_tm_hour now = Raise e \/
     localtime_tm_hour (timestamp data_point) = Raise e \/
     (e = OverflowError /\
      (~ fits_float (Z.max 0 (now - timestamp data_point)) \/
       ~ fits_float (max_age_seconds m))) \/
     (e = ZeroDivisionError /\
      exists f, float_of_int (max_age_seconds m) = Ret f /\ PrimFloat.eqb f 0 = true)) /\
  (forall m',
     WithMessages.train m data_point now is_active = Ret m' ->
     train m data_point now is_active = Ret m') /\
  (forall m',
     train m data_point now is_active = Ret m' ->
     WithMessages.train m data_point now is_active = Ret m' \/
     WithMessages.train m data_point now is_active = Raise ValueError).
Proof.
  split; [|split; [intros e; apply train_weight_raise|]].
  - intros e.
    destruct (train_messages m data_point now is_active)
      as [(Hm & E)|[(Hm & Ho & E)|[(Hm & Ho & e' & Hw & E)|
          [(Hm & Ho & w & Hw & Hf & E)|(Hm & Ho & w & i & Hw & Hf & E)]]]];
      rewrite E; clear E.
    + split; [discriminate|]. intros (Hm' & _). congruence.
    + destruct (str_DataPoint_cases data_point) as [(H1 & H2 & H3 & ->)|(Hnp & ->)];
        cbn [bind].
      * split; [discriminate|].
        intros (_ & [(_ & _ & [H|[H|H]])|[(Ho' & _)|(Ho' & _)]]);
          try contradiction; congruence.
      * split.
        -- intros [= <-]. split; [exact Hm|]. left. auto.
        -- intros (_ & [(_ & -> & _)|[(Ho' & _)|(Ho' & _)]]);
             [reflexivity|congruence|congruence].
    + split.
      * intros [= <-]. split; [exact Hm|]. right. left. auto.
      * intros (_ & [(Ho' & _)|[(_ & Hw')|(_ & (w & Hw') & _)]]); congruence.
    + destruct (str_int_cases (ambient_light data_point)) as [(H1 & ->)|(H1 & ->)];
        cbn [bind].
      * split; [discriminate|].
        intros (_ & [(Ho' & _)|[(_ & Hw')|(_ & _ & _ & _ & Hnp)]]);
          [congruence|congruence|contradiction].
      * split.
        -- intros [= <-]. split; [exact Hm|]. right. right. eauto 6.
        -- intros (_ & [(Ho' & _)|[(_ & Hw')|(_ & _ & _ & -> & _)]]);
             [congruence|congruence|reflexivity].
    + unfold train. rewrite Hm, Ho, Hw, Hf. cbn [negb bind].
      split; [discriminate|].
      intros (_ & [(Ho' & _)|[(_ & Hw')|(_ & _ & Hf' & _)]]); congruence.
  - split.
    + intros m' H.
      destruct (train_messages m data_point now is_active)
        as [(Hm & E)|[(Hm & Ho & E)|[(Hm & Ho & e' & Hw & E)|
            [(Hm & Ho & w & Hw & Hf & E)|(Hm & Ho & w & i & Hw & Hf & E)]]]];
        rewrite E in H; clear E.
      * unfold train. rewrite Hm. exact H.
      * unfold train. rewrite Hm, Ho. cbn [negb].
        destruct (str_DataPoint data_point); [exact H|discriminate].
      * discriminate.
      * unfold train. rewrite Hm, Ho, Hw, Hf. cbn [negb bind].
        destruct (str_int (ambient_light data_point)); [exact H|discriminate].
      * exact H.
    + intros m' H.
      destruct (train_messages m data_point now is_active)
        as [(Hm & E)|[(Hm & Ho & E)|[(Hm & Ho & e' & Hw & E)|
            [(Hm & Ho & w & Hw & Hf & E)|(Hm & Ho & w & i & Hw & Hf & E)]]]];
        rewrite E; clear E.
      * left. unfold train in H. rewrite Hm in H. exact H.
      * unfold train in H. rewrite Hm, Ho in H. cbn [negb] in H.
        destruct (str_DataPoint_cases data_point) as [(_ & _ & _ & ->)|(_ & ->)];
          [left; exact H|right; reflexivity].
      * unfold train in H. rewrite Hm, Ho, Hw in H. discriminate.
      * unfold train in H. rewrite Hm, Ho, Hw, Hf in H. cbn [negb bind] in H.
        destruct (str_int_cases (ambient_light data_point)) as [(_ & ->)|(_ & ->)];
          [left; exact H|right; reflexivity].
      * left. exact H.
Qed.

End MessagesClaims.

(** ** The messages: concrete runs *)

Section MessagesRun.
Import EnhancedBrightnessModel.

Lemma huge_not_printable : ~ printable huge.
Proof.
  unfold printable, huge. rewrite Z.abs_eq by (apply Z.pow_nonneg; lia).
  apply Z.lt_irrefl.
Qed.

Lemma huge_large : 100 < huge.
Proof.
  unfold huge, int_max_str_digits.
  apply Z.lt_le_trans with (10 ^ 3); [reflexivity|].
  apply Z.pow_le_mono_r; [reflexivity|discriminate].
Qed.

(** The warning of [adapt_bins] about an empty range raises when the
    bounds do not format. *)
Lemma adapt_bins_message_raises (a : Z) :
  ~ printable a ->
  WithMessages.adapt_bins demo_model (degenerate_history a) = Raise ValueError.
Proof.
  intros Hnp. unfold WithMessages.adapt_bins.
  cbn. rewrite !Z.leb_refl. cbn. rewrite !Z.leb_refl. cbn. rewrite !Z.leb_refl.
  unfold WithMessages.adapt_one. cbn.
  change (Pos.to_nat 1) with 1%nat. change (Pos.to_nat 2) with 2%nat.
  change (Pos.to_nat 3) with 3%nat. cbn [nth_error].
  rewrite !Z.geb_leb, !Z.leb_refl. cbn [andb].
  unfold WithMessages.warn_degenerate. cbn [set_max_value set_min_value
    AdaptiveBin.min_value AdaptiveBin.max_value].
  rewrite !Z.geb_leb, !Z.leb_refl.
  destruct (str_int_cases a) as [(Hp & _)|(_ & ->)]; [contradiction|]. reflexivity.
Qed.

(** On four automatic observations of an ambient value of 4301 digits,
    [adapt_bins] and [load_historical_data] raise. *)
Lemma load_historical_data_message_raises :
  WithMessages.adapt_bins demo_model (degenerate_history huge) = Raise ValueError /\
  @WithMessages.load_historical_data utc demo_model (degenerate_history huge) 0 true =
    Raise ValueError.
Proof.
  pose proof (adapt_bins_message_raises huge huge_not_printable) as H.
  split; [exact H|]. unfold WithMessages.load_historical_data. rewrite H. reflexivity.
Qed.

(** The message of [train] about an outlier raises when the brightness of
    the observation does not format. *)
Lemma train_message_raises {P : Platform} (a now : Z) (is_active : bool) :
  100 < a -> ~ printable a ->
  WithMessages.train trained_model (mkDataPoint noon 10 a true) now is_active =
    Raise ValueError.
Proof.
  intros Ha Hnp. unfold WithMessages.train. cbn [is_manual_adjustment negb].
  replace (_find_last_point_in_bins trained_model)
    with (Some (mkDataPoint noon 25 20 true)) by (vm_compute; reflexivity).
  unfold _is_outlier. cbn [screen_brightness ambient_light].
  destruct (Z.gtb_spec (Z.abs (a - 20)) 80) as [_|Hle]; [|lia]. cbn [orb].
  destruct (str_DataPoint_cases (mkDataPoint noon 10 a true))
    as [(_ & _ & H3 & _)|(_ & ->)]; [contradiction|reflexivity].
Qed.

Lemma train_message_raises_huge :
  @WithMessages.train utc trained_model (mkDataPoint noon 10 huge true) noon true =
    Raise ValueError.
Proof. apply train_message_raises; [apply huge_large|apply huge_not_printable]. Qed.


End MessagesRun.
